(** * learnOpenGL: the window program and the wireframe quad program

    A shallow embedding of the two programs of the repository,

    - [HelloWindow]: [src/cr1ms0nh3ad_opengl/main.cpp], which opens a window
      and clears it every frame;
    - [HelloQuad]: the second program, which also builds a shader program,
      uploads an indexed quad and draws it in wireframe every frame.

    Both are straight-line sequences of GLFW and OpenGL calls followed by a
    [while] loop.  The calls act on a [World]: the state of the OpenGL
    context, the state of the windowing library, the console, and the
    chronological list of API calls made so far.  Whatever the libraries
    decide on their own (whether the window can be created, whether a shader
    compiles, the key state, the events a poll delivers, among them a request
    of the user to close the window) is an input, [Env]. *)

From Stdlib Require Import ZArith NArith QArith String Ascii List Bool Lia.
From stdpp Require Import base option gmap.
Import ListNotations.

Local Open Scope string_scope.
Local Open Scope Z_scope.

(** ** C types *)

Abbreviation GLuint := N.
Abbreviation GLint := Z.
Abbreviation GLsizei := Z.
Abbreviation GLfloat := Q.

(** [sizeof(float)] and [sizeof(unsigned int)] on the platforms OpenGL
    supports: [GLfloat] and [GLuint] are 32 bits wide. *)
Definition sizeof_float : Z := 4.
Definition sizeof_uint : Z := 4.

(** A literal with the suffix [f] is the binary32 value nearest to the
    decimal written, ties going to the even significand: 24 significant bits
    in the binade of the value.  (Within the normal range, where the literals
    of the two programs lie.) *)
Definition round_half_even (q : Q) : Z :=
  let n := Qnum q in
  let d := Z.pos (Qden q) in
  let f := n / d in
  match (2 * (n mod d) ?= d) with
  | Lt => f
  | Gt => f + 1
  | Eq => if Z.even f then f else f + 1
  end.

(** The [e] with [2 ^ e <= q < 2 ^ (e + 1)], for a positive [q]. *)
Definition binade (q : Q) : Z :=
  let e := Z.log2 (Qnum q) - Z.log2 (Z.pos (Qden q)) in
  if Qle_bool (2 ^ e)%Q q then e else e - 1.

Definition float_literal (q : Q) : GLfloat :=
  match Qnum q with
  | 0 => 0%Q
  | Z.pos _ =>
      let ulp := (2 ^ (binade q - 23))%Q in
      Qred (inject_Z (round_half_even (q / ulp)) * ulp)
  | Z.neg _ =>
      let ulp := (2 ^ (binade (- q) - 23))%Q in
      Qred (- (inject_Z (round_half_even (- q / ulp)) * ulp))
  end.

Definition nl : string := String (ascii_of_nat 10) EmptyString.
Definition tab : string := String (ascii_of_nat 9) EmptyString.

(** The enumerants the two programs pass to OpenGL. *)
Inductive GLenum :=
| GL_VERTEX_SHADER | GL_FRAGMENT_SHADER
| GL_COMPILE_STATUS | GL_LINK_STATUS
| GL_ARRAY_BUFFER | GL_ELEMENT_ARRAY_BUFFER
| GL_STATIC_DRAW
| GL_FLOAT | GL_UNSIGNED_INT
| GL_FRONT_AND_BACK | GL_FILL | GL_LINE
| GL_TRIANGLES.

#[global] Instance GLenum_eq_dec : EqDecision GLenum.
Proof. solve_decision. Defined.

Inductive GLbitfield := GL_COLOR_BUFFER_BIT.

Inductive GLFWhint :=
| GLFW_CONTEXT_VERSION_MAJOR | GLFW_CONTEXT_VERSION_MINOR | GLFW_OPENGL_PROFILE.

Definition GLFW_OPENGL_CORE_PROFILE : Z := 204801. (* 0x00032001 *)

Inductive GLFWkey := GLFW_KEY_BACKSPACE.

(** What [glfwGetKey] returns. *)
Inductive KeyState := GLFW_RELEASE | GLFW_PRESS.

#[global] Instance KeyState_eq_dec : EqDecision KeyState.
Proof. solve_decision. Defined.

(** [GLFWwindow*]: [None] is [NULL]. *)
Inductive GLFWwindow := WindowPtr (id : N).

(** ** The API calls, as the trace records them *)

Inductive Call :=
| Call_glfwInit
| Call_glfwWindowHint (hint : GLFWhint) (value : Z)
| Call_glfwCreateWindow (width height : Z) (title : string)
| Call_glfwTerminate
| Call_glfwMakeContextCurrent (window : GLFWwindow)
| Call_glfwSetFramebufferSizeCallback (window : GLFWwindow)
| Call_gladLoadGLLoader
| Call_glfwWindowShouldClose (window : GLFWwindow)
| Call_glfwGetKey (window : GLFWwindow) (key : GLFWkey)
| Call_glfwSetWindowShouldClose (window : GLFWwindow) (value : bool)
| Call_glfwSwapBuffers (window : GLFWwindow)
| Call_glfwPollEvents
| Call_framebuffer_size_callback (window : GLFWwindow) (width height : GLint)
| Call_glViewport (x y : GLint) (width height : GLsizei)
| Call_glCreateShader (type : GLenum)
| Call_glShaderSource (shader : GLuint) (source : string)
| Call_glCompileShader (shader : GLuint)
| Call_glGetShaderiv (shader : GLuint) (pname : GLenum)
| Call_glGetShaderInfoLog (shader : GLuint) (bufSize : GLsizei)
| Call_glCreateProgram
| Call_glAttachShader (program shader : GLuint)
| Call_glLinkProgram (program : GLuint)
| Call_glGetProgramiv (program : GLuint) (pname : GLenum)
| Call_glGetProgramInfoLog (program : GLuint) (bufSize : GLsizei)
| Call_glDeleteShader (shader : GLuint)
| Call_glGenVertexArrays (n : GLsizei)
| Call_glGenBuffers (n : GLsizei)
| Call_glBindVertexArray (array : GLuint)
| Call_glBindBuffer (target : GLenum) (buffer : GLuint)
| Call_glBufferData (target : GLenum) (size : Z) (usage : GLenum)
| Call_glVertexAttribPointer (index : GLuint) (size : GLint) (type : GLenum)
    (normalized : bool) (stride : GLsizei) (pointer : Z)
| Call_glEnableVertexAttribArray (index : GLuint)
| Call_glPolygonMode (face mode : GLenum)
| Call_glClearColor (r g b a : GLfloat)
| Call_glClear (mask : GLbitfield)
| Call_glUseProgram (program : GLuint)
| Call_glDrawElements (mode : GLenum) (count : GLsizei) (type : GLenum) (indices : Z)
| Call_cout (text : string).

(** ** The state of the OpenGL context *)

Record Shader := mkShader {
  sh_type : GLenum;
  sh_source : string;
  sh_compile_status : bool;
  sh_info_log : string;
  sh_delete_status : bool   (* [glDeleteShader] was called on it *)
}.

Record Program := mkProgram {
  pr_attached : list GLuint;
  pr_link_status : bool;
  pr_info_log : string
}.

(** What a data store holds: the arrays the program uploads. *)
Inductive BufferData :=
| NoData
| FloatData (elems : list GLfloat)
| UIntData (elems : list GLuint).

Record Buffer := mkBuffer {
  buf_size : Z;             (* in bytes *)
  buf_data : BufferData;
  buf_usage : GLenum
}.

Record VertexAttrib := mkVertexAttrib {
  va_enabled : bool;
  va_size : GLint;
  va_type : GLenum;
  va_normalized : bool;
  va_stride : GLsizei;
  va_pointer : Z;
  va_buffer : GLuint        (* the array buffer bound when the pointer was set *)
}.

Definition default_attrib : VertexAttrib :=
  mkVertexAttrib false 4 GL_FLOAT false 0 0 0%N.

Record VertexArray := mkVertexArray {
  vao_attribs : gmap N VertexAttrib;
  vao_element_buffer : GLuint
}.

Definition Rect : Type := Z * Z * Z * Z.
Definition Color : Type := Q * Q * Q * Q.

(** A draw call consumes the context state it is issued under. *)
Record Draw := mkDraw {
  d_mode : GLenum;
  d_count : GLsizei;
  d_type : GLenum;
  d_indices : Z;
  d_program : GLuint;
  d_vertex_array : GLuint;
  d_element_buffer : GLuint;
  d_polygon_mode : GLenum * GLenum;
  d_viewport : Rect
}.

(** What reaches the framebuffer of the window, in order.  The list is a
    record of what has happened, like the trace of the calls: it is kept when
    the context that did it is destroyed. *)
Inductive FrameOp :=
| Cleared (mask : GLbitfield) (color : Color)
| Drawn (d : Draw)
| Presented.

Record GLState := mkGL {
  shaders : gmap N Shader;
  programs : gmap N Program;
  next_object : N;          (* shaders and programs share one name space *)
  buffers : gmap N Buffer;
  next_buffer : N;
  vertex_arrays : gmap N VertexArray;
  next_vertex_array : N;
  array_buffer_binding : GLuint;
  vertex_array_binding : GLuint;
  current_program : GLuint;
  polygon_mode : GLenum * GLenum;
  viewport : Rect;
  clear_color : Color;
  frame_ops : list FrameOp
}.

(** ** The state of the windowing library *)

(** The events a poll can find.  The programs install one callback, for
    changes of the framebuffer size, and sample the keyboard with
    [glfwGetKey].  A request of the user to close the window (the close
    widget of the title bar, Alt+F4) is an event too: the library sets the
    should-close flag of the window when it processes it.  So the flag has
    two writers, [glfwSetWindowShouldClose] and [glfwPollEvents]. *)
Inductive WindowEvent :=
| FramebufferSize (width height : N)
| WindowClose.

Record Window := mkWindow {
  win_width : Z;
  win_height : Z;
  win_title : string;
  win_framebuffer : N * N;               (* size of the framebuffer at creation *)
  win_should_close : bool;
  win_context_current : bool;
  win_framebuffer_size_callback : bool;  (* the program's callback is installed *)
  win_backspace : KeyState;              (* what [glfwGetKey] reports now *)
  win_pending : list WindowEvent         (* events waiting for the next poll *)
}.

Record GLFWState := mkGLFW {
  glfw_initialized : bool;
  glfw_hints : list (GLFWhint * Z);
  glfw_window : option Window
}.

Record World := mkWorld {
  gl : GLState;
  glfw : GLFWState;
  console : list string;
  trace : list Call
}.

(** ** What the libraries decide *)

(** The GLSL compiler and linker of the driver: a status and an info log. *)
Record Driver := mkDriver {
  drv_compile : GLenum -> string -> bool * string;
  drv_link : list (GLenum * string) -> bool * string
}.

(** One iteration of a frame loop: the key state [glfwGetKey] sees, and the
    events [glfwPollEvents] finds pending at the end of the iteration. *)
Record FrameInput := mkFrame {
  fi_backspace : KeyState;
  fi_events : list WindowEvent
}.

Record Env := mkEnv {
  env_window_ok : bool;             (* [glfwCreateWindow] returns non-NULL *)
  env_framebuffer : N * N;          (* size of the new window's framebuffer *)
  env_loader_ok : bool;             (* [gladLoadGLLoader] returns non-zero *)
  env_driver : Driver;
  env_frames : list FrameInput
}.

(** ** State passing *)

Definition M (A : Type) : Type := World -> A * World.

Definition ret {A} (a : A) : M A := fun w => (a, w).

Definition bind {A B} (c : M A) (k : A -> M B) : M B :=
  fun w => let (a, w') := c w in k a w'.

Notation "x <- c ;; k" := (bind c (fun x => k))
  (at level 100, c at next level, right associativity).
Notation "c ;; k" := (bind c (fun _ => k))
  (at level 100, right associativity).

Definition exec {A} (c : M A) (w : World) : World := snd (c w).
Definition eval {A} (c : M A) (w : World) : A := fst (c w).

Definition called (c : Call) : M unit :=
  fun w => (tt, mkWorld (gl w) (glfw w) (console w) (trace w ++ [c])).

Definition modify_gl (f : GLState -> GLState) : M unit :=
  fun w => (tt, mkWorld (f (gl w)) (glfw w) (console w) (trace w)).

Definition modify_glfw (f : GLFWState -> GLFWState) : M unit :=
  fun w => (tt, mkWorld (gl w) (f (glfw w)) (console w) (trace w)).

Definition read_gl {A} (f : GLState -> A) : M A := fun w => (f (gl w), w).
Definition read_glfw {A} (f : GLFWState -> A) : M A := fun w => (f (glfw w), w).

(** [std::cout << a << b << std::endl]: one line of console output. *)
Definition cout (text : string) : M unit :=
  called (Call_cout text) ;;
  fun w => (tt, mkWorld (gl w) (glfw w) (console w ++ [text]) (trace w)).

(** *** Field updates of [GLState] *)

Definition set_shaders (v : gmap N Shader) (g : GLState) : GLState :=
  mkGL v (programs g) (next_object g) (buffers g) (next_buffer g)
    (vertex_arrays g) (next_vertex_array g) (array_buffer_binding g)
    (vertex_array_binding g) (current_program g) (polygon_mode g)
    (viewport g) (clear_color g) (frame_ops g).

Definition set_programs (v : gmap N Program) (g : GLState) : GLState :=
  mkGL (shaders g) v (next_object g) (buffers g) (next_buffer g)
    (vertex_arrays g) (next_vertex_array g) (array_buffer_binding g)
    (vertex_array_binding g) (current_program g) (polygon_mode g)
    (viewport g) (clear_color g) (frame_ops g).

Definition set_next_object (v : N) (g : GLState) : GLState :=
  mkGL (shaders g) (programs g) v (buffers g) (next_buffer g)
    (vertex_arrays g) (next_vertex_array g) (array_buffer_binding g)
    (vertex_array_binding g) (current_program g) (polygon_mode g)
    (viewport g) (clear_color g) (frame_ops g).

Definition set_buffers (v : gmap N Buffer) (g : GLState) : GLState :=
  mkGL (shaders g) (programs g) (next_object g) v (next_buffer g)
    (vertex_arrays g) (next_vertex_array g) (array_buffer_binding g)
    (vertex_array_binding g) (current_program g) (polygon_mode g)
    (viewport g) (clear_color g) (frame_ops g).

Definition set_next_buffer (v : N) (g : GLState) : GLState :=
  mkGL (shaders g) (programs g) (next_object g) (buffers g) v
    (vertex_arrays g) (next_vertex_array g) (array_buffer_binding g)
    (vertex_array_binding g) (current_program g) (polygon_mode g)
    (viewport g) (clear_color g) (frame_ops g).

Definition set_vertex_arrays (v : gmap N VertexArray) (g : GLState) : GLState :=
  mkGL (shaders g) (programs g) (next_object g) (buffers g) (next_buffer g)
    v (next_vertex_array g) (array_buffer_binding g)
    (vertex_array_binding g) (current_program g) (polygon_mode g)
    (viewport g) (clear_color g) (frame_ops g).

Definition set_next_vertex_array (v : N) (g : GLState) : GLState :=
  mkGL (shaders g) (programs g) (next_object g) (buffers g) (next_buffer g)
    (vertex_arrays g) v (array_buffer_binding g)
    (vertex_array_binding g) (current_program g) (polygon_mode g)
    (viewport g) (clear_color g) (frame_ops g).

Definition set_array_buffer_binding (v : GLuint) (g : GLState) : GLState :=
  mkGL (shaders g) (programs g) (next_object g) (buffers g) (next_buffer g)
    (vertex_arrays g) (next_vertex_array g) v
    (vertex_array_binding g) (current_program g) (polygon_mode g)
    (viewport g) (clear_color g) (frame_ops g).

Definition set_vertex_array_binding (v : GLuint) (g : GLState) : GLState :=
  mkGL (shaders g) (programs g) (next_object g) (buffers g) (next_buffer g)
    (vertex_arrays g) (next_vertex_array g) (array_buffer_binding g)
    v (current_program g) (polygon_mode g)
    (viewport g) (clear_color g) (frame_ops g).

Definition set_current_program (v : GLuint) (g : GLState) : GLState :=
  mkGL (shaders g) (programs g) (next_object g) (buffers g) (next_buffer g)
    (vertex_arrays g) (next_vertex_array g) (array_buffer_binding g)
    (vertex_array_binding g) v (polygon_mode g)
    (viewport g) (clear_color g) (frame_ops g).

Definition set_polygon_mode (v : GLenum * GLenum) (g : GLState) : GLState :=
  mkGL (shaders g) (programs g) (next_object g) (buffers g) (next_buffer g)
    (vertex_arrays g) (next_vertex_array g) (array_buffer_binding g)
    (vertex_array_binding g) (current_program g) v
    (viewport g) (clear_color g) (frame_ops g).

Definition set_viewport (v : Rect) (g : GLState) : GLState :=
  mkGL (shaders g) (programs g) (next_object g) (buffers g) (next_buffer g)
    (vertex_arrays g) (next_vertex_array g) (array_buffer_binding g)
    (vertex_array_binding g) (current_program g) (polygon_mode g)
    v (clear_color g) (frame_ops g).

Definition set_clear_color (v : Color) (g : GLState) : GLState :=
  mkGL (shaders g) (programs g) (next_object g) (buffers g) (next_buffer g)
    (vertex_arrays g) (next_vertex_array g) (array_buffer_binding g)
    (vertex_array_binding g) (current_program g) (polygon_mode g)
    (viewport g) v (frame_ops g).

Definition push_frame_op (op : FrameOp) (g : GLState) : GLState :=
  mkGL (shaders g) (programs g) (next_object g) (buffers g) (next_buffer g)
    (vertex_arrays g) (next_vertex_array g) (array_buffer_binding g)
    (vertex_array_binding g) (current_program g) (polygon_mode g)
    (viewport g) (clear_color g) (frame_ops g ++ [op]).

(** *** Field updates of [Window] *)

Definition set_should_close (v : bool) (x : Window) : Window :=
  mkWindow (win_width x) (win_height x) (win_title x) (win_framebuffer x)
    v (win_context_current x) (win_framebuffer_size_callback x)
    (win_backspace x) (win_pending x).

Definition set_context_current (v : bool) (x : Window) : Window :=
  mkWindow (win_width x) (win_height x) (win_title x) (win_framebuffer x)
    (win_should_close x) v (win_framebuffer_size_callback x)
    (win_backspace x) (win_pending x).

Definition set_framebuffer_size_callback (v : bool) (x : Window) : Window :=
  mkWindow (win_width x) (win_height x) (win_title x) (win_framebuffer x)
    (win_should_close x) (win_context_current x) v
    (win_backspace x) (win_pending x).

Definition set_backspace (v : KeyState) (x : Window) : Window :=
  mkWindow (win_width x) (win_height x) (win_title x) (win_framebuffer x)
    (win_should_close x) (win_context_current x)
    (win_framebuffer_size_callback x) v (win_pending x).

Definition set_pending (v : list WindowEvent) (x : Window) : Window :=
  mkWindow (win_width x) (win_height x) (win_title x) (win_framebuffer x)
    (win_should_close x) (win_context_current x)
    (win_framebuffer_size_callback x) (win_backspace x) v.

Definition modify_window (f : Window -> Window) : M unit :=
  modify_glfw (fun s =>
    mkGLFW (glfw_initialized s) (glfw_hints s) (f <$> glfw_window s)).

(** ** The OpenGL calls the programs make

    Each call is logged and then applies a transition to the context
    state; calls that return something read it from the state. *)

Definition initial_gl : GLState :=
  mkGL ∅ ∅ 1%N ∅ 1%N ∅ 1%N 0%N 0%N 0%N (GL_FRONT_AND_BACK, GL_FILL)
    (0, 0, 0, 0) (0%Q, 0%Q, 0%Q, 0%Q) [].

(** [GL_INVALID_VALUE] for a negative size: the viewport stays as it is. *)
Definition viewport_to (x y : GLint) (width height : GLsizei) (g : GLState)
    : GLState :=
  if (width <? 0) || (height <? 0) then g
  else set_viewport (x, y, width, height) g.

Definition glViewport (x y : GLint) (width height : GLsizei) : M unit :=
  called (Call_glViewport x y width height) ;;
  modify_gl (viewport_to x y width height).

Definition create_shader (type : GLenum) (g : GLState) : GLState :=
  set_next_object (next_object g + 1)%N
    (set_shaders
       (<[next_object g := mkShader type "" false "" false]> (shaders g)) g).

Definition glCreateShader (type : GLenum) : M GLuint :=
  called (Call_glCreateShader type) ;;
  name <- read_gl next_object ;;
  modify_gl (create_shader type) ;;
  ret name.

Definition shader_source (shader : GLuint) (source : string) (g : GLState)
    : GLState :=
  set_shaders
    (alter (fun s => mkShader (sh_type s) source (sh_compile_status s)
                       (sh_info_log s) (sh_delete_status s))
       shader (shaders g)) g.

(** [glShaderSource(shader, 1, &source, NULL)]: one NUL-terminated string. *)
Definition glShaderSource (shader : GLuint) (source : string) : M unit :=
  called (Call_glShaderSource shader source) ;;
  modify_gl (shader_source shader source).

Definition compile_shader (drv : Driver) (shader : GLuint) (g : GLState)
    : GLState :=
  set_shaders
    (alter (fun s =>
              let (ok, log) := drv_compile drv (sh_type s) (sh_source s) in
              mkShader (sh_type s) (sh_source s) ok log (sh_delete_status s))
       shader (shaders g)) g.

Definition glCompileShader (drv : Driver) (shader : GLuint) : M unit :=
  called (Call_glCompileShader shader) ;;
  modify_gl (compile_shader drv shader).

Definition GLboolean_to_int (b : bool) : GLint := if b then 1 else 0.

(** [glGetShaderiv(shader, GL_COMPILE_STATUS, &params)]: the value written
    to [params]. *)
Definition glGetShaderiv (shader : GLuint) (pname : GLenum) : M GLint :=
  called (Call_glGetShaderiv shader pname) ;;
  read_gl (fun g =>
    match shaders g !! shader with
    | Some s => GLboolean_to_int (sh_compile_status s)
    | None => 0
    end).

(** An info log read into a buffer of [bufSize] bytes: at most
    [bufSize - 1] characters and the terminating NUL. *)
Definition read_log (bufSize : GLsizei) (log : string) : string :=
  substring 0 (Z.to_nat (bufSize - 1)) log.

Definition glGetShaderInfoLog (shader : GLuint) (bufSize : GLsizei) : M string :=
  called (Call_glGetShaderInfoLog shader bufSize) ;;
  read_gl (fun g =>
    match shaders g !! shader with
    | Some s => read_log bufSize (sh_info_log s)
    | None => ""
    end).

Definition create_program (g : GLState) : GLState :=
  set_next_object (next_object g + 1)%N
    (set_programs (<[next_object g := mkProgram [] false ""]> (programs g)) g).

Definition glCreateProgram : M GLuint :=
  called Call_glCreateProgram ;;
  name <- read_gl next_object ;;
  modify_gl create_program ;;
  ret name.

Definition attach_shader (program shader : GLuint) (g : GLState) : GLState :=
  set_programs
    (alter (fun p => mkProgram (pr_attached p ++ [shader]) (pr_link_status p)
                       (pr_info_log p))
       program (programs g)) g.

Definition glAttachShader (program shader : GLuint) : M unit :=
  called (Call_glAttachShader program shader) ;;
  modify_gl (attach_shader program shader).

Definition attached_shaders (g : GLState) (p : Program) : list Shader :=
  omap (fun name => shaders g !! name) (pr_attached p).

(** Linking fails when an attached shader is not compiled; otherwise the
    driver's linker decides. *)
Definition link_program (drv : Driver) (program : GLuint) (g : GLState)
    : GLState :=
  set_programs
    (alter (fun p =>
              let stages := attached_shaders g p in
              let (ok, log) :=
                drv_link drv (map (fun s => (sh_type s, sh_source s)) stages) in
              mkProgram (pr_attached p)
                (forallb sh_compile_status stages && ok) log)
       program (programs g)) g.

Definition glLinkProgram (drv : Driver) (program : GLuint) : M unit :=
  called (Call_glLinkProgram program) ;;
  modify_gl (link_program drv program).

Definition glGetProgramiv (program : GLuint) (pname : GLenum) : M GLint :=
  called (Call_glGetProgramiv program pname) ;;
  read_gl (fun g =>
    match programs g !! program with
    | Some p => GLboolean_to_int (pr_link_status p)
    | None => 0
    end).

Definition glGetProgramInfoLog (program : GLuint) (bufSize : GLsizei) : M string :=
  called (Call_glGetProgramInfoLog program bufSize) ;;
  read_gl (fun g =>
    match programs g !! program with
    | Some p => read_log bufSize (pr_info_log p)
    | None => ""
    end).

Definition is_attached (g : GLState) (shader : GLuint) : bool :=
  bool_decide (map_Exists (fun _ p => shader ∈ pr_attached p) (programs g)).

(** A shader attached to a program is only flagged for deletion; a shader
    attached to none is gone at once. *)
Definition delete_shader (shader : GLuint) (g : GLState) : GLState :=
  if is_attached g shader then
    set_shaders
      (alter (fun s => mkShader (sh_type s) (sh_source s) (sh_compile_status s)
                         (sh_info_log s) true)
         shader (shaders g)) g
  else set_shaders (delete shader (shaders g)) g.

Definition glDeleteShader (shader : GLuint) : M unit :=
  called (Call_glDeleteShader shader) ;;
  modify_gl (delete_shader shader).

(** [glGenVertexArrays(1, &array)]: one fresh name. *)
Definition glGenVertexArrays : M GLuint :=
  called (Call_glGenVertexArrays 1) ;;
  name <- read_gl next_vertex_array ;;
  modify_gl (fun g => set_next_vertex_array (next_vertex_array g + 1)%N g) ;;
  ret name.

(** [glGenBuffers(1, &buffer)]: one fresh name. *)
Definition glGenBuffers : M GLuint :=
  called (Call_glGenBuffers 1) ;;
  name <- read_gl next_buffer ;;
  modify_gl (fun g => set_next_buffer (next_buffer g + 1)%N g) ;;
  ret name.

Definition empty_vertex_array : VertexArray := mkVertexArray ∅ 0%N.
Definition empty_buffer : Buffer := mkBuffer 0 NoData GL_STATIC_DRAW.

(** A name becomes an object when it is first bound. *)
Definition touch_vertex_array (array : GLuint) (g : GLState) : GLState :=
  if (array =? 0)%N then g
  else match vertex_arrays g !! array with
       | Some _ => g
       | None =>
           set_vertex_arrays (<[array := empty_vertex_array]> (vertex_arrays g)) g
       end.

Definition touch_buffer (buffer : GLuint) (g : GLState) : GLState :=
  if (buffer =? 0)%N then g
  else match buffers g !! buffer with
       | Some _ => g
       | None => set_buffers (<[buffer := empty_buffer]> (buffers g)) g
       end.

Definition bind_vertex_array (array : GLuint) (g : GLState) : GLState :=
  set_vertex_array_binding array (touch_vertex_array array g).

Definition glBindVertexArray (array : GLuint) : M unit :=
  called (Call_glBindVertexArray array) ;;
  modify_gl (bind_vertex_array array).

(** The element array binding belongs to the bound vertex array object. *)
Definition bind_buffer (target : GLenum) (buffer : GLuint) (g : GLState)
    : GLState :=
  match target with
  | GL_ARRAY_BUFFER => set_array_buffer_binding buffer (touch_buffer buffer g)
  | GL_ELEMENT_ARRAY_BUFFER =>
      set_vertex_arrays
        (alter (fun a => mkVertexArray (vao_attribs a) buffer)
           (vertex_array_binding g) (vertex_arrays g))
        (touch_buffer buffer g)
  | _ => g
  end.

Definition glBindBuffer (target : GLenum) (buffer : GLuint) : M unit :=
  called (Call_glBindBuffer target buffer) ;;
  modify_gl (bind_buffer target buffer).

Definition bound_buffer (target : GLenum) (g : GLState) : GLuint :=
  match target with
  | GL_ARRAY_BUFFER => array_buffer_binding g
  | GL_ELEMENT_ARRAY_BUFFER =>
      match vertex_arrays g !! vertex_array_binding g with
      | Some a => vao_element_buffer a
      | None => 0%N
      end
  | _ => 0%N
  end.

Definition buffer_data (target : GLenum) (size : Z) (data : BufferData)
    (usage : GLenum) (g : GLState) : GLState :=
  set_buffers
    (alter (fun _ => mkBuffer size data usage) (bound_buffer target g) (buffers g)) g.

Definition glBufferData (target : GLenum) (size : Z) (data : BufferData)
    (usage : GLenum) : M unit :=
  called (Call_glBufferData target size usage) ;;
  modify_gl (buffer_data target size data usage).

Definition attrib_of (a : VertexArray) (index : GLuint) : VertexAttrib :=
  default default_attrib (vao_attribs a !! index).

Definition vertex_attrib_pointer (index : GLuint) (size : GLint) (type : GLenum)
    (normalized : bool) (stride : GLsizei) (pointer : Z) (g : GLState)
    : GLState :=
  set_vertex_arrays
    (alter (fun a =>
              mkVertexArray
                (<[index := mkVertexAttrib (va_enabled (attrib_of a index)) size type
                              normalized stride pointer (array_buffer_binding g)]>
                   (vao_attribs a))
                (vao_element_buffer a))
       (vertex_array_binding g) (vertex_arrays g)) g.

Definition glVertexAttribPointer (index : GLuint) (size : GLint) (type : GLenum)
    (normalized : bool) (stride : GLsizei) (pointer : Z) : M unit :=
  called (Call_glVertexAttribPointer index size type normalized stride pointer) ;;
  modify_gl (vertex_attrib_pointer index size type normalized stride pointer).

Definition enable_vertex_attrib_array (index : GLuint) (g : GLState) : GLState :=
  set_vertex_arrays
    (alter (fun a =>
              let v := attrib_of a index in
              mkVertexArray
                (<[index := mkVertexAttrib true (va_size v) (va_type v)
                              (va_normalized v) (va_stride v) (va_pointer v)
                              (va_buffer v)]>
                   (vao_attribs a))
                (vao_element_buffer a))
       (vertex_array_binding g) (vertex_arrays g)) g.

Definition glEnableVertexAttribArray (index : GLuint) : M unit :=
  called (Call_glEnableVertexAttribArray index) ;;
  modify_gl (enable_vertex_attrib_array index).

Definition glPolygonMode (face mode : GLenum) : M unit :=
  called (Call_glPolygonMode face mode) ;;
  modify_gl (set_polygon_mode (face, mode)).

Definition glClearColor (r g b a : GLfloat) : M unit :=
  called (Call_glClearColor r g b a) ;;
  modify_gl (set_clear_color (r, g, b, a)).

Definition clear (mask : GLbitfield) (g : GLState) : GLState :=
  push_frame_op (Cleared mask (clear_color g)) g.

Definition glClear (mask : GLbitfield) : M unit :=
  called (Call_glClear mask) ;;
  modify_gl (clear mask).

(** [GL_INVALID_OPERATION] for a program that is not linked: the current
    program stays as it is. *)
Definition use_program (program : GLuint) (g : GLState) : GLState :=
  if (program =? 0)%N then set_current_program 0%N g
  else match programs g !! program with
       | Some p => if pr_link_status p then set_current_program program g else g
       | None => g
       end.

Definition glUseProgram (program : GLuint) : M unit :=
  called (Call_glUseProgram program) ;;
  modify_gl (use_program program).

Definition draw_elements (mode : GLenum) (count : GLsizei) (type : GLenum)
    (indices : Z) (g : GLState) : GLState :=
  push_frame_op
    (Drawn (mkDraw mode count type indices (current_program g)
              (vertex_array_binding g) (bound_buffer GL_ELEMENT_ARRAY_BUFFER g)
              (polygon_mode g) (viewport g))) g.

Definition glDrawElements (mode : GLenum) (count : GLsizei) (type : GLenum)
    (indices : Z) : M unit :=
  called (Call_glDrawElements mode count type indices) ;;
  modify_gl (draw_elements mode count type indices).

(** ** The GLFW and GLAD calls the programs make *)

Definition initial_glfw : GLFWState := mkGLFW false [] None.

Definition initial_world : World := mkWorld initial_gl initial_glfw [] [].

Definition the_window : GLFWwindow := WindowPtr 1.

Definition glfwInit : M unit :=
  called Call_glfwInit ;;
  modify_glfw (fun s => mkGLFW true (glfw_hints s) (glfw_window s)).

Definition glfwWindowHint (hint : GLFWhint) (value : Z) : M unit :=
  called (Call_glfwWindowHint hint value) ;;
  modify_glfw (fun s =>
    mkGLFW (glfw_initialized s) (glfw_hints s ++ [(hint, value)]) (glfw_window s)).

(** [glfwCreateWindow(width, height, title, NULL, NULL)]. *)
Definition glfwCreateWindow (env : Env) (width height : Z) (title : string)
    : M (option GLFWwindow) :=
  called (Call_glfwCreateWindow width height title) ;;
  if env_window_ok env then
    modify_glfw (fun s =>
      mkGLFW (glfw_initialized s) (glfw_hints s)
        (Some (mkWindow width height title (env_framebuffer env)
                 false false false GLFW_RELEASE []))) ;;
    ret (Some the_window)
  else ret None.

(** With its context every object of the context goes, and every binding
    and setting; what it has sent to the framebuffer stays on record. *)
Definition destroy_context (g : GLState) : GLState :=
  mkGL ∅ ∅ 1%N ∅ 1%N ∅ 1%N 0%N 0%N 0%N (GL_FRONT_AND_BACK, GL_FILL)
    (0, 0, 0, 0) (0%Q, 0%Q, 0%Q, 0%Q) (frame_ops g).

(** Destroys the window and its context and shuts the library down. *)
Definition glfwTerminate : M unit :=
  called Call_glfwTerminate ;;
  modify_gl destroy_context ;;
  modify_glfw (fun _ => initial_glfw).

(** A context attached to a window for the first time takes the size of the
    window's framebuffer as its viewport. *)
Definition glfwMakeContextCurrent (window : GLFWwindow) : M unit :=
  called (Call_glfwMakeContextCurrent window) ;;
  win <- read_glfw glfw_window ;;
  match win with
  | Some x =>
      modify_window (set_context_current true) ;;
      modify_gl (set_viewport
        (0, 0, Z.of_N (fst (win_framebuffer x)), Z.of_N (snd (win_framebuffer x))))
  | None => ret tt
  end.

(** The callback itself is the program's; the window remembers that one is
    installed, and [glfwPollEvents] is handed the function. *)
Definition glfwSetFramebufferSizeCallback (window : GLFWwindow) : M unit :=
  called (Call_glfwSetFramebufferSizeCallback window) ;;
  modify_window (set_framebuffer_size_callback true).

Definition gladLoadGLLoader (env : Env) : M bool :=
  called Call_gladLoadGLLoader ;;
  ret (env_loader_ok env).

Definition glfwWindowShouldClose (window : GLFWwindow) : M bool :=
  called (Call_glfwWindowShouldClose window) ;;
  read_glfw (fun s =>
    match glfw_window s with
    | Some x => win_should_close x
    | None => false
    end).

Definition glfwGetKey (window : GLFWwindow) (key : GLFWkey) : M KeyState :=
  called (Call_glfwGetKey window key) ;;
  read_glfw (fun s =>
    match glfw_window s with
    | Some x => win_backspace x
    | None => GLFW_RELEASE
    end).

Definition glfwSetWindowShouldClose (window : GLFWwindow) (value : bool) : M unit :=
  called (Call_glfwSetWindowShouldClose window value) ;;
  modify_window (set_should_close value).

Definition glfwSwapBuffers (window : GLFWwindow) : M unit :=
  called (Call_glfwSwapBuffers window) ;;
  modify_gl (push_frame_op Presented).

Section Callbacks.

(** The function installed with [glfwSetFramebufferSizeCallback]. *)
Variable framebuffer_size_callback : GLFWwindow -> GLint -> GLint -> M unit.

(** A close request sets the flag; the programs install no close callback,
    so that nothing else happens. *)
Definition deliver (installed : bool) (ev : WindowEvent) : M unit :=
  match ev with
  | FramebufferSize width height =>
      if installed then
        called (Call_framebuffer_size_callback the_window
                  (Z.of_N width) (Z.of_N height)) ;;
        framebuffer_size_callback the_window (Z.of_N width) (Z.of_N height)
      else ret tt
  | WindowClose => modify_window (set_should_close true)
  end.

Fixpoint deliver_all (installed : bool) (evs : list WindowEvent) : M unit :=
  match evs with
  | [] => ret tt
  | ev :: rest => deliver installed ev ;; deliver_all installed rest
  end.

(** Takes the pending events off the queue and processes them in order
    before it returns: a change of the framebuffer size goes to the
    callback, a close request sets the should-close flag. *)
Definition glfwPollEvents : M unit :=
  called Call_glfwPollEvents ;;
  win <- read_glfw glfw_window ;;
  match win with
  | Some x =>
      modify_window (set_pending []) ;;
      deliver_all (win_framebuffer_size_callback x) (win_pending x)
  | None => ret tt
  end.

End Callbacks.

(** The world outside the program, between two iterations of a frame loop:
    the keyboard is in some state and window events have queued up. *)
Definition arrive (fi : FrameInput) : M unit :=
  modify_window (fun x =>
    set_pending (win_pending x ++ fi_events fi) (set_backspace (fi_backspace fi) x)).

(** The two states of a frame loop.  A loop cut off because the input ran
    out is still [RUNNING]. *)
Inductive LoopState := RUNNING | STOPPED.

(** How [main] ends: with a return value, or not yet. *)
Inductive Outcome := Returned (code : Z) | InLoop.

(** ** The first program: [src/cr1ms0nh3ad_opengl/main.cpp] *)

Module HelloWindow.

Definition SCR_WIDTH : Z := 1024.
Definition SCR_HEIGHT : Z := 1024.

Definition framebuffer_size_callback (window : GLFWwindow) (width height : GLint)
    : M unit :=
  glViewport 0 0 width height.

Definition processInput (window : GLFWwindow) : M unit :=
  state <- glfwGetKey window GLFW_KEY_BACKSPACE ;;
  if decide (state = GLFW_PRESS) then glfwSetWindowShouldClose window true
  else ret tt.

(** The body of the [while] loop (lines 46 to 57). *)
Definition loop_body (window : GLFWwindow) : M unit :=
  processInput window ;;
  glClearColor (float_literal 1.0) (float_literal 0.325) (float_literal 0.7)
    (float_literal 1.0) ;;
  glClear GL_COLOR_BUFFER_BIT ;;
  glfwSwapBuffers window ;;
  glfwPollEvents framebuffer_size_callback.

(** [while (!glfwWindowShouldClose(window)) { ... }], one [FrameInput] for
    each iteration. *)
Fixpoint render_loop (window : GLFWwindow) (frames : list FrameInput)
    : M LoopState :=
  close <- glfwWindowShouldClose window ;;
  if close then ret STOPPED
  else match frames with
       | [] => ret RUNNING
       | fi :: rest =>
           arrive fi ;;
           loop_body window ;;
           render_loop window rest
       end.

Definition main (env : Env) : M Outcome :=
  glfwInit ;;
  glfwWindowHint GLFW_CONTEXT_VERSION_MAJOR 3 ;;
  glfwWindowHint GLFW_CONTEXT_VERSION_MINOR 3 ;;
  glfwWindowHint GLFW_OPENGL_PROFILE GLFW_OPENGL_CORE_PROFILE ;;
  window <- glfwCreateWindow env SCR_WIDTH SCR_HEIGHT "cr1ms0nh3ad" ;;
  match window with
  | None =>
      cout "failed to create GLFW window" ;;
      glfwTerminate ;;
      ret (Returned (-1))
  | Some window =>
      glfwMakeContextCurrent window ;;
      glfwSetFramebufferSizeCallback window ;;
      loaded <- gladLoadGLLoader env ;;
      if negb loaded then
        cout "failed to initialize GLAD" ;;
        ret (Returned (-1))
      else
        state <- render_loop window (env_frames env) ;;
        match state with
        | STOPPED => glfwTerminate ;; ret (Returned 0)
        | RUNNING => ret InLoop
        end
  end.

End HelloWindow.

(** ** The second program *)

Module HelloQuad.

Definition SCR_WIDTH : Z := 1024.
Definition SCR_HEIGHT : Z := 1024.

Definition vertexShaderSource : string :=
  "#version 330 core" ++ nl ++
  "layout (location = 0) in vec3 aPos;" ++ nl ++
  "void main()" ++ nl ++
  "{" ++ nl ++
  tab ++ "gl_Position = vec4(aPos.x, aPos.y, aPos.z, 1.0);" ++ nl ++
  "}".

Definition fragmentShaderSource : string :=
  "#version 330 core" ++ nl ++
  "out vec4 FragColor;" ++ nl ++
  "void main()" ++ nl ++
  "{" ++ nl ++
  tab ++ "FragColor = vec4(1.0f, 0.0f, 0.0f, 1.0f);" ++ nl ++
  "}".

Definition framebuffer_size_callback (window : GLFWwindow) (width height : GLint)
    : M unit :=
  glViewport 0 0 width height.

Definition processInput (window : GLFWwindow) : M unit :=
  state <- glfwGetKey window GLFW_KEY_BACKSPACE ;;
  if decide (state = GLFW_PRESS) then glfwSetWindowShouldClose window true
  else ret tt.

(** Lines 63 to 111 of [main]: the two stages, the program, the two
    status checks and the release of the stages.  [main] runs it on the
    two sources above.  The vertex and fragment handles are returned with
    the program only so that statements can name them. *)
Definition build_shader_program (drv : Driver)
    (vertexShaderSource fragmentShaderSource : string)
    : M (GLuint * GLuint * GLuint) :=
  vertexShader <- glCreateShader GL_VERTEX_SHADER ;;
  glShaderSource vertexShader vertexShaderSource ;;
  glCompileShader drv vertexShader ;;
  success <- glGetShaderiv vertexShader GL_COMPILE_STATUS ;;
  (if success =? 0 then
     infoLog <- glGetShaderInfoLog vertexShader 512 ;;
     cout ("ERROR::SHADER::VERTEX::COMPILATION_FAILED" ++ nl ++ infoLog)
   else ret tt) ;;
  fragmentShader <- glCreateShader GL_FRAGMENT_SHADER ;;
  glShaderSource fragmentShader fragmentShaderSource ;;
  glCompileShader drv fragmentShader ;;
  shaderProgram <- glCreateProgram ;;
  glAttachShader shaderProgram vertexShader ;;
  glAttachShader shaderProgram fragmentShader ;;
  glLinkProgram drv shaderProgram ;;
  success <- glGetProgramiv shaderProgram GL_LINK_STATUS ;;
  (if success =? 0 then
     infoLog <- glGetProgramInfoLog shaderProgram 512 ;;
     cout ("ERROR::SHADER::PROGRAM::LINKING::FAILED" ++ nl ++ infoLog)
   else ret tt) ;;
  glDeleteShader vertexShader ;;
  glDeleteShader fragmentShader ;;
  ret (shaderProgram, vertexShader, fragmentShader).

Definition vertices : list GLfloat :=
  [ 1 # 2;  1 # 2; 0;      (* top right *)
    1 # 2; -1 # 2; 0;      (* bottom right *)
   -1 # 2; -1 # 2; 0;      (* bottom left *)
   -1 # 2;  1 # 2; 0 ]%Q.  (* top left *)

Definition indices : list GLuint :=
  [ 0; 1; 3;               (* first triangle *)
    1; 2; 3 ]%N.           (* second triangle *)

Definition sizeof_vertices : Z := Z.of_nat (length vertices) * sizeof_float.
Definition sizeof_indices : Z := Z.of_nat (length indices) * sizeof_uint.

(** Lines 113 to 158 of [main]. *)
Definition setup_geometry : M (GLuint * GLuint * GLuint) :=
  VAO <- glGenVertexArrays ;;
  VBO <- glGenBuffers ;;
  EBO <- glGenBuffers ;;
  glBindVertexArray VAO ;;
  glBindBuffer GL_ARRAY_BUFFER VBO ;;
  glBindBuffer GL_ELEMENT_ARRAY_BUFFER EBO ;;
  glBufferData GL_ARRAY_BUFFER sizeof_vertices (FloatData vertices) GL_STATIC_DRAW ;;
  glBufferData GL_ELEMENT_ARRAY_BUFFER sizeof_indices (UIntData indices)
    GL_STATIC_DRAW ;;
  glVertexAttribPointer 0 3 GL_FLOAT false (3 * sizeof_float) 0 ;;
  glEnableVertexAttribArray 0 ;;
  glBindBuffer GL_ARRAY_BUFFER 0 ;;
  glBindVertexArray 0 ;;
  ret (VAO, VBO, EBO).

(** The body of the [while] loop (lines 168 to 187). *)
Definition loop_body (window : GLFWwindow) (shaderProgram VAO EBO : GLuint)
    : M unit :=
  processInput window ;;
  glClearColor 0 0 0 1 ;;
  glClear GL_COLOR_BUFFER_BIT ;;
  glUseProgram shaderProgram ;;
  glBindVertexArray VAO ;;
  glBindBuffer GL_ELEMENT_ARRAY_BUFFER EBO ;;
  glDrawElements GL_TRIANGLES 6 GL_UNSIGNED_INT 0 ;;
  glfwSwapBuffers window ;;
  glfwPollEvents framebuffer_size_callback.

Fixpoint render_loop (window : GLFWwindow) (shaderProgram VAO EBO : GLuint)
    (frames : list FrameInput) : M LoopState :=
  close <- glfwWindowShouldClose window ;;
  if close then ret STOPPED
  else match frames with
       | [] => ret RUNNING
       | fi :: rest =>
           arrive fi ;;
           loop_body window shaderProgram VAO EBO ;;
           render_loop window shaderProgram VAO EBO rest
       end.

Definition main (env : Env) : M Outcome :=
  glfwInit ;;
  glfwWindowHint GLFW_CONTEXT_VERSION_MAJOR 3 ;;
  glfwWindowHint GLFW_CONTEXT_VERSION_MINOR 3 ;;
  glfwWindowHint GLFW_OPENGL_PROFILE GLFW_OPENGL_CORE_PROFILE ;;
  window <- glfwCreateWindow env SCR_WIDTH SCR_HEIGHT "cr1ms0nh3ad" ;;
  match window with
  | None =>
      cout "failed to create GLFW window" ;;
      glfwTerminate ;;
      ret (Returned (-1))
  | Some window =>
      glfwMakeContextCurrent window ;;
      glfwSetFramebufferSizeCallback window ;;
      loaded <- gladLoadGLLoader env ;;
      if negb loaded then
        cout "failed to initialize GLAD" ;;
        ret (Returned (-1))
      else
        built <- build_shader_program (env_driver env)
                   vertexShaderSource fragmentShaderSource ;;
        let shaderProgram := fst (fst built) in
        geometry <- setup_geometry ;;
        let VAO := fst (fst geometry) in
        let EBO := snd geometry in
        glPolygonMode GL_FRONT_AND_BACK GL_LINE ;;
        state <- render_loop window shaderProgram VAO EBO (env_frames env) ;;
        match state with
        | STOPPED => glfwTerminate ;; ret (Returned 0)
        | RUNNING => ret InLoop
        end
  end.

End HelloQuad.

(** * Vocabulary of the statements *)

Definition window_of (w : World) : option Window := glfw_window (glfw w).

(** The key state an input-sampling step would see. *)
Definition key_now (w : World) : KeyState :=
  match window_of w with
  | Some x => win_backspace x
  | None => GLFW_RELEASE
  end.

(** The window exists and has not been asked to close. *)
Definition open_window (w : World) : bool :=
  match window_of w with
  | Some x => negb (win_should_close x)
  | None => false
  end.

(** The resize callback is installed and no event is waiting. *)
Definition callback_ready (w : World) : bool :=
  match window_of w with
  | Some x =>
      win_framebuffer_size_callback x &&
      match win_pending x with [] => true | _ :: _ => false end
  | None => false
  end.

(** What [main] has established when it enters its loop. *)
Definition loop_ready (w : World) : bool := open_window w && callback_ready w.

Definition pressed (fi : FrameInput) : bool :=
  match fi_backspace fi with GLFW_PRESS => true | GLFW_RELEASE => false end.

Definition close_event (ev : WindowEvent) : bool :=
  match ev with WindowClose => true | FramebufferSize _ _ => false end.

(** The poll of the iteration finds a close request of the user. *)
Definition close_polled (fi : FrameInput) : bool :=
  existsb close_event (fi_events fi).

(** The iteration sets the should-close flag: its input sampling finds the
    key pressed, or its poll finds a close request. *)
Definition stops (fi : FrameInput) : bool := pressed fi || close_polled fi.

(** The should-close flag after a poll has processed [evs]. *)
Definition closing (evs : list WindowEvent) (flag : bool) : bool :=
  fold_left (fun flag ev => if close_event ev then true else flag) evs flag.

(** The window with the close flag set and nothing else changed. *)
Definition close_requested (x : Window) : Window :=
  mkWindow (win_width x) (win_height x) (win_title x) (win_framebuffer x)
    true
    (win_context_current x) (win_framebuffer_size_callback x)
    (win_backspace x) (win_pending x).

(** [w'] is [w] after one input-sampling step: nothing but the close flag of
    the window may differ, and that only if the key is down.  (The trace,
    which is the record of the calls made, is not part of the comparison.) *)
Definition input_sampled (w w' : World) : Prop :=
  gl w' = gl w /\
  console w' = console w /\
  glfw_initialized (glfw w') = glfw_initialized (glfw w) /\
  glfw_hints (glfw w') = glfw_hints (glfw w) /\
  window_of w' =
    match key_now w with
    | GLFW_RELEASE => window_of w
    | GLFW_PRESS => close_requested <$> window_of w
    end.

(** ** Resize events *)

(** The viewport after an event: the one a resize event asks for; a close
    request leaves it as it is, [r]. *)
Definition resize_to (ev : WindowEvent) (r : Rect) : Rect :=
  match ev with
  | FramebufferSize width height => (0, 0, Z.of_N width, Z.of_N height)
  | WindowClose => r
  end.

(** The viewport after a run of events: the one the last resize event among
    them asks for, or [r] when there is none. *)
Definition resized (evs : list WindowEvent) (r : Rect) : Rect :=
  fold_left (fun r ev => resize_to ev r) evs r.

Definition resize_event (ev : WindowEvent) (g : GLState) : GLState :=
  match ev with
  | FramebufferSize width height =>
      set_viewport (0, 0, Z.of_N width, Z.of_N height) g
  | WindowClose => g
  end.

Definition resize_gl (evs : list WindowEvent) (g : GLState) : GLState :=
  fold_left (fun g ev => resize_event ev g) evs g.

(** The calls a poll makes for the events it hands to the callback. *)
Definition callback_calls (evs : list WindowEvent) : list Call :=
  flat_map (fun ev =>
    match ev with
    | FramebufferSize width height =>
        [Call_framebuffer_size_callback the_window (Z.of_N width) (Z.of_N height);
         Call_glViewport 0 0 (Z.of_N width) (Z.of_N height)]
    | WindowClose => []
    end) evs.

Definition delivered (installed : bool) (evs : list WindowEvent) : list WindowEvent :=
  if installed then evs else [].

(** The library after a poll has processed [evs]: each close request among
    them has set the should-close flag of the window. *)
Definition close_glfw (evs : list WindowEvent) (s : GLFWState) : GLFWState :=
  fold_left
    (fun s ev =>
       if close_event ev
       then mkGLFW (glfw_initialized s) (glfw_hints s)
              (set_should_close true <$> glfw_window s)
       else s)
    evs s.

(** The window after a poll: the queue is empty, and the flag is set if a
    close request was waiting. *)
Definition polled_window (x : Window) : Window :=
  mkWindow (win_width x) (win_height x) (win_title x) (win_framebuffer x)
    (closing (win_pending x) (win_should_close x))
    (win_context_current x) (win_framebuffer_size_callback x)
    (win_backspace x) [].

(** ** One iteration of a frame loop, in closed form *)

(** The window after the input sampling of an iteration that took the input
    [fi], and after the whole iteration. *)
Definition sampled_window (fi : FrameInput) (x : Window) : Window :=
  mkWindow (win_width x) (win_height x) (win_title x) (win_framebuffer x)
    (match fi_backspace fi with
     | GLFW_PRESS => true
     | GLFW_RELEASE => win_should_close x
     end)
    (win_context_current x) (win_framebuffer_size_callback x) (fi_backspace fi)
    (win_pending x ++ fi_events fi).

Definition frame_window (fi : FrameInput) (x : Window) : Window :=
  mkWindow (win_width x) (win_height x) (win_title x) (win_framebuffer x)
    (closing (win_pending x ++ fi_events fi)
       (match fi_backspace fi with
        | GLFW_PRESS => true
        | GLFW_RELEASE => win_should_close x
        end))
    (win_context_current x) (win_framebuffer_size_callback x) (fi_backspace fi) [].

(** The events the poll of that iteration hands to the callback. *)
Definition frame_events (fi : FrameInput) (x : Window) : list WindowEvent :=
  delivered (win_framebuffer_size_callback x) (win_pending x ++ fi_events fi).

(** The calls of [processInput]. *)
Definition input_calls (window : GLFWwindow) (key : KeyState) : list Call :=
  Call_glfwGetKey window GLFW_KEY_BACKSPACE ::
  match key with
  | GLFW_PRESS => [Call_glfwSetWindowShouldClose window true]
  | GLFW_RELEASE => []
  end.

(** The world after [arrive fi] and a loop body whose drawing part makes
    the calls [C] and applies [G] to the context. *)
Definition frame_world (G : GLState -> GLState) (C : list Call)
    (window : GLFWwindow) (fi : FrameInput) (x : Window) (w : World) : World :=
  mkWorld (resize_gl (frame_events fi x) (G (gl w)))
    (mkGLFW (glfw_initialized (glfw w)) (glfw_hints (glfw w))
       (Some (frame_window fi x)))
    (console w)
    (trace w ++ input_calls window (fi_backspace fi) ++ C
       ++ callback_calls (frame_events fi x)).

(** The world after the loop condition was evaluated. *)
Definition checked (window : GLFWwindow) (w : World) : World :=
  mkWorld (gl w) (glfw w) (console w) (trace w ++ [Call_glfwWindowShouldClose window]).

(** The events the poll of an iteration started in [w] hands over. *)
Definition polled (fi : FrameInput) (w : World) : list WindowEvent :=
  match window_of w with
  | Some x => frame_events fi x
  | None => []
  end.

(** One pass through the loop: the condition, then the body. *)
Definition iterate (G : GLState -> GLState) (C : list Call) (window : GLFWwindow)
    (fi : FrameInput) (w : World) : World :=
  match window_of w with
  | Some x => frame_world G C window fi x (checked window w)
  | None => w
  end.

Definition iterate_all (G : GLState -> GLState) (C : list Call)
    (window : GLFWwindow) (fis : list FrameInput) (w : World) : World :=
  fold_left (fun w fi => iterate G C window fi w) fis w.

(** The draw calls of these passes, [D] giving those of one pass from the
    context it starts in. *)
Fixpoint draws_seen (D : GLState -> list Draw) (G : GLState -> GLState)
    (C : list Call) (window : GLFWwindow) (fis : list FrameInput) (w : World)
    : list Draw :=
  match fis with
  | [] => []
  | fi :: rest => D (gl w) ++ draws_seen D G C window rest (iterate G C window fi w)
  end.

(** The frames a loop gets to run: all up to and including the first one
    that sets the should-close flag. *)
Fixpoint executed (frames : list FrameInput) : list FrameInput :=
  match frames with
  | [] => []
  | fi :: rest => fi :: (if stops fi then [] else executed rest)
  end.

(** The shape both [render_loop]s have. *)
Fixpoint frame_loop (window : GLFWwindow) (body : M unit)
    (frames : list FrameInput) : M LoopState :=
  close <- glfwWindowShouldClose window ;;
  if close then ret STOPPED
  else match frames with
       | [] => ret RUNNING
       | fi :: rest => arrive fi ;; body ;; frame_loop window body rest
       end.

(** What [main] does with the state its loop ends in. *)
Definition finish (r : LoopState * World) : Outcome * World :=
  match fst r with
  | STOPPED => (glfwTerminate ;; ret (Returned 0)) (snd r)
  | RUNNING => (InLoop, snd r)
  end.

(** ** Framebuffer operations and calls *)

Definition draws_of (ops : list FrameOp) : list Draw :=
  flat_map (fun op => match op with Drawn d => [d] | _ => [] end) ops.

Definition is_draw_call (c : Call) : bool :=
  match c with Call_glDrawElements _ _ _ _ => true | _ => false end.

Definition is_polygon_mode_call (c : Call) : bool :=
  match c with Call_glPolygonMode _ _ => true | _ => false end.

Definition is_terminate_call (c : Call) : bool :=
  match c with Call_glfwTerminate => true | _ => false end.

(** A query of the compile status or of the info log of [shader]. *)
Definition queries_shader (shader : GLuint) (c : Call) : bool :=
  match c with
  | Call_glGetShaderiv s _ => (s =? shader)%N
  | Call_glGetShaderInfoLog s _ => (s =? shader)%N
  | _ => false
  end.

Definition wireframe (d : Draw) : Prop :=
  d_polygon_mode d = (GL_FRONT_AND_BACK, GL_LINE).

(** ** Indexed triangles *)

(** An index list read as a triangle list: three indices a triangle. *)
Fixpoint triangles_of (idx : list GLuint) : list (GLuint * GLuint * GLuint) :=
  match idx with
  | a :: b :: c :: rest => (a, b, c) :: triangles_of rest
  | _ => []
  end.

Definition has_corner (t : GLuint * GLuint * GLuint) (v : GLuint) : bool :=
  let '(a, b, c) := t in (a =? v)%N || (b =? v)%N || (c =? v)%N.

(** The edge between two distinct vertices is an edge of [t] when both
    are corners of [t]. *)
Definition has_edge (t : GLuint * GLuint * GLuint) (u v : GLuint) : bool :=
  negb (u =? v)%N && has_corner t u && has_corner t v.

(** ** The drawing part of the two loop bodies *)

(** The clear colour of the first program: the binary32 values of [1.0f],
    [0.325f], [0.7f] and [1.0f]. *)
Definition window_color : Color :=
  (1, 5452595 # 16777216, 11744051 # 16777216, 1)%Q.

Definition window_gl (g : GLState) : GLState :=
  push_frame_op Presented
    (clear GL_COLOR_BUFFER_BIT (set_clear_color window_color g)).

Definition window_calls (window : GLFWwindow) : list Call :=
  [ Call_glClearColor 1 (5452595 # 16777216) (11744051 # 16777216) 1;
    Call_glClear GL_COLOR_BUFFER_BIT;
    Call_glfwSwapBuffers window;
    Call_glfwPollEvents ].

(** The context at the draw call of the second program. *)
Definition quad_draw_state (p vao ebo : GLuint) (g : GLState) : GLState :=
  bind_buffer GL_ELEMENT_ARRAY_BUFFER ebo
    (bind_vertex_array vao
       (use_program p
          (clear GL_COLOR_BUFFER_BIT (set_clear_color (0, 0, 0, 1)%Q g)))).

Definition quad_gl (p vao ebo : GLuint) (g : GLState) : GLState :=
  push_frame_op Presented
    (draw_elements GL_TRIANGLES 6 GL_UNSIGNED_INT 0 (quad_draw_state p vao ebo g)).

Definition quad_draw (p vao ebo : GLuint) (g : GLState) : Draw :=
  let s := quad_draw_state p vao ebo g in
  mkDraw GL_TRIANGLES 6 GL_UNSIGNED_INT 0 (current_program s)
    (vertex_array_binding s) (bound_buffer GL_ELEMENT_ARRAY_BUFFER s)
    (polygon_mode s) (viewport s).

Definition quad_calls (window : GLFWwindow) (p vao ebo : GLuint) : list Call :=
  [ Call_glClearColor 0 0 0 1;
    Call_glClear GL_COLOR_BUFFER_BIT;
    Call_glUseProgram p;
    Call_glBindVertexArray vao;
    Call_glBindBuffer GL_ELEMENT_ARRAY_BUFFER ebo;
    Call_glDrawElements GL_TRIANGLES 6 GL_UNSIGNED_INT 0;
    Call_glfwSwapBuffers window;
    Call_glfwPollEvents ].

(** ** Startup *)

(** What the driver answered to the three questions a build asks. *)
Record BuildOutcome := mkOutcome {
  vertex_ok : bool;
  vertex_log : string;
  fragment_ok : bool;
  fragment_log : string;
  link_ok : bool;
  link_log : string
}.

Definition outcome_of (drv : Driver) (vsrc fsrc : string) : BuildOutcome :=
  let v := drv_compile drv GL_VERTEX_SHADER vsrc in
  let f := drv_compile drv GL_FRAGMENT_SHADER fsrc in
  let l := drv_link drv [(GL_VERTEX_SHADER, vsrc); (GL_FRAGMENT_SHADER, fsrc)] in
  mkOutcome (fst v) (snd v) (fst f) (snd f) (fst l) (snd l).

(** The driver that gives these answers. *)
Definition table_driver (o : BuildOutcome) : Driver :=
  mkDriver
    (fun type _ =>
       match type with
       | GL_VERTEX_SHADER => (vertex_ok o, vertex_log o)
       | _ => (fragment_ok o, fragment_log o)
       end)
    (fun _ => (link_ok o, link_log o)).

(** The world of either [main] once the window exists and the OpenGL
    functions are loaded; [fb] is the size of the framebuffer. *)
Definition loaded (fb : N * N) : World :=
  mkWorld (set_viewport (0, 0, Z.of_N (fst fb), Z.of_N (snd fb)) initial_gl)
    (mkGLFW true
       [(GLFW_CONTEXT_VERSION_MAJOR, 3); (GLFW_CONTEXT_VERSION_MINOR, 3);
        (GLFW_OPENGL_PROFILE, GLFW_OPENGL_CORE_PROFILE)]
       (Some (mkWindow 1024 1024 "cr1ms0nh3ad" fb false true true GLFW_RELEASE [])))
    []
    [ Call_glfwInit;
      Call_glfwWindowHint GLFW_CONTEXT_VERSION_MAJOR 3;
      Call_glfwWindowHint GLFW_CONTEXT_VERSION_MINOR 3;
      Call_glfwWindowHint GLFW_OPENGL_PROFILE GLFW_OPENGL_CORE_PROFILE;
      Call_glfwCreateWindow 1024 1024 "cr1ms0nh3ad";
      Call_glfwMakeContextCurrent the_window;
      Call_glfwSetFramebufferSizeCallback the_window;
      Call_gladLoadGLLoader ].

(** The world in which the second program enters its loop. *)
Definition quad_ready (fb : N * N) (o : BuildOutcome) : World :=
  exec (HelloQuad.build_shader_program (table_driver o)
          HelloQuad.vertexShaderSource HelloQuad.fragmentShaderSource ;;
        HelloQuad.setup_geometry ;;
        glPolygonMode GL_FRONT_AND_BACK GL_LINE)
    (loaded fb).

(** A program links when both stages compiled and the linker agrees. *)
Definition linked (o : BuildOutcome) : bool :=
  vertex_ok o && fragment_ok o && link_ok o.

Definition vertex_diagnostic (o : BuildOutcome) : string :=
  "ERROR::SHADER::VERTEX::COMPILATION_FAILED" ++ nl ++ read_log 512 (vertex_log o).

Definition link_diagnostic (o : BuildOutcome) : string :=
  "ERROR::SHADER::PROGRAM::LINKING::FAILED" ++ nl ++ read_log 512 (link_log o).

(** What a build started in [loaded fb] writes to the console. *)
Definition build_console (o : BuildOutcome) : list string :=
  (if vertex_ok o then [] else [vertex_diagnostic o]) ++
  (if linked o then [] else [link_diagnostic o]).

(** The calls of such a build, up to the link and after it. *)
Definition build_calls_to_link (vsrc fsrc : string) (o : BuildOutcome) : list Call :=
  [ Call_glCreateShader GL_VERTEX_SHADER;
    Call_glShaderSource 1 vsrc;
    Call_glCompileShader 1;
    Call_glGetShaderiv 1 GL_COMPILE_STATUS ] ++
  (if vertex_ok o then []
   else [Call_glGetShaderInfoLog 1 512; Call_cout (vertex_diagnostic o)]) ++
  [ Call_glCreateShader GL_FRAGMENT_SHADER;
    Call_glShaderSource 2 fsrc;
    Call_glCompileShader 2;
    Call_glCreateProgram;
    Call_glAttachShader 3 1;
    Call_glAttachShader 3 2 ].

Definition build_calls_after_link (o : BuildOutcome) : list Call :=
  Call_glGetProgramiv 3 GL_LINK_STATUS ::
  (if linked o then []
   else [Call_glGetProgramInfoLog 3 512; Call_cout (link_diagnostic o)]).

Definition build_calls (vsrc fsrc : string) (o : BuildOutcome) : list Call :=
  build_calls_to_link vsrc fsrc o ++
  Call_glLinkProgram 3 :: build_calls_after_link o ++
  [Call_glDeleteShader 1; Call_glDeleteShader 2].

(** The names the second program gets from a fresh context. *)
Definition quad_program : GLuint := 3%N.
Definition quad_vertex_shader : GLuint := 1%N.
Definition quad_fragment_shader : GLuint := 2%N.
Definition quad_VAO : GLuint := 1%N.
Definition quad_VBO : GLuint := 1%N.
Definition quad_EBO : GLuint := 2%N.

(** ** Sample inputs *)

(** A driver that accepts whatever it is given. *)
Definition lenient_driver : Driver :=
  mkDriver (fun _ _ => (true, "")) (fun _ => (true, "")).

(** A driver that accepts the two sources of the second program and
    nothing else. *)
Definition strict_driver : Driver :=
  mkDriver
    (fun type source =>
       if String.eqb source
            (match type with
             | GL_VERTEX_SHADER => HelloQuad.vertexShaderSource
             | _ => HelloQuad.fragmentShaderSource
             end)
       then (true, "")
       else (false, "0:1(1): error: syntax error, unexpected end of file"))
    (fun stages =>
       if forallb (fun s =>
            String.eqb (snd s) HelloQuad.vertexShaderSource ||
            String.eqb (snd s) HelloQuad.fragmentShaderSource) stages
       then (true, "")
       else (false, "error: linking with uncompiled shader")).

Definition broken_fragment_source : string := "void main() {".

(** Two frames with the key released, a resize in the first; then a frame
    with the key down and another resize; then one more frame. *)
Definition sample_pre : list FrameInput :=
  [mkFrame GLFW_RELEASE [FramebufferSize 800 600]; mkFrame GLFW_RELEASE []].

Definition sample_stop : FrameInput :=
  mkFrame GLFW_PRESS [FramebufferSize 640 480].

Definition sample_post : list FrameInput := [mkFrame GLFW_RELEASE []].

Definition sample_frames : list FrameInput :=
  sample_pre ++ sample_stop :: sample_post.

Definition sample_env : Env :=
  mkEnv true (1024%N, 1024%N) true lenient_driver sample_frames.

(** The key is never touched; the user closes the window during the second
    frame. *)
Definition close_frames : list FrameInput :=
  [ mkFrame GLFW_RELEASE [FramebufferSize 800 600];
    mkFrame GLFW_RELEASE [WindowClose];
    mkFrame GLFW_RELEASE [] ].

Definition close_env : Env :=
  mkEnv true (1024%N, 1024%N) true lenient_driver close_frames.

(** The world in which the second program enters its loop under
    [sample_env]. *)
Definition sample_ready : World :=
  quad_ready (1024%N, 1024%N) (mkOutcome true "" true "" true "").

(** ** Vocabulary of the further properties *)

(** The objects a context holds: shaders, programs, buffers and vertex
    array objects, each with its state. *)
Definition objects (g : GLState)
    : gmap N Shader * gmap N Program * gmap N Buffer * gmap N VertexArray :=
  (shaders g, programs g, buffers g, vertex_arrays g).

(** A call into OpenGL, through a pointer the loader has to provide. *)
Definition is_gl_call (c : Call) : bool :=
  match c with
  | Call_glViewport _ _ _ _
  | Call_glCreateShader _
  | Call_glShaderSource _ _
  | Call_glCompileShader _
  | Call_glGetShaderiv _ _
  | Call_glGetShaderInfoLog _ _
  | Call_glCreateProgram
  | Call_glAttachShader _ _
  | Call_glLinkProgram _
  | Call_glGetProgramiv _ _
  | Call_glGetProgramInfoLog _ _
  | Call_glDeleteShader _
  | Call_glGenVertexArrays _
  | Call_glGenBuffers _
  | Call_glBindVertexArray _
  | Call_glBindBuffer _ _
  | Call_glBufferData _ _ _
  | Call_glVertexAttribPointer _ _ _ _ _ _
  | Call_glEnableVertexAttribArray _
  | Call_glPolygonMode _ _
  | Call_glClearColor _ _ _ _
  | Call_glClear _
  | Call_glUseProgram _
  | Call_glDrawElements _ _ _ _ => true
  | _ => false
  end.

(** A call that is handed a shader stage. *)
Definition uses_shader_handle (c : Call) : bool :=
  match c with
  | Call_glShaderSource _ _
  | Call_glCompileShader _
  | Call_glGetShaderiv _ _
  | Call_glGetShaderInfoLog _ _
  | Call_glAttachShader _ _
  | Call_glDeleteShader _ => true
  | _ => false
  end.

Definition is_loader_call (c : Call) : bool :=
  match c with Call_gladLoadGLLoader => true | _ => false end.

(** A call that creates an object of the context. *)
Definition creates_object (c : Call) : bool :=
  match c with
  | Call_glCreateShader _
  | Call_glCreateProgram
  | Call_glGenVertexArrays _
  | Call_glGenBuffers _ => true
  | _ => false
  end.

Definition is_use_program_call (c : Call) : bool :=
  match c with Call_glUseProgram _ => true | _ => false end.

(** What one iteration of each loop sends to the framebuffer. *)
Definition window_frame : list FrameOp :=
  [Cleared GL_COLOR_BUFFER_BIT window_color; Presented].

Definition quad_frame (d : Draw) : list FrameOp :=
  [Cleared GL_COLOR_BUFFER_BIT (0, 0, 0, 1)%Q; Drawn d; Presented].

(** Both startup checks of [main] pass. *)
Definition starts (env : Env) : bool := env_window_ok env && env_loader_ok env.

(** The answers of the driver to the build of the second program. *)
Definition quad_outcome (env : Env) : BuildOutcome :=
  outcome_of (env_driver env) HelloQuad.vertexShaderSource
    HelloQuad.fragmentShaderSource.

(** What the draw calls of the second program read. *)
Definition reads_quad (d : Draw) : Prop :=
  d_mode d = GL_TRIANGLES /\
  d_type d = GL_UNSIGNED_INT /\
  d_indices d = 0 /\
  d_count d = Z.of_nat (length HelloQuad.indices) /\
  d_vertex_array d = quad_VAO /\
  d_element_buffer d = quad_EBO.

(** A call a frame loop can make: the loop condition, the calls of the two
    loop bodies, and what a poll runs. *)
Definition is_frame_call (c : Call) : bool :=
  match c with
  | Call_glfwWindowShouldClose _
  | Call_glfwGetKey _ _
  | Call_glfwSetWindowShouldClose _ _
  | Call_glfwSwapBuffers _
  | Call_glfwPollEvents
  | Call_framebuffer_size_callback _ _ _
  | Call_glViewport _ _ _ _
  | Call_glClearColor _ _ _ _
  | Call_glClear _
  | Call_glUseProgram _
  | Call_glBindVertexArray _
  | Call_glBindBuffer _ _
  | Call_glDrawElements _ _ _ _ => true
  | _ => false
  end.

(** The console of a run is settled by the time [main] is past its startup:
    a failure message, or the diagnostics of the build. *)
Definition startup_console (env : Env) (built : list string) : list string :=
  if env_window_ok env then
    if env_loader_ok env then built
    else ["failed to initialize GLAD"%string]
  else ["failed to create GLFW window"%string].

Local Close Scope string_scope.

(** * Properties *)

(** ** Running a sequence of calls *)

Lemma bind_run {A B} (c : M A) (k : A -> M B) (w : World) :
  (x <- c ;; k x) w = k (fst (c w)) (snd (c w)).
Proof. unfold bind. destruct (c w); reflexivity. Qed.

Lemma exec_seq {A B} (c : M A) (k : M B) (w : World) :
  exec (c ;; k) w = exec k (exec c w).
Proof. unfold exec, bind. destruct (c w); reflexivity. Qed.

Lemma exec_bind {A B} (c : M A) (k : A -> M B) (w : World) :
  exec (x <- c ;; k x) w = exec (k (eval c w)) (exec c w).
Proof. unfold exec, eval, bind. destruct (c w); reflexivity. Qed.

Lemma run_unit (c : M unit) (w : World) : c w = (tt, exec c w).
Proof. unfold exec. destruct (c w) as [[] w']; reflexivity. Qed.

Lemma world_eta (w : World) : mkWorld (gl w) (glfw w) (console w) (trace w) = w.
Proof. destruct w; reflexivity. Qed.

Lemma exec_logged_gl (c : Call) (f : GLState -> GLState) (w : World) :
  exec (called c ;; modify_gl f) w =
  mkWorld (f (gl w)) (glfw w) (console w) (trace w ++ [c]).
Proof. reflexivity. Qed.

(** Runs the first call of a sequence on a world that is known, by
    evaluation. *)
Ltac run_step :=
  rewrite bind_run;
  match goal with
  | |- context [snd (?c ?w)] =>
      let r := eval vm_compute in (c w) in
      let H := fresh "Hrun" in
      assert (H : c w = r) by (vm_compute; reflexivity);
      rewrite H; clear H
  end;
  cbn [fst snd negb].

(** ** Event delivery *)

Lemma viewport_to_of_N (width height : N) (g : GLState) :
  viewport_to 0 0 (Z.of_N width) (Z.of_N height) g =
  set_viewport (0, 0, Z.of_N width, Z.of_N height) g.
Proof.
  unfold viewport_to.
  replace (Z.of_N width <? 0) with false by (symmetry; apply Z.ltb_ge; lia).
  replace (Z.of_N height <? 0) with false by (symmetry; apply Z.ltb_ge; lia).
  reflexivity.
Qed.

Lemma resize_gl_cons (ev : WindowEvent) (evs : list WindowEvent) (g : GLState) :
  resize_gl (ev :: evs) g = resize_gl evs (resize_event ev g).
Proof. reflexivity. Qed.

Lemma viewport_resize_gl (evs : list WindowEvent) (g : GLState) :
  viewport (resize_gl evs g) = resized evs (viewport g).
Proof.
  revert g. induction evs as [|ev evs IH]; intros g; [reflexivity|].
  rewrite resize_gl_cons, IH. destruct ev; reflexivity.
Qed.

Lemma polygon_mode_resize_gl (evs : list WindowEvent) (g : GLState) :
  polygon_mode (resize_gl evs g) = polygon_mode g.
Proof.
  revert g. induction evs as [|ev evs IH]; intros g; [reflexivity|].
  rewrite resize_gl_cons, IH. destruct ev; reflexivity.
Qed.

Lemma frame_ops_resize_gl (evs : list WindowEvent) (g : GLState) :
  frame_ops (resize_gl evs g) = frame_ops g.
Proof.
  revert g. induction evs as [|ev evs IH]; intros g; [reflexivity|].
  rewrite resize_gl_cons, IH. destruct ev; reflexivity.
Qed.

Lemma resized_app (a b : list WindowEvent) (r : Rect) :
  resized (a ++ b) r = resized b (resized a r).
Proof. apply fold_left_app. Qed.

Lemma resized_last (evs : list WindowEvent) (width height : N) (r : Rect) :
  resized (evs ++ [FramebufferSize width height]) r =
  (0, 0, Z.of_N width, Z.of_N height).
Proof. rewrite resized_app. reflexivity. Qed.

Lemma resized_close (evs : list WindowEvent) (r : Rect) :
  resized (evs ++ [WindowClose]) r = resized evs r.
Proof. rewrite resized_app. reflexivity. Qed.

(** ** Close requests *)

Lemma closing_flag (evs : list WindowEvent) (flag : bool) :
  closing evs flag = flag || existsb close_event evs.
Proof.
  revert flag. induction evs as [|ev evs IH]; intros flag.
  - cbn. rewrite orb_false_r. reflexivity.
  - cbn [closing fold_left existsb]. fold (closing evs (if close_event ev then true else flag)).
    rewrite IH. destruct (close_event ev), flag; reflexivity.
Qed.

Lemma close_glfw_window (evs : list WindowEvent) (initialized : bool)
    (hints : list (GLFWhint * Z)) (x : Window) :
  close_glfw evs (mkGLFW initialized hints (Some x)) =
  mkGLFW initialized hints
    (Some (set_should_close (closing evs (win_should_close x)) x)).
Proof.
  revert x. induction evs as [|ev evs IH]; intros x.
  - destruct x; reflexivity.
  - cbn [close_glfw closing fold_left]. destruct (close_event ev).
    + cbn [glfw_initialized glfw_hints glfw_window fmap option_fmap option_map].
      fold (close_glfw evs (mkGLFW initialized hints (Some (set_should_close true x)))).
      rewrite IH. reflexivity.
    + fold (close_glfw evs (mkGLFW initialized hints (Some x))). apply IH.
Qed.

Section Delivery.

Variable cb : GLFWwindow -> GLint -> GLint -> M unit.
Hypothesis cb_sets_viewport :
  forall window width height, cb window width height = glViewport 0 0 width height.

Lemma deliver_all_run (installed : bool) (evs : list WindowEvent) (w : World) :
  deliver_all cb installed evs w =
  (tt, mkWorld (resize_gl (delivered installed evs) (gl w))
         (close_glfw evs (glfw w)) (console w)
         (trace w ++ callback_calls (delivered installed evs))).
Proof.
  revert w. induction evs as [|[width height|] evs IH]; intros w.
  - destruct installed; cbn; rewrite app_nil_r, world_eta; reflexivity.
  - cbn [deliver_all]. rewrite bind_run, IH. destruct installed; cbn.
    + rewrite cb_sets_viewport. unfold glViewport, bind, called, modify_gl. cbn.
      rewrite viewport_to_of_N, <- !app_assoc. reflexivity.
    + reflexivity.
  - cbn [deliver_all]. rewrite bind_run, IH. destruct installed; reflexivity.
Qed.

Lemma glfwPollEvents_run (w : World) (x : Window) :
  window_of w = Some x ->
  exec (glfwPollEvents cb) w =
  mkWorld
    (resize_gl (delivered (win_framebuffer_size_callback x) (win_pending x)) (gl w))
    (mkGLFW (glfw_initialized (glfw w)) (glfw_hints (glfw w))
       (Some (polled_window x)))
    (console w)
    (trace w ++ Call_glfwPollEvents ::
       callback_calls (delivered (win_framebuffer_size_callback x) (win_pending x))).
Proof.
  unfold window_of. intros Hx.
  unfold glfwPollEvents, exec, bind, called, read_glfw.
  cbn [fst snd gl glfw console trace]. rewrite Hx.
  unfold modify_window, modify_glfw. rewrite deliver_all_run.
  cbn [fst snd gl glfw console trace glfw_window glfw_initialized glfw_hints].
  rewrite Hx, <- app_assoc.
  cbn [fmap option_fmap option_map]. rewrite close_glfw_window. reflexivity.
Qed.

End Delivery.

(** ** Input sampling *)

Section Input.

Variable processInput : GLFWwindow -> M unit.
Hypothesis processInput_def :
  forall window,
    processInput window =
    (state <- glfwGetKey window GLFW_KEY_BACKSPACE ;;
     if decide (state = GLFW_PRESS) then glfwSetWindowShouldClose window true
     else ret tt).

(** What input sampling does to any world. *)
Lemma processInput_run (window : GLFWwindow) (w : World) :
  exec (processInput window) w =
  mkWorld (gl w)
    (match key_now w with
     | GLFW_PRESS =>
         mkGLFW (glfw_initialized (glfw w)) (glfw_hints (glfw w))
           (set_should_close true <$> glfw_window (glfw w))
     | GLFW_RELEASE => glfw w
     end)
    (console w)
    (trace w ++ input_calls window (key_now w)).
Proof.
  rewrite processInput_def, exec_bind.
  change (eval (glfwGetKey window GLFW_KEY_BACKSPACE) w) with (key_now w).
  change (exec (glfwGetKey window GLFW_KEY_BACKSPACE) w)
    with (mkWorld (gl w) (glfw w) (console w)
            (trace w ++ [Call_glfwGetKey window GLFW_KEY_BACKSPACE])).
  destruct (key_now w); destruct (decide _) as [e|n];
    try discriminate e; try (exfalso; apply n; reflexivity).
  - reflexivity.
  - unfold glfwSetWindowShouldClose. rewrite exec_seq.
    unfold exec, called, modify_window, modify_glfw. cbn.
    rewrite <- app_assoc. reflexivity.
Qed.

Lemma arrive_processInput_run (window : GLFWwindow) (fi : FrameInput)
    (w : World) (x : Window) :
  window_of w = Some x ->
  exec (processInput window) (exec (arrive fi) w) =
  mkWorld (gl w)
    (mkGLFW (glfw_initialized (glfw w)) (glfw_hints (glfw w))
       (Some (sampled_window fi x)))
    (console w) (trace w ++ input_calls window (fi_backspace fi)).
Proof.
  unfold window_of. intros Hx. rewrite processInput_run.
  unfold key_now, window_of, arrive, exec, modify_window, modify_glfw.
  cbn [fst snd gl glfw console trace glfw_window glfw_initialized glfw_hints].
  rewrite Hx. destruct fi as [[|] evs]; reflexivity.
Qed.

End Input.

(** ** Float literals *)

(** The literals of the first program's clear colour.  [0.325f] and [0.7f]
    are not the decimals written: each is the binary32 value next to it,
    less than half a unit in the last place away. *)
Lemma window_literals :
  float_literal 1.0 = 1%Q /\
  float_literal 0.325 = (5452595 # 16777216)%Q /\
  float_literal 0.7 = (11744051 # 16777216)%Q.
Proof. vm_compute. repeat split. Qed.

Lemma window_literals_rounded :
  Qeq_bool (float_literal 0.325) 0.325 = false /\
  Qeq_bool (float_literal 0.7) 0.7 = false /\
  Qle_bool (0.325 - (1 # 2 ^ 26)) (float_literal 0.325) = true /\
  Qle_bool (float_literal 0.325) (0.325 + (1 # 2 ^ 26)) = true /\
  Qle_bool (0.7 - (1 # 2 ^ 25)) (float_literal 0.7) = true /\
  Qle_bool (float_literal 0.7) (0.7 + (1 # 2 ^ 25)) = true.
Proof. vm_compute. repeat split. Qed.

(** The literals of the second program are binary32 values as written. *)
Lemma quad_literals_exact :
  float_literal 0.0 = 0%Q /\
  float_literal 1.0 = 1%Q /\
  float_literal 0.5 = (1 # 2)%Q /\
  float_literal (- 0.5) = (- 1 # 2)%Q.
Proof. vm_compute. repeat split. Qed.

(** ** One iteration of each loop *)

Lemma window_frame_run (window : GLFWwindow) (fi : FrameInput) (w : World)
    (x : Window) :
  window_of w = Some x ->
  (arrive fi ;; HelloWindow.loop_body window) w =
  (tt, frame_world window_gl (window_calls window) window fi x w).
Proof.
  intros Hx. rewrite run_unit. f_equal. unfold HelloWindow.loop_body.
  destruct window_literals as (-> & -> & ->).
  rewrite !exec_seq.
  unfold glfwSwapBuffers, glClear, glClearColor. rewrite !exec_logged_gl.
  rewrite (arrive_processInput_run HelloWindow.processInput) with (x := x)
    by (reflexivity || assumption).
  cbn [gl glfw console trace].
  erewrite (glfwPollEvents_run HelloWindow.framebuffer_size_callback) by reflexivity.
  unfold frame_world, frame_events, window_gl, window_calls. cbn.
  rewrite <- !app_assoc. reflexivity.
Qed.

Lemma quad_frame_run (window : GLFWwindow) (p vao ebo : GLuint) (fi : FrameInput)
    (w : World) (x : Window) :
  window_of w = Some x ->
  (arrive fi ;; HelloQuad.loop_body window p vao ebo) w =
  (tt, frame_world (quad_gl p vao ebo) (quad_calls window p vao ebo) window fi x w).
Proof.
  intros Hx. rewrite run_unit. f_equal. unfold HelloQuad.loop_body.
  rewrite !exec_seq.
  unfold glfwSwapBuffers, glDrawElements, glBindBuffer, glBindVertexArray,
    glUseProgram, glClear, glClearColor.
  rewrite !exec_logged_gl.
  rewrite (arrive_processInput_run HelloQuad.processInput) with (x := x)
    by (reflexivity || assumption).
  cbn [gl glfw console trace].
  erewrite (glfwPollEvents_run HelloQuad.framebuffer_size_callback) by reflexivity.
  unfold frame_world, frame_events, quad_gl, quad_draw_state, quad_calls. cbn.
  rewrite <- !app_assoc. reflexivity.
Qed.

(** Both [render_loop]s are instances of [frame_loop]. *)
Lemma window_render_loop_shape (window : GLFWwindow) (frames : list FrameInput)
    (w : World) :
  HelloWindow.render_loop window frames w =
  frame_loop window (HelloWindow.loop_body window) frames w.
Proof.
  revert w. induction frames as [|fi rest IH]; intros w; [reflexivity|].
  cbn [HelloWindow.render_loop frame_loop]. rewrite !(bind_run (glfwWindowShouldClose _)).
  destruct (fst (glfwWindowShouldClose window w)); [reflexivity|].
  rewrite !(bind_run (arrive fi)), !(bind_run (HelloWindow.loop_body _)). apply IH.
Qed.

Lemma quad_render_loop_shape (window : GLFWwindow) (p vao ebo : GLuint)
    (frames : list FrameInput) (w : World) :
  HelloQuad.render_loop window p vao ebo frames w =
  frame_loop window (HelloQuad.loop_body window p vao ebo) frames w.
Proof.
  revert w. induction frames as [|fi rest IH]; intros w; [reflexivity|].
  cbn [HelloQuad.render_loop frame_loop]. rewrite !(bind_run (glfwWindowShouldClose _)).
  destruct (fst (glfwWindowShouldClose window w)); [reflexivity|].
  rewrite !(bind_run (arrive fi)), !(bind_run (HelloQuad.loop_body _ _ _ _)). apply IH.
Qed.

(** ** Frame loops *)

Lemma executed_app_stops (pre post : list FrameInput) (f : FrameInput) :
  forallb (fun fi => negb (stops fi)) pre = true ->
  stops f = true ->
  executed (pre ++ f :: post) = pre ++ [f].
Proof.
  intros Hpre Hf. induction pre as [|fi pre IH]; cbn in *.
  - rewrite Hf. reflexivity.
  - apply andb_prop in Hpre as [Hfi Hpre]. apply negb_true_iff in Hfi.
    rewrite Hfi, IH by assumption. reflexivity.
Qed.

Lemma loop_ready_open (w : World) : loop_ready w = true -> open_window w = true.
Proof. intros H. apply andb_prop in H as [H _]. exact H. Qed.

Lemma loop_ready_window (w : World) : loop_ready w = true -> window_of w <> None.
Proof.
  intros H. apply loop_ready_open in H. unfold open_window in H.
  destruct (window_of w); discriminate.
Qed.

Section FrameLoop.

Variable window : GLFWwindow.
Variable body : M unit.
Variable G : GLState -> GLState.
Variable C : list Call.

Hypothesis body_run :
  forall fi w x,
    window_of w = Some x ->
    (arrive fi ;; body) w = (tt, frame_world G C window fi x w).

Lemma check_run (w : World) :
  glfwWindowShouldClose window w =
  (match window_of w with Some x => win_should_close x | None => false end,
   checked window w).
Proof. reflexivity. Qed.

Lemma frame_loop_nil (w : World) :
  open_window w = true ->
  frame_loop window body [] w = (RUNNING, checked window w).
Proof.
  unfold open_window. intros H. cbn [frame_loop]. rewrite bind_run, check_run.
  cbn [fst snd]. destruct (window_of w) as [x|]; [|discriminate].
  apply negb_true_iff in H. rewrite H. reflexivity.
Qed.

Lemma frame_loop_closed (frames : list FrameInput) (w : World) (x : Window) :
  window_of w = Some x ->
  win_should_close x = true ->
  frame_loop window body frames w = (STOPPED, checked window w).
Proof.
  intros Hx Hc. destruct frames; cbn [frame_loop];
    rewrite bind_run, check_run; cbn [fst snd]; rewrite Hx, Hc; reflexivity.
Qed.

Lemma frame_loop_cons (fi : FrameInput) (rest : list FrameInput) (w : World) :
  open_window w = true ->
  frame_loop window body (fi :: rest) w = frame_loop window body rest (iterate G C window fi w).
Proof.
  unfold open_window, iterate. intros H. cbn [frame_loop].
  rewrite bind_run, check_run. cbn [fst snd].
  destruct (window_of w) as [x|] eqn:Hx; [|discriminate].
  apply negb_true_iff in H. rewrite H.
  change (arrive fi ;; body ;; frame_loop window body rest)
    with (arrive fi ;; (body ;; frame_loop window body rest)).
  rewrite (bind_run (arrive fi)), (bind_run body).
  pose proof (body_run fi (checked window w) x Hx) as Hb.
  rewrite bind_run in Hb. rewrite Hb. reflexivity.
Qed.

Lemma step_window (fi : FrameInput) (w : World) (x : Window) :
  window_of w = Some x ->
  window_of (iterate G C window fi w) = Some (frame_window fi x).
Proof. unfold iterate. intros ->. reflexivity. Qed.

(** After an iteration entered with an open window and an empty queue the
    window is open exactly if the iteration did not set the flag. *)
Lemma step_open (fi : FrameInput) (w : World) :
  loop_ready w = true ->
  open_window (iterate G C window fi w) = negb (stops fi).
Proof.
  unfold loop_ready, open_window, callback_ready.
  destruct (window_of w) as [x|] eqn:Hx; [|discriminate].
  intros H. apply andb_prop in H as [Hopen Hcb].
  apply andb_prop in Hcb as [_ Hpend].
  destruct (win_pending x) eqn:Hp; [|discriminate].
  apply negb_true_iff in Hopen.
  rewrite (step_window fi w x Hx). unfold frame_window, stops, pressed, close_polled.
  cbn [win_should_close]. rewrite Hp, Hopen, closing_flag. cbn [app].
  destruct (fi_backspace fi); reflexivity.
Qed.

Lemma step_callback_ready (fi : FrameInput) (w : World) :
  callback_ready w = true ->
  callback_ready (iterate G C window fi w) = true.
Proof.
  unfold callback_ready. destruct (window_of w) as [x|] eqn:Hx; [|discriminate].
  intros H. rewrite (step_window fi w x Hx). unfold frame_window. cbn.
  apply andb_prop in H as [-> _]. reflexivity.
Qed.

Lemma step_loop_ready (fi : FrameInput) (w : World) :
  loop_ready w = true ->
  loop_ready (iterate G C window fi w) = negb (stops fi).
Proof.
  intros H. unfold loop_ready at 1. rewrite (step_open fi w H).
  apply andb_prop in H as [_ Hcb]. rewrite (step_callback_ready fi w Hcb).
  apply andb_true_r.
Qed.

(** A frame loop entered with an open window and an empty queue runs the
    frames up to the first that sets the should-close flag, that one
    included, and stops exactly if there is one. *)
Lemma frame_loop_run (frames : list FrameInput) (w : World) :
  loop_ready w = true ->
  frame_loop window body frames w =
  (if existsb stops frames then STOPPED else RUNNING,
   checked window (iterate_all G C window (executed frames) w)).
Proof.
  revert w. induction frames as [|fi rest IH]; intros w Hw.
  - apply frame_loop_nil, loop_ready_open, Hw.
  - rewrite frame_loop_cons by (apply loop_ready_open, Hw). cbn [existsb executed].
    pose proof (step_open fi w Hw) as Hopen.
    pose proof (step_loop_ready fi w Hw) as Hready.
    destruct (stops fi); cbn in Hopen, Hready |- *.
    + unfold open_window in Hopen.
      destruct (window_of (iterate G C window fi w)) as [x|] eqn:Hx.
      * apply negb_false_iff in Hopen. apply (frame_loop_closed rest _ x Hx Hopen).
      * apply loop_ready_window in Hw.
        destruct (window_of w) as [y|] eqn:Hy; [|congruence].
        rewrite (step_window fi w y Hy) in Hx. discriminate.
    + apply IH. exact Hready.
Qed.

End FrameLoop.

(** ** What a run of iterations leaves behind *)

Section FrameLoopOutput.

Variable window : GLFWwindow.
Variable G : GLState -> GLState.
Variable C : list Call.
Variable D : GLState -> list Draw.

Hypothesis G_viewport : forall g, viewport (G g) = viewport g.
Hypothesis G_polygon_mode : forall g, polygon_mode (G g) = polygon_mode g.
Hypothesis G_draws :
  forall g, draws_of (frame_ops (G g)) = draws_of (frame_ops g) ++ D g.

Lemma step_viewport (fi : FrameInput) (w : World) :
  callback_ready w = true ->
  viewport (gl (iterate G C window fi w)) = resized (fi_events fi) (viewport (gl w)).
Proof.
  unfold callback_ready, iterate. destruct (window_of w) as [x|]; [|discriminate].
  intros H. apply andb_prop in H as [Hcb Hp].
  destruct (win_pending x) eqn:Hpend; [|discriminate].
  unfold frame_world, frame_events. cbn [gl]. rewrite Hcb, Hpend.
  cbn [delivered app]. rewrite viewport_resize_gl, G_viewport. reflexivity.
Qed.

Lemma steps_callback_ready (fis : list FrameInput) (w : World) :
  callback_ready w = true ->
  callback_ready (iterate_all G C window fis w) = true.
Proof.
  revert w. induction fis as [|fi rest IH]; intros w Hw; [exact Hw|].
  cbn. apply IH. unfold callback_ready, iterate in *.
  destruct (window_of w) as [x|]; [|discriminate].
  cbn. apply andb_prop in Hw as [-> _]. reflexivity.
Qed.

(** The viewport after the iterations is the one the last resize event
    among all those polled asks for. *)
Lemma steps_viewport (fis : list FrameInput) (w : World) :
  callback_ready w = true ->
  viewport (gl (iterate_all G C window fis w)) =
  resized (flat_map fi_events fis) (viewport (gl w)).
Proof.
  revert w. induction fis as [|fi rest IH]; intros w Hw; [reflexivity|].
  cbn [iterate_all fold_left flat_map]. rewrite resized_app.
  rewrite <- (step_viewport fi w Hw). apply IH.
  unfold callback_ready, iterate in *.
  destruct (window_of w) as [x|]; [|discriminate].
  cbn. apply andb_prop in Hw as [-> _]. reflexivity.
Qed.

Lemma step_polygon_mode (fi : FrameInput) (w : World) :
  polygon_mode (gl (iterate G C window fi w)) = polygon_mode (gl w).
Proof.
  unfold iterate. destruct (window_of w) as [x|]; [|reflexivity].
  unfold frame_world. cbn [gl]. rewrite polygon_mode_resize_gl. apply G_polygon_mode.
Qed.

Lemma steps_polygon_mode (fis : list FrameInput) (w : World) :
  polygon_mode (gl (iterate_all G C window fis w)) = polygon_mode (gl w).
Proof.
  revert w. induction fis as [|fi rest IH]; intros w; [reflexivity|].
  cbn [iterate_all fold_left]. etransitivity; [apply IH | apply step_polygon_mode].
Qed.

Lemma step_draws (fi : FrameInput) (w : World) :
  window_of w <> None ->
  draws_of (frame_ops (gl (iterate G C window fi w))) =
  draws_of (frame_ops (gl w)) ++ D (gl w).
Proof.
  unfold iterate. destruct (window_of w) as [x|]; [intros _|congruence].
  unfold frame_world. cbn [gl]. rewrite frame_ops_resize_gl. apply G_draws.
Qed.

Lemma step_keeps_window (fi : FrameInput) (w : World) :
  window_of w <> None -> window_of (iterate G C window fi w) <> None.
Proof.
  unfold iterate. destruct (window_of w) as [x|] eqn:Hx; [intros _|congruence].
  discriminate.
Qed.

Lemma steps_draws (fis : list FrameInput) (w : World) :
  window_of w <> None ->
  draws_of (frame_ops (gl (iterate_all G C window fis w))) =
  draws_of (frame_ops (gl w)) ++ draws_seen D G C window fis w.
Proof.
  revert w. induction fis as [|fi rest IH]; intros w Hw.
  - cbn. rewrite app_nil_r. reflexivity.
  - cbn [iterate_all fold_left draws_seen].
    change (fold_left (fun w fi => iterate G C window fi w) rest
              (iterate G C window fi w))
      with (iterate_all G C window rest (iterate G C window fi w)).
    rewrite IH by (apply step_keeps_window; exact Hw).
    rewrite step_draws by exact Hw. rewrite app_assoc. reflexivity.
Qed.

(** Every draw call of the iterations finds the polygon mode the run
    started with. *)
Lemma draws_seen_polygon_mode (fis : list FrameInput) (w : World) :
  (forall g d, In d (D g) -> d_polygon_mode d = polygon_mode g) ->
  Forall (fun d => d_polygon_mode d = polygon_mode (gl w))
    (draws_seen D G C window fis w).
Proof.
  intros HD. revert w. induction fis as [|fi rest IH]; intros w; [constructor|].
  cbn [draws_seen]. apply Forall_app. split.
  - apply List.Forall_forall. intros d Hd. apply HD. exact Hd.
  - rewrite <- (step_polygon_mode fi w). apply IH.
Qed.

(** The calls of the iterations all come from the loop. *)
Lemma steps_trace (P : Call -> Prop) (fis : list FrameInput) (w : World) :
  P (Call_glfwWindowShouldClose window) ->
  (forall key, Forall P (input_calls window key)) ->
  Forall P C ->
  (forall evs, Forall P (callback_calls evs)) ->
  exists calls,
    trace (iterate_all G C window fis w) = trace w ++ calls /\ Forall P calls.
Proof.
  intros Hcheck Hinput HC Hcb. revert w.
  induction fis as [|fi rest IH]; intros w.
  - exists []. split; [symmetry; apply app_nil_r | constructor].
  - cbn [iterate_all fold_left].
    destruct (IH (iterate G C window fi w)) as (calls & Ht & Hcalls).
    unfold iterate_all in Ht. rewrite Ht. unfold iterate.
    destruct (window_of w) as [x|].
    + unfold frame_world, checked. cbn [trace]. rewrite <- !app_assoc.
      eexists. split; [reflexivity|].
      repeat (apply Forall_app; split); auto.
    + exists calls. split; [reflexivity | exact Hcalls].
Qed.

End FrameLoopOutput.

(** ** The drawing part of the loop bodies *)

Lemma use_program_view (p : GLuint) (g : GLState) :
  viewport (use_program p g) = viewport g /\
  polygon_mode (use_program p g) = polygon_mode g /\
  frame_ops (use_program p g) = frame_ops g.
Proof.
  unfold use_program. destruct (p =? 0)%N; [repeat split|].
  destruct (programs g !! p) as [q|]; [destruct (pr_link_status q)|]; repeat split.
Qed.

Lemma bind_vertex_array_view (array : GLuint) (g : GLState) :
  viewport (bind_vertex_array array g) = viewport g /\
  polygon_mode (bind_vertex_array array g) = polygon_mode g /\
  frame_ops (bind_vertex_array array g) = frame_ops g.
Proof.
  unfold bind_vertex_array, touch_vertex_array. destruct (array =? 0)%N; [repeat split|].
  destruct (vertex_arrays g !! array); repeat split.
Qed.

Lemma bind_buffer_view (target : GLenum) (buffer : GLuint) (g : GLState) :
  viewport (bind_buffer target buffer g) = viewport g /\
  polygon_mode (bind_buffer target buffer g) = polygon_mode g /\
  frame_ops (bind_buffer target buffer g) = frame_ops g.
Proof.
  unfold bind_buffer, touch_buffer.
  destruct target; try (repeat split; fail);
    (destruct (buffer =? 0)%N; [repeat split|]);
    destruct (buffers g !! buffer); repeat split.
Qed.

Lemma quad_draw_state_view (p vao ebo : GLuint) (g : GLState) :
  viewport (quad_draw_state p vao ebo g) = viewport g /\
  polygon_mode (quad_draw_state p vao ebo g) = polygon_mode g /\
  frame_ops (quad_draw_state p vao ebo g) =
    frame_ops g ++ [Cleared GL_COLOR_BUFFER_BIT (0, 0, 0, 1)%Q].
Proof.
  unfold quad_draw_state.
  destruct (bind_buffer_view GL_ELEMENT_ARRAY_BUFFER ebo
              (bind_vertex_array vao
                 (use_program p
                    (clear GL_COLOR_BUFFER_BIT (set_clear_color (0, 0, 0, 1)%Q g)))))
    as (-> & -> & ->).
  destruct (bind_vertex_array_view vao
              (use_program p
                 (clear GL_COLOR_BUFFER_BIT (set_clear_color (0, 0, 0, 1)%Q g))))
    as (-> & -> & ->).
  destruct (use_program_view p
              (clear GL_COLOR_BUFFER_BIT (set_clear_color (0, 0, 0, 1)%Q g)))
    as (-> & -> & ->).
  repeat split.
Qed.

Lemma quad_draw_view (p vao ebo : GLuint) (g : GLState) :
  d_viewport (quad_draw p vao ebo g) = viewport g /\
  d_polygon_mode (quad_draw p vao ebo g) = polygon_mode g.
Proof.
  unfold quad_draw. cbn [d_viewport d_polygon_mode].
  destruct (quad_draw_state_view p vao ebo g) as (-> & -> & _). split; reflexivity.
Qed.

(** What one frame of the second program sends to the framebuffer. *)
Lemma quad_gl_frame_ops (p vao ebo : GLuint) (g : GLState) :
  frame_ops (quad_gl p vao ebo g) =
  frame_ops g ++
    [ Cleared GL_COLOR_BUFFER_BIT (0, 0, 0, 1)%Q;
      Drawn (quad_draw p vao ebo g);
      Presented ].
Proof.
  unfold quad_gl, draw_elements, push_frame_op. cbn [frame_ops].
  destruct (quad_draw_state_view p vao ebo g) as (_ & _ & ->).
  rewrite <- !app_assoc. reflexivity.
Qed.

Lemma quad_gl_viewport (p vao ebo : GLuint) (g : GLState) :
  viewport (quad_gl p vao ebo g) = viewport g.
Proof.
  unfold quad_gl, draw_elements, push_frame_op. cbn [viewport].
  apply quad_draw_state_view.
Qed.

Lemma quad_gl_polygon_mode (p vao ebo : GLuint) (g : GLState) :
  polygon_mode (quad_gl p vao ebo g) = polygon_mode g.
Proof.
  unfold quad_gl, draw_elements, push_frame_op. cbn [polygon_mode].
  apply quad_draw_state_view.
Qed.

Lemma draws_of_app (a b : list FrameOp) : draws_of (a ++ b) = draws_of a ++ draws_of b.
Proof. unfold draws_of. apply flat_map_app. Qed.

Lemma quad_gl_draws (p vao ebo : GLuint) (g : GLState) :
  draws_of (frame_ops (quad_gl p vao ebo g)) =
  draws_of (frame_ops g) ++ [quad_draw p vao ebo g].
Proof. rewrite quad_gl_frame_ops, draws_of_app. reflexivity. Qed.

Lemma window_gl_frame_ops (g : GLState) :
  frame_ops (window_gl g) =
  frame_ops g ++ [Cleared GL_COLOR_BUFFER_BIT window_color; Presented].
Proof.
  unfold window_gl, clear, push_frame_op. cbn [frame_ops clear_color].
  rewrite <- app_assoc. reflexivity.
Qed.

Lemma window_gl_draws (g : GLState) :
  draws_of (frame_ops (window_gl g)) = draws_of (frame_ops g) ++ [].
Proof. rewrite window_gl_frame_ops, draws_of_app. reflexivity. Qed.

(** The draw calls of the second program's iterations: one for each. *)
Lemma quad_draws_seen_length (p vao ebo : GLuint) (window : GLFWwindow)
    (fis : list FrameInput) (w : World) :
  length (draws_seen (fun g => [quad_draw p vao ebo g]) (quad_gl p vao ebo)
            (quad_calls window p vao ebo) window fis w) = length fis.
Proof.
  revert w. induction fis as [|fi rest IH]; intros w; [reflexivity|].
  cbn [draws_seen app length]. rewrite IH. reflexivity.
Qed.

(** Each is issued under the viewport the polls before it have left. *)
Lemma quad_draws_seen_viewport (p vao ebo : GLuint) (window : GLFWwindow)
    (fis : list FrameInput) (w : World) :
  callback_ready w = true ->
  forall k d,
    nth_error (draws_seen (fun g => [quad_draw p vao ebo g]) (quad_gl p vao ebo)
                 (quad_calls window p vao ebo) window fis w) k = Some d ->
    d_viewport d = resized (flat_map fi_events (firstn k fis)) (viewport (gl w)).
Proof.
  revert w. induction fis as [|fi rest IH]; intros w Hw.
  - intros [|k] d H; discriminate H.
  - assert (Hw' : callback_ready
                    (iterate (quad_gl p vao ebo) (quad_calls window p vao ebo)
                       window fi w) = true)
      by (apply (steps_callback_ready window _ _ [fi]); exact Hw).
    cbn [draws_seen app]. intros [|k] d H.
    + cbn in H. injection H as <-. apply quad_draw_view.
    + cbn [nth_error] in H. rewrite (IH _ Hw' k d H).
      rewrite (step_viewport window _ _ (quad_gl_viewport p vao ebo) fi w Hw).
      cbn [firstn flat_map]. rewrite resized_app. reflexivity.
Qed.

Lemma window_draws_seen (window : GLFWwindow) (fis : list FrameInput) (w : World) :
  draws_seen (fun _ => []) window_gl (window_calls window) window fis w = [].
Proof.
  revert w. induction fis as [|fi rest IH]; intros w; [reflexivity|].
  cbn [draws_seen app]. apply IH.
Qed.

(** ** Startup *)

(** A build consults the driver three times; only the answers matter. *)
Lemma build_table (drv : Driver) (vsrc fsrc : string) (fb : N * N) :
  HelloQuad.build_shader_program drv vsrc fsrc (loaded fb) =
  HelloQuad.build_shader_program (table_driver (outcome_of drv vsrc fsrc))
    vsrc fsrc (loaded fb).
Proof.
  unfold outcome_of. destruct drv as [compile link]. cbn [drv_compile drv_link].
  destruct (compile GL_VERTEX_SHADER vsrc) as [vok vlog] eqn:Hv.
  destruct (compile GL_FRAGMENT_SHADER fsrc) as [fok flog] eqn:Hf.
  destruct (link [(GL_VERTEX_SHADER, vsrc); (GL_FRAGMENT_SHADER, fsrc)])
    as [lok llog] eqn:Hl.
  cbn [fst snd]. destruct fb as [fw fh].
  unfold HelloQuad.build_shader_program at 1.
  do 3 run_step. rewrite Hv.
  destruct vok, fok, lok; repeat (run_step; rewrite ?Hf, ?Hl); vm_compute; reflexivity.
Qed.

Ltac split_outcome o := destruct o as [[|] ? [|] ? [|] ?].

(** What a build leaves behind, for the driver with the answers [o]. *)
Lemma table_build_run (vsrc fsrc : string) (fb : N * N) (o : BuildOutcome) :
  let r := HelloQuad.build_shader_program (table_driver o) vsrc fsrc (loaded fb) in
  fst r = (quad_program, quad_vertex_shader, quad_fragment_shader) /\
  trace (snd r) = trace (loaded fb) ++ build_calls vsrc fsrc o /\
  console (snd r) = build_console o /\
  glfw (snd r) = glfw (loaded fb) /\
  programs (gl (snd r)) !! quad_program =
    Some (mkProgram [quad_vertex_shader; quad_fragment_shader] (linked o) (link_log o)) /\
  shaders (gl (snd r)) !! quad_vertex_shader =
    Some (mkShader GL_VERTEX_SHADER vsrc (vertex_ok o) (vertex_log o) true) /\
  shaders (gl (snd r)) !! quad_fragment_shader =
    Some (mkShader GL_FRAGMENT_SHADER fsrc (fragment_ok o) (fragment_log o) true).
Proof.
  destruct fb as [fw fh]. split_outcome o; vm_compute; repeat split.
Qed.

Lemma build_run (drv : Driver) (vsrc fsrc : string) (fb : N * N) :
  let o := outcome_of drv vsrc fsrc in
  let r := HelloQuad.build_shader_program drv vsrc fsrc (loaded fb) in
  fst r = (quad_program, quad_vertex_shader, quad_fragment_shader) /\
  trace (snd r) = trace (loaded fb) ++ build_calls vsrc fsrc o /\
  console (snd r) = build_console o /\
  glfw (snd r) = glfw (loaded fb) /\
  programs (gl (snd r)) !! quad_program =
    Some (mkProgram [quad_vertex_shader; quad_fragment_shader] (linked o) (link_log o)) /\
  shaders (gl (snd r)) !! quad_vertex_shader =
    Some (mkShader GL_VERTEX_SHADER vsrc (vertex_ok o) (vertex_log o) true) /\
  shaders (gl (snd r)) !! quad_fragment_shader =
    Some (mkShader GL_FRAGMENT_SHADER fsrc (fragment_ok o) (fragment_log o) true).
Proof. cbv zeta. rewrite build_table. apply table_build_run. Qed.

(** [main] up to its loop. *)
Lemma window_main_enters (env : Env) :
  env_window_ok env = true ->
  env_loader_ok env = true ->
  HelloWindow.main env initial_world =
  finish (HelloWindow.render_loop the_window (env_frames env)
            (loaded (env_framebuffer env))).
Proof.
  destruct env as [wok [fw fh] lok drv frames].
  cbn [env_window_ok env_loader_ok env_framebuffer env_frames env_driver]. intros -> ->.
  unfold HelloWindow.main. do 8 run_step.
  change (loaded (fw, fh)) with
    (mkWorld (set_viewport (0, 0, Z.of_N fw, Z.of_N fh) initial_gl)
       (glfw (loaded (fw, fh))) [] (trace (loaded (fw, fh)))).
  unfold finish. rewrite bind_run.
  match goal with
  | |- context [fst (HelloWindow.render_loop _ _ ?a)] =>
      match goal with
      | |- context [snd (HelloWindow.render_loop _ _ ?b)] =>
          replace b with a by (vm_compute; reflexivity)
      end
  end.
  destruct (fst _); reflexivity.
Qed.

Lemma quad_main_enters (env : Env) :
  env_window_ok env = true ->
  env_loader_ok env = true ->
  HelloQuad.main env initial_world =
  finish (HelloQuad.render_loop the_window quad_program quad_VAO quad_EBO
            (env_frames env)
            (quad_ready (env_framebuffer env)
               (outcome_of (env_driver env)
                  HelloQuad.vertexShaderSource HelloQuad.fragmentShaderSource))).
Proof.
  destruct env as [wok [fw fh] lok drv frames].
  cbn [env_window_ok env_loader_ok env_framebuffer env_frames env_driver]. intros -> ->.
  unfold HelloQuad.main. do 8 run_step. rewrite bind_run.
  match goal with
  | |- context [HelloQuad.build_shader_program _ _ _ ?a] =>
      replace a with (loaded (fw, fh)) by (vm_compute; reflexivity)
  end.
  rewrite build_table. cbn [env_driver env_frames].
  generalize (outcome_of drv HelloQuad.vertexShaderSource HelloQuad.fragmentShaderSource).
  intros o. split_outcome o.
  all: match goal with
       | |- context [snd (?c ?w)] =>
           let r := eval vm_compute in (c w) in
           let H := fresh "Hrun" in
           assert (H : c w = r) by (vm_compute; reflexivity);
           rewrite H; clear H
       end; cbn [fst snd]; do 2 run_step.
  all: unfold finish; rewrite bind_run.
  all: match goal with
       | |- context [fst (HelloQuad.render_loop _ _ _ _ _ ?a)] =>
           match goal with
           | |- context [quad_ready ?fb ?o] =>
               replace (quad_ready fb o) with a by (vm_compute; reflexivity)
           end
       end.
  all: destruct (fst _); reflexivity.
Qed.

(** The world in which the second program enters its loop. *)
Lemma quad_ready_run (fb : N * N) (o : BuildOutcome) :
  loop_ready (quad_ready fb o) = true /\
  polygon_mode (gl (quad_ready fb o)) = (GL_FRONT_AND_BACK, GL_LINE) /\
  viewport (gl (quad_ready fb o)) = (0, 0, Z.of_N (fst fb), Z.of_N (snd fb)) /\
  frame_ops (gl (quad_ready fb o)) = [] /\
  console (quad_ready fb o) = build_console o /\
  trace (quad_ready fb o) =
    trace (loaded fb) ++
    build_calls HelloQuad.vertexShaderSource HelloQuad.fragmentShaderSource o ++
    [ Call_glGenVertexArrays 1;
      Call_glGenBuffers 1;
      Call_glGenBuffers 1;
      Call_glBindVertexArray quad_VAO;
      Call_glBindBuffer GL_ARRAY_BUFFER quad_VBO;
      Call_glBindBuffer GL_ELEMENT_ARRAY_BUFFER quad_EBO;
      Call_glBufferData GL_ARRAY_BUFFER 48 GL_STATIC_DRAW;
      Call_glBufferData GL_ELEMENT_ARRAY_BUFFER 24 GL_STATIC_DRAW;
      Call_glVertexAttribPointer 0 3 GL_FLOAT false 12 0;
      Call_glEnableVertexAttribArray 0;
      Call_glBindBuffer GL_ARRAY_BUFFER 0;
      Call_glBindVertexArray 0;
      Call_glPolygonMode GL_FRONT_AND_BACK GL_LINE ].
Proof.
  destruct fb as [fw fh]. split_outcome o; vm_compute; repeat split.
Qed.

(** The objects the geometry setup has created by then. *)
Lemma quad_ready_geometry (fb : N * N) (o : BuildOutcome) :
  vertex_arrays (gl (quad_ready fb o)) !! quad_VAO =
    Some (mkVertexArray
            {[ 0%N := mkVertexAttrib true 3 GL_FLOAT false (3 * sizeof_float) 0 quad_VBO ]}
            quad_EBO) /\
  buffers (gl (quad_ready fb o)) !! quad_VBO =
    Some (mkBuffer 48 (FloatData HelloQuad.vertices) GL_STATIC_DRAW) /\
  buffers (gl (quad_ready fb o)) !! quad_EBO =
    Some (mkBuffer 24 (UIntData HelloQuad.indices) GL_STATIC_DRAW).
Proof.
  destruct fb as [fw fh]. split_outcome o; vm_compute; repeat split.
Qed.

(** ** The two loops, run *)

Lemma window_render_loop_run (window : GLFWwindow) (frames : list FrameInput)
    (w : World) :
  loop_ready w = true ->
  HelloWindow.render_loop window frames w =
  (if existsb stops frames then STOPPED else RUNNING,
   checked window
     (iterate_all window_gl (window_calls window) window (executed frames) w)).
Proof.
  intros Hw. rewrite window_render_loop_shape.
  apply frame_loop_run; [apply window_frame_run | exact Hw].
Qed.

Lemma quad_render_loop_run (window : GLFWwindow) (p vao ebo : GLuint)
    (frames : list FrameInput) (w : World) :
  loop_ready w = true ->
  HelloQuad.render_loop window p vao ebo frames w =
  (if existsb stops frames then STOPPED else RUNNING,
   checked window
     (iterate_all (quad_gl p vao ebo) (quad_calls window p vao ebo) window
        (executed frames) w)).
Proof.
  intros Hw. rewrite quad_render_loop_shape.
  apply frame_loop_run; [apply quad_frame_run | exact Hw].
Qed.

Lemma close_event_In (evs : list WindowEvent) :
  existsb close_event evs = true <-> In WindowClose evs.
Proof.
  rewrite existsb_exists. split.
  - intros ([|] & Hin & Hev); [discriminate Hev | exact Hin].
  - intros H. exists WindowClose. split; [exact H | reflexivity].
Qed.

(** An iteration sets the flag exactly if the key is down at its input
    sampling or a close request is among the events of its poll. *)
Lemma stops_iff (fi : FrameInput) :
  stops fi = true <-> fi_backspace fi = GLFW_PRESS \/ In WindowClose (fi_events fi).
Proof.
  unfold stops, pressed, close_polled. rewrite orb_true_iff, close_event_In.
  destruct (fi_backspace fi); split; intros [H|H]; auto; discriminate H.
Qed.

Lemma quiet_forallb (frames : list FrameInput) :
  Forall (fun fi => fi_backspace fi = GLFW_RELEASE /\ ~ In WindowClose (fi_events fi))
    frames ->
  forallb (fun fi => negb (stops fi)) frames = true.
Proof.
  induction 1 as [|fi rest [Hkey Hev] _ IH]; [reflexivity|].
  cbn [forallb]. rewrite IH, andb_true_r. apply negb_true_iff.
  destruct (stops fi) eqn:Hs; [|reflexivity].
  apply stops_iff in Hs as [Hs|Hs]; [congruence | contradiction].
Qed.

Lemma quiet_no_stop (frames : list FrameInput) :
  forallb (fun fi => negb (stops fi)) frames = true ->
  existsb stops frames = false.
Proof.
  induction frames as [|fi rest IH]; [reflexivity|]. cbn. intros H.
  apply andb_prop in H as [Hfi Hrest]. apply negb_true_iff in Hfi.
  rewrite Hfi, IH by exact Hrest. reflexivity.
Qed.

Lemma existsb_stops_app (pre post : list FrameInput) (f : FrameInput) :
  stops f = true -> existsb stops (pre ++ f :: post) = true.
Proof.
  intros Hf. rewrite existsb_app. cbn. rewrite Hf. apply orb_true_r.
Qed.

(** * The claims *)

(** C10.  In both programs an input-sampling step leaves the OpenGL context,
    the console and the windowing library as they are when the backspace key
    is not pressed; when it is pressed, the only thing that changes is the
    should-close flag of the window, which becomes true. *)
Theorem processInput_sets_only_the_close_flag (window : GLFWwindow) (w : World) :
  input_sampled w (exec (HelloWindow.processInput window) w) /\
  input_sampled w (exec (HelloQuad.processInput window) w).
Proof.
  split.
  - rewrite (processInput_run HelloWindow.processInput) by reflexivity.
    unfold input_sampled, window_of. cbn [gl glfw console].
    destruct (key_now w); repeat split.
  - rewrite (processInput_run HelloQuad.processInput) by reflexivity.
    unfold input_sampled, window_of. cbn [gl glfw console].
    destruct (key_now w); repeat split.
Qed.

(** C5.  While the loop of the second program is running, one iteration makes
    exactly these calls in this order: the loop condition, the key query (and
    the close request if the key is down), [glClearColor(0, 0, 0, 1)],
    [glClear], [glUseProgram] with the built program, [glBindVertexArray] and
    [glBindBuffer] with the geometry's array and index buffer, one
    [glDrawElements] of 6 indices as triangles, [glfwSwapBuffers],
    [glfwPollEvents] with the callbacks of the pending resize events.  The
    framebuffer receives one clear to black, one draw of 6 / 3 = 2 triangles
    and one presentation. *)
Theorem quad_iteration_order (window : GLFWwindow) (p vao ebo : GLuint)
    (fi : FrameInput) (rest : list FrameInput) (w : World) :
  open_window w = true ->
  exists w' d,
    HelloQuad.render_loop window p vao ebo (fi :: rest) w =
      HelloQuad.render_loop window p vao ebo rest w' /\
    trace w' =
      trace w ++
      [Call_glfwWindowShouldClose window; Call_glfwGetKey window GLFW_KEY_BACKSPACE] ++
      (if pressed fi then [Call_glfwSetWindowShouldClose window true] else []) ++
      [ Call_glClearColor 0 0 0 1;
        Call_glClear GL_COLOR_BUFFER_BIT;
        Call_glUseProgram p;
        Call_glBindVertexArray vao;
        Call_glBindBuffer GL_ELEMENT_ARRAY_BUFFER ebo;
        Call_glDrawElements GL_TRIANGLES 6 GL_UNSIGNED_INT 0;
        Call_glfwSwapBuffers window;
        Call_glfwPollEvents ] ++
      callback_calls (polled fi w) /\
    frame_ops (gl w') =
      frame_ops (gl w) ++
      [Cleared GL_COLOR_BUFFER_BIT (0, 0, 0, 1)%Q; Drawn d; Presented] /\
    d_mode d = GL_TRIANGLES /\ d_type d = GL_UNSIGNED_INT /\
    d_count d = 6 /\ d_count d / 3 = 2.
Proof.
  intros Hw.
  exists (iterate (quad_gl p vao ebo) (quad_calls window p vao ebo) window fi w),
         (quad_draw p vao ebo (gl w)).
  split.
  { rewrite !quad_render_loop_shape.
    apply (frame_loop_cons window _ _ _ (quad_frame_run window p vao ebo)). exact Hw. }
  unfold open_window in Hw. unfold iterate, polled.
  destruct (window_of w) as [x|]; [|discriminate].
  unfold frame_world, checked. cbn [gl trace]. split; [|split].
  - unfold input_calls, pressed, quad_calls.
    destruct (fi_backspace fi); rewrite <- !app_assoc; reflexivity.
  - rewrite frame_ops_resize_gl. apply quad_gl_frame_ops.
  - repeat split.
Qed.

(** C2.  The loop of the second program, entered as [main] enters it, is
    RUNNING as long as no iteration so far has set the should-close flag of
    the window, and is STOPPED from the first iteration on that sets it:
    however many more frames of input there are, the loop ends as it does
    when that iteration is the last.  An iteration sets the flag when its
    input sampling finds the key pressed, and also when its poll finds a close
    request of the user, so that a pressed key is one of two ways to stop the
    loop.  The iteration that sets the flag still draws; one draw call has
    been issued for each iteration up to and including it, and none after. *)
Theorem quad_loop_stops_once (window : GLFWwindow) (p vao ebo : GLuint)
    (pre post : list FrameInput) (f : FrameInput) (w : World) :
  loop_ready w = true ->
  Forall (fun fi => fi_backspace fi = GLFW_RELEASE /\ ~ In WindowClose (fi_events fi))
    pre ->
  fi_backspace f = GLFW_PRESS \/ In WindowClose (fi_events f) ->
  (forall k, (k <= length pre)%nat ->
     eval (HelloQuad.render_loop window p vao ebo (firstn k (pre ++ f :: post))) w
     = RUNNING) /\
  eval (HelloQuad.render_loop window p vao ebo (pre ++ [f])) w = STOPPED /\
  (forall k, (length pre < k)%nat ->
     HelloQuad.render_loop window p vao ebo (firstn k (pre ++ f :: post)) w =
     HelloQuad.render_loop window p vao ebo (pre ++ [f]) w) /\
  length (draws_of (frame_ops (gl
    (exec (HelloQuad.render_loop window p vao ebo (pre ++ f :: post)) w)))) =
  (length (draws_of (frame_ops (gl w))) + length pre + 1)%nat.
Proof.
  intros Hw Hpre Hf.
  apply quiet_forallb in Hpre. apply stops_iff in Hf.
  assert (Hlast : HelloQuad.render_loop window p vao ebo (pre ++ [f]) w =
                  (STOPPED,
                   checked window
                     (iterate_all (quad_gl p vao ebo) (quad_calls window p vao ebo)
                        window (pre ++ [f]) w))).
  { rewrite quad_render_loop_run by exact Hw.
    rewrite existsb_stops_app by exact Hf.
    rewrite (executed_app_stops pre [] f Hpre Hf). reflexivity. }
  split; [|split; [|split]].
  - intros k Hk. unfold eval. rewrite quad_render_loop_run by exact Hw. cbn [fst].
    rewrite firstn_app. replace (k - length pre)%nat with 0%nat by lia.
    cbn [firstn]. rewrite app_nil_r, quiet_no_stop; [reflexivity|].
    rewrite <- (firstn_skipn k pre) in Hpre. rewrite forallb_app in Hpre.
    apply andb_prop in Hpre as [H _]. exact H.
  - unfold eval. rewrite Hlast. reflexivity.
  - intros k Hk. rewrite Hlast, quad_render_loop_run by exact Hw.
    rewrite firstn_app, firstn_all2 by lia.
    destruct (k - length pre)%nat as [|j] eqn:Hj; [lia|]. cbn [firstn].
    rewrite existsb_stops_app by exact Hf.
    rewrite (executed_app_stops pre (firstn j post) f Hpre Hf). reflexivity.
  - unfold exec. rewrite quad_render_loop_run by exact Hw. cbn [snd].
    rewrite (executed_app_stops pre post f Hpre Hf). unfold checked. cbn [gl].
    rewrite (steps_draws window _ _ (fun g => [quad_draw p vao ebo g])
               (quad_gl_draws p vao ebo)).
    + rewrite length_app, quad_draws_seen_length, length_app. cbn. lia.
    + apply loop_ready_window, Hw.
Qed.

(** C6.  In either program, started as [main] starts its loop, the viewport
    after any number of iterations is the one asked for by the last resize
    event polled so far (a poll calls the callback for each pending resize
    event before it returns, and the callback sets the viewport to the
    event's width and height; a close request leaves the viewport as it
    is).  So every draw call of the second program is issued
    under the viewport of the last resize event polled in the iterations
    before it; the first program issues no draw call at all. *)
Theorem resize_reaches_viewport_before_next_draw (window : GLFWwindow)
    (p vao ebo : GLuint) (frames : list FrameInput) (w : World) :
  loop_ready w = true ->
  (forall evs width height r,
     resized (evs ++ [FramebufferSize width height]) r =
     (0, 0, Z.of_N width, Z.of_N height)) /\
  (forall evs r, resized (evs ++ [WindowClose]) r = resized evs r) /\
  (let w' := exec (HelloWindow.render_loop window frames) w in
   viewport (gl w') = resized (flat_map fi_events (executed frames)) (viewport (gl w)) /\
   draws_of (frame_ops (gl w')) = draws_of (frame_ops (gl w))) /\
  (let w' := exec (HelloQuad.render_loop window p vao ebo frames) w in
   viewport (gl w') = resized (flat_map fi_events (executed frames)) (viewport (gl w)) /\
   exists ds,
     draws_of (frame_ops (gl w')) = draws_of (frame_ops (gl w)) ++ ds /\
     length ds = length (executed frames) /\
     forall k d,
       nth_error ds k = Some d ->
       d_viewport d =
       resized (flat_map fi_events (firstn k (executed frames))) (viewport (gl w))).
Proof.
  intros Hw. pose proof (loop_ready_window w Hw) as Hwin.
  pose proof Hw as Hcb. apply andb_prop in Hcb as [_ Hcb].
  split; [|split; [|split]].
  - intros evs width height r. apply resized_last.
  - intros evs r. apply resized_close.
  - cbv zeta. unfold exec. rewrite window_render_loop_run by exact Hw.
    cbn [snd]. unfold checked. cbn [gl]. split.
    + apply (steps_viewport window window_gl (window_calls window));
        [reflexivity | exact Hcb].
    + rewrite (steps_draws window _ _ (fun _ => []) window_gl_draws) by exact Hwin.
      rewrite window_draws_seen. apply app_nil_r.
  - cbv zeta. unfold exec. rewrite quad_render_loop_run by exact Hw.
    cbn [snd]. unfold checked. cbn [gl]. split.
    + apply (steps_viewport window _ _ (quad_gl_viewport p vao ebo)). exact Hcb.
    + eexists. split; [|split].
      * apply (steps_draws window _ _ (fun g => [quad_draw p vao ebo g])
                 (quad_gl_draws p vao ebo)). exact Hwin.
      * apply quad_draws_seen_length.
      * apply quad_draws_seen_viewport. exact Hcb.
Qed.

(** ** Whole runs of [main] *)

(** The world after the loop of the second program, when [main] got there. *)
Lemma quad_main_run (env : Env) :
  env_window_ok env = true ->
  env_loader_ok env = true ->
  let ready :=
    quad_ready (env_framebuffer env)
      (outcome_of (env_driver env)
         HelloQuad.vertexShaderSource HelloQuad.fragmentShaderSource) in
  let after :=
    checked the_window
      (iterate_all (quad_gl quad_program quad_VAO quad_EBO)
         (quad_calls the_window quad_program quad_VAO quad_EBO) the_window
         (executed (env_frames env)) ready) in
  HelloQuad.main env initial_world =
  if existsb stops (env_frames env)
  then (Returned 0, mkWorld (destroy_context (gl after)) initial_glfw (console after)
                      (trace after ++ [Call_glfwTerminate]))
  else (InLoop, after).
Proof.
  intros Hwin Hload. cbv zeta. rewrite quad_main_enters by assumption.
  rewrite quad_render_loop_run by apply quad_ready_run.
  unfold finish. cbn [fst snd].
  destruct (existsb stops (env_frames env)); reflexivity.
Qed.

Lemma window_main_run (env : Env) :
  env_window_ok env = true ->
  env_loader_ok env = true ->
  let after :=
    checked the_window
      (iterate_all window_gl (window_calls the_window) the_window
         (executed (env_frames env)) (loaded (env_framebuffer env))) in
  HelloWindow.main env initial_world =
  if existsb stops (env_frames env)
  then (Returned 0, mkWorld (destroy_context (gl after)) initial_glfw (console after)
                      (trace after ++ [Call_glfwTerminate]))
  else (InLoop, after).
Proof.
  intros Hwin Hload. cbv zeta. rewrite window_main_enters by assumption.
  rewrite window_render_loop_run by reflexivity.
  unfold finish. cbn [fst snd].
  destruct (existsb stops (env_frames env)); reflexivity.
Qed.

(** The second program on the sample input: three iterations, each with a
    draw call, the last two under the viewport of the first resize; the
    resize polled by the stopping iteration is the last thing the context
    sees before it is destroyed with the window. *)
Example quad_sample_run :
  let r := HelloQuad.main sample_env initial_world in
  fst r = Returned 0 /\
  map d_viewport (draws_of (frame_ops (gl (snd r)))) =
    [(0, 0, 1024, 1024); (0, 0, 800, 600); (0, 0, 800, 600)] /\
  viewport (gl (exec (HelloQuad.render_loop the_window quad_program quad_VAO
                        quad_EBO sample_frames) sample_ready)) = (0, 0, 640, 480) /\
  console (snd r) = [] /\
  objects (gl (snd r)) = (∅, ∅, ∅, ∅) /\
  glfw (snd r) = initial_glfw.
Proof. vm_compute. repeat split. Qed.

(** The same program when the key is never touched and the user closes the
    window during the second frame: two iterations, then the normal exit. *)
Example quad_close_run :
  let r := HelloQuad.main close_env initial_world in
  fst r = Returned 0 /\
  map d_viewport (draws_of (frame_ops (gl (snd r)))) =
    [(0, 0, 1024, 1024); (0, 0, 800, 600)] /\
  existsb (fun c => match c with Call_glfwSetWindowShouldClose _ _ => true | _ => false end)
    (trace (snd r)) = false /\
  glfw (snd r) = initial_glfw.
Proof. vm_compute. repeat split. Qed.

(** The first program on the same input. *)
Example window_sample_run :
  let r := HelloWindow.main sample_env initial_world in
  fst r = Returned 0 /\
  frame_ops (gl (snd r)) =
    [ Cleared GL_COLOR_BUFFER_BIT window_color; Presented;
      Cleared GL_COLOR_BUFFER_BIT window_color; Presented;
      Cleared GL_COLOR_BUFFER_BIT window_color; Presented ] /\
  viewport (gl (exec (HelloWindow.render_loop the_window sample_frames)
                  (loaded (1024, 1024)%N))) = (0, 0, 640, 480) /\
  glfw (snd r) = initial_glfw.
Proof. vm_compute. repeat split. Qed.

(** When the window cannot be created, both programs report it, shut the
    library down and return -1. *)
Lemma main_window_failure (fb : N * N) (lok : bool) (drv : Driver)
    (frames : list FrameInput) :
  let env := mkEnv false fb lok drv frames in
  let failed :=
    (Returned (-1),
     mkWorld initial_gl initial_glfw ["failed to create GLFW window"%string]
       [ Call_glfwInit;
         Call_glfwWindowHint GLFW_CONTEXT_VERSION_MAJOR 3;
         Call_glfwWindowHint GLFW_CONTEXT_VERSION_MINOR 3;
         Call_glfwWindowHint GLFW_OPENGL_PROFILE GLFW_OPENGL_CORE_PROFILE;
         Call_glfwCreateWindow 1024 1024 "cr1ms0nh3ad";
         Call_cout "failed to create GLFW window";
         Call_glfwTerminate ]) in
  HelloWindow.main env initial_world = failed /\
  HelloQuad.main env initial_world = failed.
Proof. split; vm_compute; reflexivity. Qed.

(** When the loop stops, both programs shut the library down and return 0;
    the loop stops exactly if some iteration sets the should-close flag. *)
Lemma main_normal_exit (env : Env) :
  env_window_ok env = true ->
  env_loader_ok env = true ->
  existsb stops (env_frames env) = true ->
  (eval (HelloWindow.main env) initial_world = Returned 0 /\
   glfw (exec (HelloWindow.main env) initial_world) = initial_glfw /\
   exists calls,
     trace (exec (HelloWindow.main env) initial_world) = calls ++ [Call_glfwTerminate]) /\
  (eval (HelloQuad.main env) initial_world = Returned 0 /\
   glfw (exec (HelloQuad.main env) initial_world) = initial_glfw /\
   exists calls,
     trace (exec (HelloQuad.main env) initial_world) = calls ++ [Call_glfwTerminate]).
Proof.
  intros Hwin Hload Hpress. unfold eval, exec.
  rewrite window_main_run, quad_main_run by assumption. cbv zeta. rewrite Hpress.
  cbn [fst snd glfw trace]. repeat split; eexists; reflexivity.
Qed.

(** C3.  With a window but without the OpenGL functions, both programs print
    the failure and return -1 at once: [glfwTerminate] is not called, the
    library stays initialised and the window stays open.  (The two other ways
    out of [main], [main_window_failure] and [main_normal_exit], do call
    it.) *)
Theorem loader_failure_returns_without_terminate (fb : N * N) (drv : Driver)
    (frames : list FrameInput) :
  let env := mkEnv true fb false drv frames in
  let left_behind (r : Outcome * World) :=
    fst r = Returned (-1) /\
    console (snd r) = ["failed to initialize GLAD"%string] /\
    existsb is_terminate_call (trace (snd r)) = false /\
    glfw_initialized (glfw (snd r)) = true /\
    open_window (snd r) = true in
  left_behind (HelloWindow.main env initial_world) /\
  left_behind (HelloQuad.main env initial_world).
Proof. destruct fb as [fw fh]. split; vm_compute; repeat split. Qed.

(** ** The build *)

Lemma build_calls_plain (vsrc fsrc : string) (o : BuildOutcome) :
  existsb is_draw_call (build_calls vsrc fsrc o) = false /\
  existsb is_polygon_mode_call (build_calls vsrc fsrc o) = false /\
  existsb (queries_shader quad_fragment_shader) (build_calls vsrc fsrc o) = false.
Proof. split_outcome o; repeat split. Qed.

(** A build is silent exactly if both stages compile and the program links. *)
Lemma build_console_silent (o : BuildOutcome) :
  build_console o = [] <-> linked o = true.
Proof. split_outcome o; cbn; split; intros H; (reflexivity || discriminate H). Qed.

(** Whatever the driver answers, a build never asks for the compile status or
    the info log of the fragment stage; what it prints is the vertex
    diagnostic if the vertex stage failed and the link diagnostic if the
    program did not link. *)
Lemma build_diagnostics (drv : Driver) (vsrc fsrc : string) (fb : N * N) :
  let o := outcome_of drv vsrc fsrc in
  let w := exec (HelloQuad.build_shader_program drv vsrc fsrc) (loaded fb) in
  console w = build_console o /\
  existsb (queries_shader quad_fragment_shader) (trace w) = false.
Proof.
  cbv zeta. unfold exec.
  destruct (build_run drv vsrc fsrc fb) as (_ & Ht & Hc & _). split; [exact Hc|].
  rewrite Ht, existsb_app. rewrite (proj2 (proj2 (build_calls_plain vsrc fsrc _))).
  reflexivity.
Qed.

(** C1.  A vertex source the driver accepts and a fragment source it rejects:
    the build asks for the status and the log of the vertex stage but never
    for those of the fragment stage, whose compile error stays unread in the
    shader object; the only diagnostic printed is the one of the link, which
    fails because a stage is not compiled.  The build goes on to the end and
    returns the program. *)
Theorem fragment_compile_failure_is_not_checked :
  let r := HelloQuad.build_shader_program strict_driver
             HelloQuad.vertexShaderSource broken_fragment_source
             (loaded (1024, 1024)%N) in
  fst r = (quad_program, quad_vertex_shader, quad_fragment_shader) /\
  shaders (gl (snd r)) !! quad_vertex_shader =
    Some (mkShader GL_VERTEX_SHADER HelloQuad.vertexShaderSource true "" true) /\
  shaders (gl (snd r)) !! quad_fragment_shader =
    Some (mkShader GL_FRAGMENT_SHADER broken_fragment_source false
            "0:1(1): error: syntax error, unexpected end of file" true) /\
  existsb (queries_shader quad_vertex_shader) (trace (snd r)) = true /\
  existsb (queries_shader quad_fragment_shader) (trace (snd r)) = false /\
  console (snd r) =
    [ ("ERROR::SHADER::PROGRAM::LINKING::FAILED" ++ nl ++
       "error: linking with uncompiled shader")%string ].
Proof. vm_compute. repeat split. Qed.

(** C7.  Whatever the driver answers for the two compilations and the link,
    the build ends with [glDeleteShader] on the vertex stage and on the
    fragment stage, both after [glLinkProgram] and the check of its result,
    and leaves both shader objects flagged as deleted.  [main] keeps the
    program handle only. *)
Theorem stage_handles_released_after_link (drv : Driver) (vsrc fsrc : string)
    (fb : N * N) :
  let o := outcome_of drv vsrc fsrc in
  let r := HelloQuad.build_shader_program drv vsrc fsrc (loaded fb) in
  let p := fst (fst (fst r)) in
  let vs := snd (fst (fst r)) in
  let fs := snd (fst r) in
  vs <> fs /\
  trace (snd r) =
    trace (loaded fb) ++ build_calls_to_link vsrc fsrc o ++
    Call_glLinkProgram p :: build_calls_after_link o ++
    [Call_glDeleteShader vs; Call_glDeleteShader fs] /\
  sh_delete_status <$> shaders (gl (snd r)) !! vs = Some true /\
  sh_delete_status <$> shaders (gl (snd r)) !! fs = Some true.
Proof.
  cbv zeta.
  destruct (build_run drv vsrc fsrc fb) as (Hr & Ht & _ & _ & _ & Hv & Hf).
  rewrite Hr. cbn [fst snd]. rewrite Ht, Hv, Hf. unfold build_calls.
  repeat split. discriminate.
Qed.

(** ** The world at the loop of the second program *)

Lemma In_quad_ready_trace (fb : N * N) (o : BuildOutcome) (c : Call) :
  In c [ Call_glGenVertexArrays 1;
         Call_glGenBuffers 1;
         Call_glGenBuffers 1;
         Call_glBindVertexArray quad_VAO;
         Call_glBindBuffer GL_ARRAY_BUFFER quad_VBO;
         Call_glBindBuffer GL_ELEMENT_ARRAY_BUFFER quad_EBO;
         Call_glBufferData GL_ARRAY_BUFFER 48 GL_STATIC_DRAW;
         Call_glBufferData GL_ELEMENT_ARRAY_BUFFER 24 GL_STATIC_DRAW;
         Call_glVertexAttribPointer 0 3 GL_FLOAT false 12 0;
         Call_glEnableVertexAttribArray 0;
         Call_glBindBuffer GL_ARRAY_BUFFER 0;
         Call_glBindVertexArray 0;
         Call_glPolygonMode GL_FRONT_AND_BACK GL_LINE ] ->
  In c (trace (quad_ready fb o)).
Proof.
  intros H. destruct (quad_ready_run fb o) as (_ & _ & _ & _ & _ & ->).
  apply List.in_or_app. right. apply List.in_or_app. right. exact H.
Qed.

(** C8.  When [main] of the second program enters its loop, attribute 0 of
    the vertex array object is enabled and reads 3 components of type
    [GL_FLOAT], not normalized, with a stride of 3 floats from offset 0 of
    the vertex buffer; [main] has called [glVertexAttribPointer] with these
    arguments and [glEnableVertexAttribArray(0)]. *)
Theorem quad_vertex_layout (env : Env) :
  env_window_ok env = true ->
  env_loader_ok env = true ->
  exists w0 a,
    HelloQuad.main env initial_world =
      finish (HelloQuad.render_loop the_window quad_program quad_VAO quad_EBO
                (env_frames env) w0) /\
    vertex_arrays (gl w0) !! quad_VAO = Some a /\
    vao_attribs a !! 0%N =
      Some (mkVertexAttrib true 3 GL_FLOAT false (3 * sizeof_float) 0 quad_VBO) /\
    In (Call_glVertexAttribPointer 0 3 GL_FLOAT false (3 * sizeof_float) 0) (trace w0) /\
    In (Call_glEnableVertexAttribArray 0) (trace w0).
Proof.
  intros Hwin Hload. eexists. eexists. split; [apply quad_main_enters; assumption|].
  split; [apply quad_ready_geometry|].
  split; [reflexivity|].
  split; apply In_quad_ready_trace; cbn; tauto.
Qed.

(** C4.  When [main] of the second program enters its loop, the vertex buffer
    of the vertex array object holds the 12 floats of 4 vertices and its
    index buffer holds the indices 0, 1, 3, 1, 2, 3.  Every index is below
    the number of vertices, [length vertices / 3 = 4]; read as a triangle
    list the indices are the triangles (0, 1, 3) and (1, 2, 3), and both have
    the edge between vertex 1 and vertex 3. *)
Theorem quad_geometry_uploaded (env : Env) :
  env_window_ok env = true ->
  env_loader_ok env = true ->
  exists w0 a,
    HelloQuad.main env initial_world =
      finish (HelloQuad.render_loop the_window quad_program quad_VAO quad_EBO
                (env_frames env) w0) /\
    vertex_arrays (gl w0) !! quad_VAO = Some a /\
    va_buffer <$> vao_attribs a !! 0%N = Some quad_VBO /\
    vao_element_buffer a = quad_EBO /\
    buffers (gl w0) !! quad_VBO =
      Some (mkBuffer (12 * sizeof_float) (FloatData HelloQuad.vertices) GL_STATIC_DRAW) /\
    buffers (gl w0) !! quad_EBO =
      Some (mkBuffer (6 * sizeof_uint) (UIntData [0; 1; 3; 1; 2; 3]%N) GL_STATIC_DRAW) /\
    (length HelloQuad.vertices / 3 = 4)%nat /\
    HelloQuad.indices = [0; 1; 3; 1; 2; 3]%N /\
    Forall (fun i => (i < N.of_nat (length HelloQuad.vertices / 3))%N)
      HelloQuad.indices /\
    triangles_of HelloQuad.indices = [(0, 1, 3); (1, 2, 3)]%N /\
    Forall (fun t => has_edge t 1 3 = true) (triangles_of HelloQuad.indices).
Proof.
  intros Hwin Hload. eexists. eexists. split; [apply quad_main_enters; assumption|].
  destruct (quad_ready_geometry (env_framebuffer env)
              (outcome_of (env_driver env) HelloQuad.vertexShaderSource
                 HelloQuad.fragmentShaderSource)) as (Ha & Hv & He).
  split; [exact Ha|]. split; [reflexivity|]. split; [reflexivity|].
  split; [exact Hv|]. split; [exact He|]. split; [reflexivity|].
  split; [reflexivity|].
  split; [repeat constructor|]. split; [reflexivity|]. repeat constructor.
Qed.

Lemma existsb_false_Forall {A} (f : A -> bool) (l : list A) :
  Forall (fun x => f x = false) l -> existsb f l = false.
Proof. induction 1 as [|x l Hx _ IH]; [reflexivity|]. cbn. rewrite Hx, IH. reflexivity. Qed.

(** C9.  When the second program reaches its loop, [main] calls
    [glPolygonMode(GL_FRONT_AND_BACK, GL_LINE)] once, before any draw call,
    and never calls [glPolygonMode] again; every draw call of the run is
    issued with the polygon mode [GL_LINE] for front and back faces. *)
Theorem quad_draws_in_wireframe (env : Env) :
  env_window_ok env = true ->
  env_loader_ok env = true ->
  let w := exec (HelloQuad.main env) initial_world in
  Forall wireframe (draws_of (frame_ops (gl w))) /\
  exists before after,
    trace w = before ++ Call_glPolygonMode GL_FRONT_AND_BACK GL_LINE :: after /\
    existsb is_draw_call before = false /\
    existsb is_polygon_mode_call before = false /\
    existsb is_polygon_mode_call after = false.
Proof.
  intros Hwin Hload. cbv zeta. unfold exec.
  rewrite quad_main_run by assumption. cbv zeta.
  set (o := outcome_of (env_driver env) HelloQuad.vertexShaderSource
              HelloQuad.fragmentShaderSource).
  set (fb := env_framebuffer env).
  destruct (quad_ready_run fb o) as (Hready & Hmode & _ & Hops & _ & Htrace).
  assert (Hdraws :
    Forall wireframe
      (draws_of (frame_ops (gl
         (iterate_all (quad_gl quad_program quad_VAO quad_EBO)
            (quad_calls the_window quad_program quad_VAO quad_EBO) the_window
            (executed (env_frames env)) (quad_ready fb o)))))).
  { rewrite (steps_draws the_window _ _
               (fun g => [quad_draw quad_program quad_VAO quad_EBO g])
               (quad_gl_draws quad_program quad_VAO quad_EBO)).
    - rewrite Hops. cbn [draws_of flat_map app]. unfold wireframe. rewrite <- Hmode.
      apply (draws_seen_polygon_mode the_window _ _ _
               (quad_gl_polygon_mode quad_program quad_VAO quad_EBO)).
      intros g d [<-|[]]. apply quad_draw_view.
    - apply loop_ready_open in Hready. unfold open_window in Hready.
      destruct (window_of (quad_ready fb o)); discriminate. }
  destruct (steps_trace the_window (quad_gl quad_program quad_VAO quad_EBO)
              (quad_calls the_window quad_program quad_VAO quad_EBO)
              (fun c => is_polygon_mode_call c = false)
              (executed (env_frames env)) (quad_ready fb o))
    as (calls & Hcalls & Hplain).
  { reflexivity. }
  { intros [|]; repeat constructor. }
  { repeat constructor. }
  { intros evs. induction evs as [|[width height|] evs IH]; cbn;
      repeat constructor; exact IH. }
  apply existsb_false_Forall in Hplain.
  remember
    (trace (loaded fb) ++
     build_calls HelloQuad.vertexShaderSource HelloQuad.fragmentShaderSource o ++
     [ Call_glGenVertexArrays 1; Call_glGenBuffers 1; Call_glGenBuffers 1;
       Call_glBindVertexArray quad_VAO;
       Call_glBindBuffer GL_ARRAY_BUFFER quad_VBO;
       Call_glBindBuffer GL_ELEMENT_ARRAY_BUFFER quad_EBO;
       Call_glBufferData GL_ARRAY_BUFFER 48 GL_STATIC_DRAW;
       Call_glBufferData GL_ELEMENT_ARRAY_BUFFER 24 GL_STATIC_DRAW;
       Call_glVertexAttribPointer 0 3 GL_FLOAT false 12 0;
       Call_glEnableVertexAttribArray 0;
       Call_glBindBuffer GL_ARRAY_BUFFER 0;
       Call_glBindVertexArray 0 ]) as before eqn:Hbefore.
  assert (Hsplit : trace (quad_ready fb o) =
                   before ++ [Call_glPolygonMode GL_FRONT_AND_BACK GL_LINE]).
  { rewrite Htrace, Hbefore, <- !app_assoc. reflexivity. }
  assert (Hnodraw : existsb is_draw_call before = false).
  { rewrite Hbefore, !existsb_app, (proj1 (build_calls_plain _ _ o)). reflexivity. }
  assert (Hnomode : existsb is_polygon_mode_call before = false).
  { rewrite Hbefore, !existsb_app, (proj1 (proj2 (build_calls_plain _ _ o))).
    reflexivity. }
  clear Hbefore Htrace.
  destruct (existsb stops (env_frames env)); cbn [snd gl trace]; unfold checked;
    cbn [gl trace destroy_context frame_ops]; (split; [exact Hdraws|]);
    rewrite Hcalls, Hsplit.
  - exists before,
      (calls ++ [Call_glfwWindowShouldClose the_window; Call_glfwTerminate]).
    split; [rewrite <- !app_assoc; reflexivity|].
    split; [exact Hnodraw|]. split; [exact Hnomode|].
    rewrite existsb_app, Hplain. reflexivity.
  - exists before, (calls ++ [Call_glfwWindowShouldClose the_window]).
    split; [rewrite <- !app_assoc; reflexivity|].
    split; [exact Hnodraw|]. split; [exact Hnomode|].
    rewrite existsb_app, Hplain. reflexivity.
Qed.

(** ** The claims on the sample run *)

Lemma quad_iteration_order_witness :
  open_window sample_ready = true /\
  exists w' d,
    HelloQuad.render_loop the_window quad_program quad_VAO quad_EBO
      [sample_stop] sample_ready =
    HelloQuad.render_loop the_window quad_program quad_VAO quad_EBO [] w' /\
    frame_ops (gl w') =
      [Cleared GL_COLOR_BUFFER_BIT (0, 0, 0, 1)%Q; Drawn d; Presented] /\
    d_count d / 3 = 2.
Proof.
  assert (Hopen : open_window sample_ready = true) by (vm_compute; reflexivity).
  split; [exact Hopen|].
  destruct (quad_iteration_order the_window quad_program quad_VAO quad_EBO
              sample_stop [] sample_ready Hopen)
    as (w' & d & Hloop & _ & Hops & _ & _ & _ & Hcount).
  exists w', d. split; [exact Hloop|]. split; [exact Hops | exact Hcount].
Defined.

Lemma quad_loop_stops_once_witness :
  loop_ready sample_ready = true /\
  Forall (fun fi => fi_backspace fi = GLFW_RELEASE /\ ~ In WindowClose (fi_events fi))
    sample_pre /\
  (fi_backspace sample_stop = GLFW_PRESS \/ In WindowClose (fi_events sample_stop)) /\
  eval (HelloQuad.render_loop the_window quad_program quad_VAO quad_EBO
          (sample_pre ++ [sample_stop])) sample_ready = STOPPED /\
  length (draws_of (frame_ops (gl
    (exec (HelloQuad.render_loop the_window quad_program quad_VAO quad_EBO
             sample_frames) sample_ready)))) = 3%nat.
Proof.
  assert (Hopen : loop_ready sample_ready = true) by (vm_compute; reflexivity).
  assert (Hpre : Forall (fun fi => fi_backspace fi = GLFW_RELEASE /\
                                   ~ In WindowClose (fi_events fi)) sample_pre).
  { unfold sample_pre.
    constructor; [split; [reflexivity | cbn; intros [H|[]]; discriminate H]|].
    constructor; [split; [reflexivity | cbn; intros []] | constructor]. }
  assert (Hstop : fi_backspace sample_stop = GLFW_PRESS \/
                  In WindowClose (fi_events sample_stop)) by (left; reflexivity).
  split; [exact Hopen|]. split; [exact Hpre|]. split; [exact Hstop|].
  destruct (quad_loop_stops_once the_window quad_program quad_VAO quad_EBO
              sample_pre sample_post sample_stop sample_ready Hopen Hpre Hstop)
    as (_ & Hstopped & _ & Hdraws).
  split; [exact Hstopped | exact Hdraws].
Defined.

(** C2, counterexample.  A run in which the transition is not on an
    iteration whose input sampling observes the key pressed: the user closes
    the window during the second frame.  Every input sampling finds the key
    released, the loop is RUNNING after the first iteration and STOPPED
    after the second, the third frame is never run (two draw calls in all),
    and [main] returns 0. *)
Lemma quad_loop_stops_without_key_press :
  Forall (fun fi => fi_backspace fi = GLFW_RELEASE) close_frames /\
  loop_ready sample_ready = true /\
  eval (HelloQuad.render_loop the_window quad_program quad_VAO quad_EBO
          (firstn 1 close_frames)) sample_ready = RUNNING /\
  eval (HelloQuad.render_loop the_window quad_program quad_VAO quad_EBO
          (firstn 2 close_frames)) sample_ready = STOPPED /\
  length (draws_of (frame_ops (gl
    (exec (HelloQuad.render_loop the_window quad_program quad_VAO quad_EBO
             close_frames) sample_ready)))) = 2%nat /\
  fst (HelloQuad.main close_env initial_world) = Returned 0.
Proof. vm_compute. repeat split; repeat constructor. Qed.

Lemma resize_reaches_viewport_before_next_draw_witness :
  loop_ready sample_ready = true /\
  viewport (gl (exec (HelloQuad.render_loop the_window quad_program quad_VAO
                        quad_EBO sample_frames) sample_ready)) =
  resized (flat_map fi_events (executed sample_frames)) (viewport (gl sample_ready)).
Proof.
  assert (Hready : loop_ready sample_ready = true) by (vm_compute; reflexivity).
  split; [exact Hready|].
  exact (proj1 (proj2 (proj2 (proj2
           (resize_reaches_viewport_before_next_draw the_window quad_program quad_VAO
              quad_EBO sample_frames sample_ready Hready))))).
Defined.

Lemma quad_vertex_layout_witness :
  env_window_ok sample_env = true /\
  env_loader_ok sample_env = true /\
  exists w0 a,
    vertex_arrays (gl w0) !! quad_VAO = Some a /\
    vao_attribs a !! 0%N =
      Some (mkVertexAttrib true 3 GL_FLOAT false (3 * sizeof_float) 0 quad_VBO).
Proof.
  split; [reflexivity|]. split; [reflexivity|].
  destruct (quad_vertex_layout sample_env eq_refl eq_refl)
    as (w0 & a & _ & Ha & Hattrib & _).
  exists w0, a. split; [exact Ha | exact Hattrib].
Defined.

Lemma quad_geometry_uploaded_witness :
  env_window_ok sample_env = true /\
  env_loader_ok sample_env = true /\
  exists w0,
    buffers (gl w0) !! quad_EBO =
      Some (mkBuffer (6 * sizeof_uint) (UIntData [0; 1; 3; 1; 2; 3]%N) GL_STATIC_DRAW).
Proof.
  split; [reflexivity|]. split; [reflexivity|].
  destruct (quad_geometry_uploaded sample_env eq_refl eq_refl)
    as (w0 & a & _ & _ & _ & _ & _ & Hindex & _).
  exists w0. exact Hindex.
Defined.

Lemma quad_draws_in_wireframe_witness :
  env_window_ok sample_env = true /\
  env_loader_ok sample_env = true /\
  Forall wireframe
    (draws_of (frame_ops (gl (exec (HelloQuad.main sample_env) initial_world)))).
Proof.
  split; [reflexivity|]. split; [reflexivity|].
  exact (proj1 (quad_draws_in_wireframe sample_env eq_refl eq_refl)).
Defined.

(** * Further properties *)

(** ** What the frame loops leave alone *)

Lemma resize_gl_objects (evs : list WindowEvent) (g : GLState) :
  objects (resize_gl evs g) = objects g.
Proof.
  revert g. induction evs as [|ev evs IH]; intros g; [reflexivity|].
  rewrite resize_gl_cons, IH. destruct ev; reflexivity.
Qed.

Lemma current_program_resize_gl (evs : list WindowEvent) (g : GLState) :
  current_program (resize_gl evs g) = current_program g.
Proof.
  revert g. induction evs as [|ev evs IH]; intros g; [reflexivity|].
  rewrite resize_gl_cons, IH. destruct ev; reflexivity.
Qed.

Lemma touch_buffer_present (buffer : GLuint) (g : GLState) (b : Buffer) :
  buffers g !! buffer = Some b -> touch_buffer buffer g = g.
Proof.
  intros H. unfold touch_buffer. rewrite H. destruct (buffer =? 0)%N; reflexivity.
Qed.

Lemma touch_vertex_array_present (array : GLuint) (g : GLState) (a : VertexArray) :
  vertex_arrays g !! array = Some a -> touch_vertex_array array g = g.
Proof.
  intros H. unfold touch_vertex_array. rewrite H. destruct (array =? 0)%N; reflexivity.
Qed.

Lemma use_program_objects (p : GLuint) (g : GLState) :
  objects (use_program p g) = objects g.
Proof.
  unfold use_program. destruct (p =? 0)%N; [reflexivity|].
  destruct (programs g !! p) as [q|]; [destruct (pr_link_status q)|]; reflexivity.
Qed.

(** The program a draw call finds current after [glUseProgram(p)]: [p] if it
    is linked, and otherwise whatever was current before. *)
Lemma use_program_current (p : GLuint) (g : GLState) (q : Program) :
  p <> 0%N ->
  programs g !! p = Some q ->
  current_program (use_program p g) =
  if pr_link_status q then p else current_program g.
Proof.
  intros Hp Hq. unfold use_program. apply N.eqb_neq in Hp. rewrite Hp, Hq.
  destruct (pr_link_status q); reflexivity.
Qed.

(** The context at a draw call of the second program, when the vertex array
    object and the index buffer are the ones set up before the loop. *)
Lemma quad_draw_state_known (p vao ebo : GLuint) (g : GLState)
    (a : VertexArray) (b : Buffer) :
  vertex_arrays g !! vao = Some a ->
  vao_element_buffer a = ebo ->
  buffers g !! ebo = Some b ->
  objects (quad_draw_state p vao ebo g) = objects g /\
  vertex_array_binding (quad_draw_state p vao ebo g) = vao /\
  bound_buffer GL_ELEMENT_ARRAY_BUFFER (quad_draw_state p vao ebo g) = ebo /\
  current_program (quad_draw_state p vao ebo g) =
    current_program
      (use_program p (clear GL_COLOR_BUFFER_BIT (set_clear_color (0, 0, 0, 1)%Q g))).
Proof.
  intros Ha He Hb. unfold quad_draw_state.
  set (g1 := use_program p (clear GL_COLOR_BUFFER_BIT (set_clear_color (0, 0, 0, 1)%Q g))).
  assert (Hobj : objects g1 = objects g)
    by (unfold g1; rewrite use_program_objects; reflexivity).
  assert (Ha1 : vertex_arrays g1 !! vao = Some a).
  { injection Hobj as _ _ _ ->. exact Ha. }
  assert (Hb1 : buffers g1 !! ebo = Some b).
  { injection Hobj as _ _ -> _. exact Hb. }
  unfold bind_vertex_array. rewrite (touch_vertex_array_present vao g1 a Ha1).
  unfold bind_buffer. rewrite (touch_buffer_present ebo _ b) by exact Hb1.
  cbn [vertex_array_binding vertex_arrays set_vertex_array_binding set_vertex_arrays].
  assert (Hid : alter (fun a0 => mkVertexArray (vao_attribs a0) ebo) vao
                  (vertex_arrays g1) = vertex_arrays g1).
  { apply alter_id. intros a0 Ha0. rewrite Ha1 in Ha0. injection Ha0 as <-.
    rewrite <- He. destruct a; reflexivity. }
  rewrite Hid. split; [|split; [|split]].
  - rewrite <- Hobj. reflexivity.
  - reflexivity.
  - unfold bound_buffer.
    cbn [vertex_array_binding vertex_arrays set_vertex_array_binding set_vertex_arrays].
    rewrite Ha1. exact He.
  - reflexivity.
Qed.

Lemma quad_gl_objects (p vao ebo : GLuint) (g : GLState)
    (a : VertexArray) (b : Buffer) :
  vertex_arrays g !! vao = Some a ->
  vao_element_buffer a = ebo ->
  buffers g !! ebo = Some b ->
  objects (quad_gl p vao ebo g) = objects g.
Proof.
  intros Ha He Hb. unfold quad_gl, draw_elements, push_frame_op, objects.
  cbn [shaders programs buffers vertex_arrays].
  apply (quad_draw_state_known p vao ebo g a b Ha He Hb).
Qed.

Lemma window_gl_objects (g : GLState) : objects (window_gl g) = objects g.
Proof. reflexivity. Qed.

Section FrameLoopInvariant.

Variable window : GLFWwindow.
Variable G : GLState -> GLState.
Variable C : list Call.
Variable D : GLState -> list Draw.

(** A property of the context that the drawing part and a change of the
    viewport both keep. *)
Variable J : GLState -> Prop.
Hypothesis J_G : forall g, J g -> J (G g).
Hypothesis J_viewport : forall r g, J g -> J (set_viewport r g).

Lemma resize_gl_invariant (evs : list WindowEvent) (g : GLState) :
  J g -> J (resize_gl evs g).
Proof.
  revert g. induction evs as [|ev evs IH]; intros g Hg; [exact Hg|].
  rewrite resize_gl_cons. apply IH. destruct ev; [apply J_viewport|]; exact Hg.
Qed.

Lemma step_invariant (fi : FrameInput) (w : World) :
  J (gl w) -> J (gl (iterate G C window fi w)).
Proof.
  intros Hw. unfold iterate. destruct (window_of w) as [x|]; [|exact Hw].
  unfold frame_world. cbn [gl]. apply resize_gl_invariant, J_G, Hw.
Qed.

Lemma steps_invariant (fis : list FrameInput) (w : World) :
  J (gl w) -> J (gl (iterate_all G C window fis w)).
Proof.
  revert w. induction fis as [|fi rest IH]; intros w Hw; [exact Hw|].
  cbn [iterate_all fold_left]. apply IH, step_invariant, Hw.
Qed.

(** What holds of the draw calls of one pass from any context with the
    property holds of all draw calls of the run. *)
Lemma draws_seen_invariant (Q : Draw -> Prop) (fis : list FrameInput) (w : World) :
  (forall g, J g -> Forall Q (D g)) ->
  J (gl w) ->
  Forall Q (draws_seen D G C window fis w).
Proof.
  intros HD. revert w. induction fis as [|fi rest IH]; intros w Hw; [constructor|].
  cbn [draws_seen]. apply Forall_app. split; [apply HD, Hw|].
  apply IH, step_invariant, Hw.
Qed.

End FrameLoopInvariant.

(** ** What the frame loops send to the framebuffer *)

Lemma window_steps_frame_ops (window : GLFWwindow) (fis : list FrameInput)
    (w : World) :
  window_of w <> None ->
  frame_ops (gl (iterate_all window_gl (window_calls window) window fis w)) =
  frame_ops (gl w) ++ flat_map (fun _ => window_frame) fis.
Proof.
  revert w. induction fis as [|fi rest IH]; intros w Hw.
  - cbn. rewrite app_nil_r. reflexivity.
  - cbn [iterate_all fold_left flat_map].
    change (fold_left (fun w fi => iterate window_gl (window_calls window) window fi w)
              rest (iterate window_gl (window_calls window) window fi w))
      with (iterate_all window_gl (window_calls window) window rest
              (iterate window_gl (window_calls window) window fi w)).
    rewrite IH by (apply step_keeps_window; exact Hw).
    unfold iterate at 1. destruct (window_of w) as [x|]; [|congruence].
    unfold frame_world. cbn [gl].
    rewrite frame_ops_resize_gl, window_gl_frame_ops, <- app_assoc. reflexivity.
Qed.

Lemma quad_steps_frame_ops (window : GLFWwindow) (p vao ebo : GLuint)
    (fis : list FrameInput) (w : World) :
  window_of w <> None ->
  frame_ops (gl (iterate_all (quad_gl p vao ebo) (quad_calls window p vao ebo)
                   window fis w)) =
  frame_ops (gl w) ++
  flat_map quad_frame
    (draws_seen (fun g => [quad_draw p vao ebo g]) (quad_gl p vao ebo)
       (quad_calls window p vao ebo) window fis w).
Proof.
  revert w. induction fis as [|fi rest IH]; intros w Hw.
  - cbn. rewrite app_nil_r. reflexivity.
  - cbn [iterate_all fold_left draws_seen app flat_map].
    change (fold_left
              (fun w fi => iterate (quad_gl p vao ebo) (quad_calls window p vao ebo)
                             window fi w)
              rest (iterate (quad_gl p vao ebo) (quad_calls window p vao ebo) window fi w))
      with (iterate_all (quad_gl p vao ebo) (quad_calls window p vao ebo) window rest
              (iterate (quad_gl p vao ebo) (quad_calls window p vao ebo) window fi w)).
    rewrite IH by (apply step_keeps_window; exact Hw).
    unfold iterate at 1. destruct (window_of w) as [x|]; [|congruence].
    unfold frame_world. cbn [gl].
    rewrite frame_ops_resize_gl, quad_gl_frame_ops, <- app_assoc. reflexivity.
Qed.

(** ** The calls of whole runs *)

Lemma forallb_true_Forall {A} (f : A -> bool) (l : list A) :
  forallb f l = true <-> Forall (fun x => f x = true) l.
Proof.
  induction l as [|x l IH]; cbn.
  - split; [constructor | reflexivity].
  - rewrite andb_true_iff, IH. split.
    + intros [Hx Hl]. constructor; assumption.
    + intros H. inversion H; subst. split; assumption.
Qed.

Lemma steps_frame_calls (window : GLFWwindow) (G : GLState -> GLState)
    (C : list Call) (fis : list FrameInput) (w : World) :
  forallb is_frame_call C = true ->
  exists calls,
    trace (iterate_all G C window fis w) = trace w ++ calls /\
    forallb is_frame_call calls = true.
Proof.
  intros HC.
  destruct (steps_trace window G C (fun c => is_frame_call c = true) fis w)
    as (calls & Ht & Hcalls).
  - reflexivity.
  - intros [|]; repeat constructor.
  - apply forallb_true_Forall. exact HC.
  - intros evs. induction evs as [|[width height|] evs IH]; cbn;
      repeat constructor; exact IH.
  - exists calls. split; [exact Ht|].
    apply forallb_true_Forall. exact Hcalls.
Qed.

(** The calls of a run of either program that got past its startup: those of
    the startup, then calls of the frame loop, then [glfwTerminate] if the
    loop has stopped. *)
Lemma window_started_trace (fb : N * N) (drv : Driver) (frames : list FrameInput) :
  exists calls,
    forallb is_frame_call calls = true /\
    trace (snd (HelloWindow.main (mkEnv true fb true drv frames) initial_world)) =
    trace (loaded fb) ++ calls ++
    (if existsb stops frames then [Call_glfwTerminate] else []).
Proof.
  rewrite window_main_run by reflexivity. cbv zeta.
  cbn [env_frames env_framebuffer].
  destruct (steps_frame_calls the_window window_gl (window_calls the_window)
              (executed frames) (loaded fb) eq_refl) as (calls & Ht & Hcalls).
  exists (calls ++ [Call_glfwWindowShouldClose the_window]). split.
  - rewrite forallb_app, Hcalls. reflexivity.
  - destruct (existsb stops frames); cbn [snd trace checked]; unfold checked;
      cbn [trace]; rewrite Ht, <- !app_assoc; cbn [app]; try rewrite app_nil_r;
      reflexivity.
Qed.

Lemma quad_started_trace (fb : N * N) (drv : Driver) (frames : list FrameInput) :
  exists calls,
    forallb is_frame_call calls = true /\
    trace (snd (HelloQuad.main (mkEnv true fb true drv frames) initial_world)) =
    trace (quad_ready fb (quad_outcome (mkEnv true fb true drv frames))) ++ calls ++
    (if existsb stops frames then [Call_glfwTerminate] else []).
Proof.
  rewrite quad_main_run by reflexivity. cbv zeta.
  unfold quad_outcome. cbn [env_frames env_framebuffer env_driver].
  set (o := outcome_of drv HelloQuad.vertexShaderSource HelloQuad.fragmentShaderSource).
  destruct (steps_frame_calls the_window (quad_gl quad_program quad_VAO quad_EBO)
              (quad_calls the_window quad_program quad_VAO quad_EBO)
              (executed frames) (quad_ready fb o) eq_refl) as (calls & Ht & Hcalls).
  exists (calls ++ [Call_glfwWindowShouldClose the_window]). split.
  - rewrite forallb_app, Hcalls. reflexivity.
  - destruct (existsb stops frames); cbn [snd trace checked]; unfold checked;
      cbn [trace]; rewrite Ht, <- !app_assoc; cbn [app]; try rewrite app_nil_r;
      reflexivity.
Qed.

(** The calls before the loop of the second program. *)
Lemma quad_ready_trace_split (fb : N * N) (o : BuildOutcome) :
  exists build setup,
    trace (quad_ready fb o) =
      trace (loaded fb) ++
      (build ++ [Call_glDeleteShader quad_vertex_shader;
                 Call_glDeleteShader quad_fragment_shader]) ++ setup /\
    existsb is_terminate_call (build ++ setup) = false /\
    existsb uses_shader_handle setup = false.
Proof.
  destruct (quad_ready_run fb o) as (_ & _ & _ & _ & _ & ->).
  exists (build_calls_to_link HelloQuad.vertexShaderSource
            HelloQuad.fragmentShaderSource o ++
          Call_glLinkProgram 3 :: build_calls_after_link o).
  eexists. split; [|split].
  - unfold build_calls. rewrite <- !app_assoc. cbn [app]. rewrite <- !app_assoc.
    reflexivity.
  - split_outcome o; reflexivity.
  - reflexivity.
Qed.

(** The same, with the calls before the loop taken apart. *)
Lemma quad_started_trace_split (fb : N * N) (drv : Driver) (frames : list FrameInput) :
  exists build setup calls,
    trace (snd (HelloQuad.main (mkEnv true fb true drv frames) initial_world)) =
      trace (loaded fb) ++
      (build ++ [Call_glDeleteShader quad_vertex_shader;
                 Call_glDeleteShader quad_fragment_shader]) ++
      (setup ++ calls) ++
      (if existsb stops frames then [Call_glfwTerminate] else []) /\
    existsb is_terminate_call (build ++ setup) = false /\
    existsb uses_shader_handle setup = false /\
    forallb is_frame_call calls = true.
Proof.
  destruct (quad_started_trace fb drv frames) as (calls & Hcalls & ->).
  destruct (quad_ready_trace_split fb
              (quad_outcome (mkEnv true fb true drv frames)))
    as (build & setup & -> & Hplain & Hsetup).
  exists build, setup, calls. split; [|split; [|split]]; try assumption.
  rewrite <- !app_assoc. reflexivity.
Qed.

Lemma frame_call_kinds (c : Call) :
  is_frame_call c = true ->
  is_terminate_call c = false /\ uses_shader_handle c = false /\
  is_loader_call c = false.
Proof. destruct c; intros H; try discriminate H; repeat split. Qed.

Lemma frame_calls_kinds (calls : list Call) :
  forallb is_frame_call calls = true ->
  existsb is_terminate_call calls = false /\
  existsb uses_shader_handle calls = false.
Proof.
  induction calls as [|c calls IH]; [split; reflexivity|].
  cbn. intros H. apply andb_prop in H as [Hc Hcalls].
  destruct (frame_call_kinds c Hc) as (-> & -> & _). apply IH. exact Hcalls.
Qed.

Lemma frame_calls_create (calls : list Call) :
  forallb is_frame_call calls = true ->
  existsb creates_object calls = false.
Proof.
  induction calls as [|c calls IH]; [reflexivity|].
  cbn. intros H. apply andb_prop in H as [Hc Hcalls].
  rewrite (IH Hcalls), orb_false_r. destruct c; try discriminate Hc; reflexivity.
Qed.

Lemma existsb_removelast {A} (f : A -> bool) (l : list A) :
  existsb f l = false -> existsb f (removelast l) = false.
Proof.
  induction l as [|x l IH]; [reflexivity|]. cbn. intros H.
  apply orb_false_elim in H as [Hx Hl]. destruct l as [|y l]; [reflexivity|].
  cbn [existsb]. rewrite Hx. apply IH. exact Hl.
Qed.

Lemma step_console (window : GLFWwindow) (G : GLState -> GLState) (C : list Call)
    (fi : FrameInput) (w : World) :
  console (iterate G C window fi w) = console w.
Proof. unfold iterate. destruct (window_of w); reflexivity. Qed.

Lemma steps_console (window : GLFWwindow) (G : GLState -> GLState) (C : list Call)
    (fis : list FrameInput) (w : World) :
  console (iterate_all G C window fis w) = console w.
Proof.
  revert w. induction fis as [|fi rest IH]; intros w; [reflexivity|].
  cbn [iterate_all fold_left]. etransitivity; [apply IH | apply step_console].
Qed.

Lemma steps_open (window : GLFWwindow) (G : GLState -> GLState) (C : list Call)
    (fis : list FrameInput) (w : World) :
  loop_ready w = true ->
  existsb stops fis = false ->
  loop_ready (iterate_all G C window fis w) = true.
Proof.
  revert w. induction fis as [|fi rest IH]; intros w Hw Hfis; [exact Hw|].
  cbn in Hfis. apply orb_false_elim in Hfis as [Hfi Hrest].
  cbn [iterate_all fold_left]. apply IH; [|exact Hrest].
  rewrite (step_loop_ready window G C fi w Hw), Hfi. reflexivity.
Qed.

Lemma no_stop_executed (frames : list FrameInput) :
  existsb stops frames = false -> executed frames = frames.
Proof.
  induction frames as [|fi rest IH]; [reflexivity|]. cbn. intros H.
  apply orb_false_elim in H as [-> Hrest]. rewrite IH by exact Hrest. reflexivity.
Qed.

Lemma quad_ready_window (fb : N * N) (o : BuildOutcome) :
  window_of (quad_ready fb o) <> None /\
  loop_ready (quad_ready fb o) = true /\
  programs (gl (quad_ready fb o)) !! quad_program =
    Some (mkProgram [quad_vertex_shader; quad_fragment_shader] (linked o) (link_log o)) /\
  current_program (gl (quad_ready fb o)) = 0%N.
Proof.
  destruct fb as [fw fh]. split_outcome o; vm_compute; repeat split; discriminate.
Qed.

(** ** The ways out of [main] *)

(** X1.  When the window cannot be created, both programs print the failure,
    shut the library down and return -1; the loader is not called, no OpenGL
    call is made, and the last call is [glfwTerminate]. *)
Theorem window_failure_shuts_down (fb : N * N) (lok : bool) (drv : Driver)
    (frames : list FrameInput) :
  let env := mkEnv false fb lok drv frames in
  let shut (r : Outcome * World) :=
    fst r = Returned (-1) /\
    console (snd r) = ["failed to create GLFW window"%string] /\
    gl (snd r) = initial_gl /\
    glfw (snd r) = initial_glfw /\
    existsb is_loader_call (trace (snd r)) = false /\
    existsb is_gl_call (trace (snd r)) = false /\
    List.last (trace (snd r)) Call_glfwInit = Call_glfwTerminate in
  shut (HelloWindow.main env initial_world) /\
  shut (HelloQuad.main env initial_world).
Proof. split; vm_compute; repeat split. Qed.

Lemma loaded_trace_plain (fb : N * N) :
  existsb is_terminate_call (trace (loaded fb)) = false /\
  existsb is_gl_call (trace (loaded fb)) = false /\
  existsb uses_shader_handle (trace (loaded fb)) = false.
Proof. repeat split. Qed.

(** X2.  Once past its startup, either program returns exactly if some
    iteration of its loop sets the should-close flag, which an iteration
    does when its input sampling finds the key pressed or its poll finds a
    close request of the user: then the program returns 0 with the library
    shut down, [glfwTerminate] being its last call.  As long as no iteration
    has set the flag the program is still in its loop, the window is open and
    [glfwTerminate] has not been called. *)
Theorem run_ends_exactly_on_close_flag (env : Env) :
  starts env = true ->
  let ended (r : Outcome * World) :=
    if existsb stops (env_frames env)
    then fst r = Returned 0 /\
         glfw (snd r) = initial_glfw /\
         List.last (trace (snd r)) Call_glfwInit = Call_glfwTerminate
    else fst r = InLoop /\
         open_window (snd r) = true /\
         existsb is_terminate_call (trace (snd r)) = false in
  ended (HelloWindow.main env initial_world) /\
  ended (HelloQuad.main env initial_world) /\
  forall fi,
    stops fi = true <->
    fi_backspace fi = GLFW_PRESS \/ In WindowClose (fi_events fi).
Proof.
  destruct env as [wok fb lok drv frames]. unfold starts. cbn [env_window_ok env_loader_ok].
  intros H. apply andb_prop in H as [-> ->]. cbv zeta. cbn [env_frames].
  destruct (window_started_trace fb drv frames) as (wcalls & Hwcalls & Hwt).
  destruct (quad_started_trace_split fb drv frames)
    as (build & setup & qcalls & Hqt & Hplain & _ & Hqcalls).
  pose proof (window_main_run (mkEnv true fb true drv frames) eq_refl eq_refl) as Hw.
  pose proof (quad_main_run (mkEnv true fb true drv frames) eq_refl eq_refl) as Hq.
  cbv zeta in Hw, Hq. cbn [env_frames env_framebuffer env_driver] in Hw, Hq.
  rewrite existsb_app in Hplain. apply orb_false_elim in Hplain as [Hbuild Hsetup].
  split; [|split; [|exact stops_iff]].
  - destruct (existsb stops frames) eqn:Hstop.
    + rewrite Hwt. rewrite Hw. cbn [fst snd glfw].
      split; [reflexivity|]. split; [reflexivity|].
      rewrite !app_assoc. apply List.last_last.
    + rewrite Hwt. rewrite Hw. cbn [fst snd].
      split; [reflexivity|]. split.
      * unfold checked, open_window, window_of. cbn [glfw].
        apply loop_ready_open.
        apply (steps_open the_window window_gl (window_calls the_window));
          [reflexivity|]. rewrite no_stop_executed by exact Hstop. exact Hstop.
      * rewrite !existsb_app, (proj1 (frame_calls_kinds _ Hwcalls)). reflexivity.
  - destruct (existsb stops frames) eqn:Hstop.
    + rewrite Hqt. rewrite Hq. cbn [fst snd glfw].
      split; [reflexivity|]. split; [reflexivity|].
      rewrite !app_assoc. apply List.last_last.
    + rewrite Hqt. rewrite Hq. cbn [fst snd].
      split; [reflexivity|]. split.
      * unfold checked, open_window, window_of. cbn [glfw].
        apply loop_ready_open.
        apply (steps_open the_window); [apply quad_ready_window|].
        rewrite no_stop_executed by exact Hstop. exact Hstop.
      * rewrite !existsb_app, (proj1 (frame_calls_kinds _ Hqcalls)), Hbuild, Hsetup.
        reflexivity.
Qed.

Lemma run_ends_exactly_on_close_flag_witness :
  starts close_env = true /\
  fst (HelloQuad.main close_env initial_world) = Returned 0 /\
  glfw (snd (HelloQuad.main close_env initial_world)) = initial_glfw.
Proof.
  split; [reflexivity|].
  destruct (run_ends_exactly_on_close_flag close_env eq_refl) as (_ & (H1 & H2 & _) & _).
  split; [exact H1 | exact H2].
Defined.

(** ** The order of the calls of a run *)

(** X3.  In every run of either program [glfwTerminate] is called at most
    once, and when it is called it is the last call: nothing is called on a
    library that has been shut down. *)
Theorem glfwTerminate_is_the_last_call (env : Env) :
  existsb is_terminate_call
    (removelast (trace (snd (HelloWindow.main env initial_world)))) = false /\
  existsb is_terminate_call
    (removelast (trace (snd (HelloQuad.main env initial_world)))) = false.
Proof.
  destruct env as [[|] fb [|] drv frames];
    [| split; vm_compute; reflexivity ..].
  destruct (window_started_trace fb drv frames) as (wcalls & Hwcalls & ->).
  destruct (quad_started_trace_split fb drv frames)
    as (build & setup & qcalls & -> & Hplain & _ & Hqcalls).
  rewrite existsb_app in Hplain. apply orb_false_elim in Hplain as [Hbuild Hsetup].
  destruct (existsb stops frames).
  - split.
    + rewrite app_assoc, removelast_last.
      rewrite existsb_app, (proj1 (frame_calls_kinds _ Hwcalls)). reflexivity.
    + rewrite !app_assoc, removelast_last.
      rewrite !existsb_app, (proj1 (frame_calls_kinds _ Hqcalls)), Hbuild, Hsetup.
      reflexivity.
  - rewrite !app_nil_r. split; apply existsb_removelast.
    + rewrite existsb_app, (proj1 (frame_calls_kinds _ Hwcalls)). reflexivity.
    + rewrite !existsb_app, (proj1 (frame_calls_kinds _ Hqcalls)), Hbuild, Hsetup.
      reflexivity.
Qed.

(** X4.  In every run of either program the calls fall into a startup part
    without any OpenGL call and a rest; there is a rest only if the window
    was created and the loader succeeded, and then the startup part ends with
    the call of the loader.  So no OpenGL function is called before its
    pointer has been loaded. *)
Theorem gl_is_called_only_after_loading (env : Env) :
  let loaded_first (t : list Call) :=
    exists startup rest,
      t = startup ++ rest /\
      existsb is_gl_call startup = false /\
      if starts env
      then exists s, startup = s ++ [Call_gladLoadGLLoader]
      else rest = [] in
  loaded_first (trace (snd (HelloWindow.main env initial_world))) /\
  loaded_first (trace (snd (HelloQuad.main env initial_world))).
Proof.
  cbv zeta. destruct env as [[|] fb [|] drv frames]; unfold starts;
    cbn [env_window_ok env_loader_ok andb].
  - destruct (window_started_trace fb drv frames) as (wcalls & _ & ->).
    destruct (quad_started_trace_split fb drv frames)
      as (build & setup & qcalls & -> & _).
    split; exists (trace (loaded fb)); eexists;
      (split; [reflexivity|]); (split; [reflexivity|]);
      exists (removelast (trace (loaded fb))); reflexivity.
  - split; eexists; exists []; (split; [symmetry; apply app_nil_r|]);
      split; vm_compute; reflexivity.
  - split; eexists; exists []; (split; [symmetry; apply app_nil_r|]);
      split; vm_compute; reflexivity.
  - split; eexists; exists []; (split; [symmetry; apply app_nil_r|]);
      split; vm_compute; reflexivity.
Qed.

(** X5.  The first program never makes a call that takes a shader stage.  In
    every run of the second program such calls end with the two
    [glDeleteShader] calls of the build: nothing called later, in the
    geometry setup or in any iteration of the loop, is handed a stage. *)
Theorem stages_are_not_used_after_release (env : Env) :
  existsb uses_shader_handle (trace (snd (HelloWindow.main env initial_world))) = false /\
  exists used later,
    trace (snd (HelloQuad.main env initial_world)) = used ++ later /\
    existsb uses_shader_handle later = false /\
    if starts env
    then exists s,
           used = s ++ [Call_glDeleteShader quad_vertex_shader;
                        Call_glDeleteShader quad_fragment_shader]
    else used = [].
Proof.
  destruct env as [[|] fb [|] drv frames]; unfold starts;
    cbn [env_window_ok env_loader_ok andb];
    [| split;
       [ vm_compute; reflexivity
       | match goal with
         | |- context [HelloQuad.main ?e initial_world] =>
             exists [], (trace (snd (HelloQuad.main e initial_world)))
         end;
         split; [reflexivity|]; split; [vm_compute; reflexivity | reflexivity] ] ..].
  destruct (window_started_trace fb drv frames) as (wcalls & Hwcalls & ->).
  destruct (quad_started_trace_split fb drv frames)
    as (build & setup & qcalls & -> & _ & Hsetup & Hqcalls).
  split.
  - rewrite !existsb_app, (proj2 (frame_calls_kinds _ Hwcalls)).
    destruct (existsb stops frames); reflexivity.
  - exists (trace (loaded fb) ++ build ++
            [Call_glDeleteShader quad_vertex_shader;
             Call_glDeleteShader quad_fragment_shader]).
    eexists. split; [rewrite <- !app_assoc; reflexivity|]. split.
    + rewrite !existsb_app, Hsetup, (proj2 (frame_calls_kinds _ Hqcalls)).
      destruct (existsb stops frames); reflexivity.
    + exists (trace (loaded fb) ++ build). rewrite <- app_assoc. reflexivity.
Qed.

(** ** The loop of the first program *)

(** X6.  While the loop of the first program is running, one iteration makes
    exactly these calls in this order: the loop condition, the key query (and
    the close request if the key is down), [glClearColor] with the binary32
    values of the literals [1.0f], [0.325f], [0.7f] and [1.0f], which are 1,
    5452595 / 2^24, 11744051 / 2^24 and 1, then [glClear], [glfwSwapBuffers],
    [glfwPollEvents] with the callbacks of the pending resize events.  The
    framebuffer receives one clear to that colour and one presentation, and
    no object of the context is created or changed. *)
Theorem window_iteration_order (window : GLFWwindow) (fi : FrameInput)
    (rest : list FrameInput) (w : World) :
  open_window w = true ->
  exists w',
    HelloWindow.render_loop window (fi :: rest) w =
      HelloWindow.render_loop window rest w' /\
    trace w' =
      trace w ++
      [Call_glfwWindowShouldClose window; Call_glfwGetKey window GLFW_KEY_BACKSPACE] ++
      (if pressed fi then [Call_glfwSetWindowShouldClose window true] else []) ++
      [ Call_glClearColor (float_literal 1.0) (float_literal 0.325)
          (float_literal 0.7) (float_literal 1.0);
        Call_glClear GL_COLOR_BUFFER_BIT;
        Call_glfwSwapBuffers window;
        Call_glfwPollEvents ] ++
      callback_calls (polled fi w) /\
    frame_ops (gl w') =
      frame_ops (gl w) ++
      [ Cleared GL_COLOR_BUFFER_BIT
          (1, 5452595 # 16777216, 11744051 # 16777216, 1)%Q;
        Presented ] /\
    objects (gl w') = objects (gl w) /\
    float_literal 1.0 = 1%Q /\
    float_literal 0.325 = (5452595 # 2 ^ 24)%Q /\
    float_literal 0.7 = (11744051 # 2 ^ 24)%Q.
Proof.
  intros Hw.
  exists (iterate window_gl (window_calls window) window fi w).
  split.
  { rewrite !window_render_loop_shape.
    apply (frame_loop_cons window _ _ _ (window_frame_run window)). exact Hw. }
  unfold open_window in Hw. unfold iterate, polled.
  destruct (window_of w) as [x|]; [|discriminate].
  unfold frame_world, checked. cbn [gl trace].
  destruct window_literals as (H1 & H2 & H3). rewrite H1, H2, H3.
  split; [|split; [|split; [|repeat split]]].
  - unfold input_calls, pressed, window_calls.
    destruct (fi_backspace fi); rewrite <- !app_assoc; reflexivity.
  - rewrite frame_ops_resize_gl. apply window_gl_frame_ops.
  - rewrite resize_gl_objects. reflexivity.
Qed.

Lemma window_iteration_order_witness :
  open_window (loaded (1024, 1024)%N) = true /\
  exists w',
    HelloWindow.render_loop the_window [sample_stop] (loaded (1024, 1024)%N) =
      HelloWindow.render_loop the_window [] w' /\
    frame_ops (gl w') = window_frame.
Proof.
  split; [reflexivity|].
  destruct (window_iteration_order the_window sample_stop [] (loaded (1024, 1024)%N)
              eq_refl) as (w' & Hloop & _ & Hops & _).
  exists w'. split; [exact Hloop | exact Hops].
Defined.

(** X7.  The loop of the first program, entered as [main] enters it, is
    RUNNING as long as no iteration so far has set the should-close flag
    (the key was released at every input sampling and no poll found a close
    request) and STOPPED from the first iteration on that sets it, by a
    pressed key or by a close request, whatever input follows; by then it has
    cleared and presented one frame for each iteration, that one included,
    and nothing else. *)
Theorem window_loop_stops_once (window : GLFWwindow)
    (pre post : list FrameInput) (f : FrameInput) (w : World) :
  loop_ready w = true ->
  Forall (fun fi => fi_backspace fi = GLFW_RELEASE /\ ~ In WindowClose (fi_events fi))
    pre ->
  fi_backspace f = GLFW_PRESS \/ In WindowClose (fi_events f) ->
  (forall k, (k <= length pre)%nat ->
     eval (HelloWindow.render_loop window (firstn k (pre ++ f :: post))) w = RUNNING) /\
  eval (HelloWindow.render_loop window (pre ++ [f])) w = STOPPED /\
  (forall k, (length pre < k)%nat ->
     HelloWindow.render_loop window (firstn k (pre ++ f :: post)) w =
     HelloWindow.render_loop window (pre ++ [f]) w) /\
  frame_ops (gl (snd (HelloWindow.render_loop window (pre ++ f :: post) w))) =
  frame_ops (gl w) ++
  flat_map
    (fun _ => [ Cleared GL_COLOR_BUFFER_BIT
                  (float_literal 1.0, float_literal 0.325, float_literal 0.7,
                   float_literal 1.0);
                Presented ])
    (pre ++ [f]).
Proof.
  intros Hw Hpre Hf.
  apply quiet_forallb in Hpre. apply stops_iff in Hf.
  assert (Hlast : HelloWindow.render_loop window (pre ++ [f]) w =
                  (STOPPED,
                   checked window
                     (iterate_all window_gl (window_calls window) window
                        (pre ++ [f]) w))).
  { rewrite window_render_loop_run by exact Hw.
    rewrite existsb_stops_app by exact Hf.
    rewrite (executed_app_stops pre [] f Hpre Hf). reflexivity. }
  split; [|split; [|split]].
  - intros k Hk. unfold eval. rewrite window_render_loop_run by exact Hw. cbn [fst].
    rewrite firstn_app. replace (k - length pre)%nat with 0%nat by lia.
    cbn [firstn]. rewrite app_nil_r, quiet_no_stop; [reflexivity|].
    rewrite <- (firstn_skipn k pre) in Hpre. rewrite forallb_app in Hpre.
    apply andb_prop in Hpre as [H _]. exact H.
  - unfold eval. rewrite Hlast. reflexivity.
  - intros k Hk. rewrite Hlast, window_render_loop_run by exact Hw.
    rewrite firstn_app, firstn_all2 by lia.
    destruct (k - length pre)%nat as [|j] eqn:Hj; [lia|]. cbn [firstn].
    rewrite existsb_stops_app by exact Hf.
    rewrite (executed_app_stops pre (firstn j post) f Hpre Hf). reflexivity.
  - rewrite window_render_loop_run by exact Hw. cbn [snd].
    rewrite (executed_app_stops pre post f Hpre Hf). unfold checked. cbn [gl].
    destruct window_literals as (-> & -> & ->).
    apply window_steps_frame_ops, loop_ready_window, Hw.
Qed.

Lemma window_loop_stops_once_witness :
  loop_ready (loaded (1024, 1024)%N) = true /\
  Forall (fun fi => fi_backspace fi = GLFW_RELEASE /\ ~ In WindowClose (fi_events fi))
    (firstn 1 close_frames) /\
  (fi_backspace (mkFrame GLFW_RELEASE [WindowClose]) = GLFW_PRESS \/
   In WindowClose (fi_events (mkFrame GLFW_RELEASE [WindowClose]))) /\
  eval (HelloWindow.render_loop the_window (firstn 2 close_frames))
    (loaded (1024, 1024)%N) = STOPPED.
Proof.
  assert (Hpre : Forall (fun fi => fi_backspace fi = GLFW_RELEASE /\
                                   ~ In WindowClose (fi_events fi))
                   (firstn 1 close_frames)).
  { cbn. constructor; [split; [reflexivity | cbn; intros [H|[]]; discriminate H]|].
    constructor. }
  assert (Hf : fi_backspace (mkFrame GLFW_RELEASE [WindowClose]) = GLFW_PRESS \/
               In WindowClose (fi_events (mkFrame GLFW_RELEASE [WindowClose])))
    by (right; left; reflexivity).
  split; [reflexivity|]. split; [exact Hpre|]. split; [exact Hf|].
  exact (proj1 (proj2 (window_loop_stops_once the_window (firstn 1 close_frames)
                         [mkFrame GLFW_RELEASE []] (mkFrame GLFW_RELEASE [WindowClose])
                         (loaded (1024, 1024)%N) eq_refl Hpre Hf))).
Defined.

(** ** What whole runs send to the framebuffer *)

(** X8.  In every run of the first program the framebuffer receives, for
    each iteration the loop gets to run, one clear to the binary32 values of
    (1.0f, 0.325f, 0.7f, 1.0f) followed by one presentation, and nothing else
    (nothing at all when the startup fails); the program never calls a
    function that creates a shader, a program, a buffer or a vertex array
    object. *)
Theorem window_run_output (env : Env) :
  let w := snd (HelloWindow.main env initial_world) in
  frame_ops (gl w) =
    (if starts env
     then flat_map
            (fun _ => [ Cleared GL_COLOR_BUFFER_BIT
                          (float_literal 1.0, float_literal 0.325, float_literal 0.7,
                           float_literal 1.0);
                        Presented ])
            (executed (env_frames env))
     else []) /\
  existsb creates_object (trace w) = false /\
  (float_literal 1.0, float_literal 0.325, float_literal 0.7, float_literal 1.0) =
    (1, 5452595 # 2 ^ 24, 11744051 # 2 ^ 24, 1)%Q.
Proof.
  cbv zeta. destruct window_literals as (-> & -> & ->).
  destruct env as [[|] fb [|] drv frames]; unfold starts;
    cbn [env_window_ok env_loader_ok andb env_frames];
    [| split; [|split]; vm_compute; reflexivity ..].
  split; [|split; [|reflexivity]].
  - rewrite window_main_run by reflexivity. cbv zeta. cbn [env_frames env_framebuffer].
    assert (Hops :
      frame_ops (gl (iterate_all window_gl (window_calls the_window) the_window
                       (executed frames) (loaded fb))) =
      flat_map (fun _ => window_frame) (executed frames)).
    { rewrite window_steps_frame_ops by discriminate. reflexivity. }
    destruct (existsb stops frames); cbn [snd gl checked destroy_context frame_ops];
      exact Hops.
  - destruct (window_started_trace fb drv frames) as (calls & Hcalls & ->).
    rewrite !existsb_app, (frame_calls_create calls Hcalls).
    destruct (existsb stops frames); reflexivity.
Qed.

(** X9.  In every run of the second program the framebuffer receives, for
    each iteration the loop gets to run, one clear to black, one draw and one
    presentation, in this order, and nothing else. *)
Theorem quad_run_output (env : Env) :
  exists ds,
    frame_ops (gl (snd (HelloQuad.main env initial_world))) = flat_map quad_frame ds /\
    length ds = if starts env then length (executed (env_frames env)) else 0%nat.
Proof.
  destruct env as [[|] fb [|] drv frames]; unfold starts;
    cbn [env_window_ok env_loader_ok andb env_frames];
    [| exists []; split; vm_compute; reflexivity ..].
  rewrite quad_main_run by reflexivity. cbv zeta.
  cbn [env_frames env_framebuffer env_driver].
  set (o := outcome_of drv HelloQuad.vertexShaderSource HelloQuad.fragmentShaderSource).
  exists (draws_seen (fun g => [quad_draw quad_program quad_VAO quad_EBO g])
            (quad_gl quad_program quad_VAO quad_EBO)
            (quad_calls the_window quad_program quad_VAO quad_EBO) the_window
            (executed frames) (quad_ready fb o)).
  split.
  - assert (Hops :
      frame_ops (gl (iterate_all (quad_gl quad_program quad_VAO quad_EBO)
                       (quad_calls the_window quad_program quad_VAO quad_EBO)
                       the_window (executed frames) (quad_ready fb o))) =
      flat_map quad_frame
        (draws_seen (fun g => [quad_draw quad_program quad_VAO quad_EBO g])
           (quad_gl quad_program quad_VAO quad_EBO)
           (quad_calls the_window quad_program quad_VAO quad_EBO) the_window
           (executed frames) (quad_ready fb o))).
    { rewrite quad_steps_frame_ops by apply quad_ready_window.
      destruct (quad_ready_run fb o) as (_ & _ & _ & -> & _). reflexivity. }
    destruct (existsb stops frames); cbn [snd gl checked destroy_context frame_ops];
      exact Hops.
  - apply quad_draws_seen_length.
Qed.

(** ** The objects of the second program during its loop *)

Lemma objects_eq (g g' : GLState) :
  objects g = objects g' ->
  shaders g = shaders g' /\ programs g = programs g' /\
  buffers g = buffers g' /\ vertex_arrays g = vertex_arrays g'.
Proof. unfold objects. intros H. injection H. auto. Qed.

(** The loop of the second program from a world in which the vertex array
    object, the index buffer and the program exist and no program is
    current. *)
Lemma quad_loop_gl (p vao ebo : GLuint) (window : GLFWwindow)
    (fis : list FrameInput) (w : World) (a : VertexArray) (b : Buffer) (q : Program) :
  vertex_arrays (gl w) !! vao = Some a ->
  vao_element_buffer a = ebo ->
  buffers (gl w) !! ebo = Some b ->
  programs (gl w) !! p = Some q ->
  p <> 0%N ->
  current_program (gl w) = 0%N ->
  objects (gl (iterate_all (quad_gl p vao ebo) (quad_calls window p vao ebo)
                 window fis w)) = objects (gl w) /\
  Forall (fun d => d_vertex_array d = vao /\ d_element_buffer d = ebo /\
                   d_program d = if pr_link_status q then p else 0%N)
    (draws_seen (fun g => [quad_draw p vao ebo g]) (quad_gl p vao ebo)
       (quad_calls window p vao ebo) window fis w).
Proof.
  intros Ha He Hb Hq Hp Hcur.
  set (J := fun g : GLState =>
              objects g = objects (gl w) /\
              (current_program g = 0%N \/
               pr_link_status q = true /\ current_program g = p)).
  assert (Hknown : forall g, J g ->
            objects (quad_draw_state p vao ebo g) = objects g /\
            vertex_array_binding (quad_draw_state p vao ebo g) = vao /\
            bound_buffer GL_ELEMENT_ARRAY_BUFFER (quad_draw_state p vao ebo g) = ebo /\
            current_program (quad_draw_state p vao ebo g) =
              if pr_link_status q then p else 0%N).
  { intros g [Hobj Hc]. apply objects_eq in Hobj as (_ & Hgp & Hgb & Hgv).
    assert (Ha' : vertex_arrays g !! vao = Some a) by (rewrite Hgv; exact Ha).
    assert (Hb' : buffers g !! ebo = Some b) by (rewrite Hgb; exact Hb).
    assert (Hq' : programs
                    (clear GL_COLOR_BUFFER_BIT (set_clear_color (0, 0, 0, 1)%Q g)) !! p =
                  Some q) by (change (programs g !! p = Some q); rewrite Hgp; exact Hq).
    destruct (quad_draw_state_known p vao ebo g a b Ha' He Hb') as (H1 & H2 & H3 & H4).
    split; [exact H1|]. split; [exact H2|]. split; [exact H3|].
    rewrite H4, (use_program_current p _ q Hp Hq').
    cbn [current_program clear set_clear_color].
    destruct (pr_link_status q); [reflexivity|].
    destruct Hc as [Hc | [Hc _]]; [exact Hc | discriminate Hc]. }
  assert (JG : forall g, J g -> J (quad_gl p vao ebo g)).
  { intros g Hg. destruct (Hknown g Hg) as (H1 & _ & _ & H4). destruct Hg as [Hobj Hc].
    split.
    - unfold quad_gl, draw_elements, push_frame_op, objects.
      cbn [shaders programs buffers vertex_arrays].
      change (objects (quad_draw_state p vao ebo g) = objects (gl w)).
      rewrite H1. exact Hobj.
    - unfold quad_gl, draw_elements, push_frame_op. cbn [current_program].
      rewrite H4. destruct (pr_link_status q); [right; split; reflexivity | left; reflexivity]. }
  assert (JV : forall r g, J g -> J (set_viewport r g)).
  { intros r g Hg. exact Hg. }
  assert (J0 : J (gl w)) by (split; [reflexivity | left; exact Hcur]).
  split.
  - apply (steps_invariant window _ _ J JG JV _ _ J0).
  - apply (draws_seen_invariant window _ _ _ J JG JV); [|exact J0].
    intros g Hg. constructor; [|constructor].
    destruct (Hknown g Hg) as (_ & H2 & H3 & H4).
    unfold quad_draw. cbn [d_vertex_array d_element_buffer d_program].
    split; [exact H2|]. split; [exact H3 | exact H4].
Qed.

(** What [main] does after its loop keeps the record of the framebuffer and
    the console. *)
Lemma finish_keeps (r : LoopState * World) :
  frame_ops (gl (snd (finish r))) = frame_ops (gl (snd r)) /\
  console (snd (finish r)) = console (snd r).
Proof. destruct r as [[|] w]; split; reflexivity. Qed.

Lemma finish_objects (r : LoopState * World) :
  objects (gl (snd (finish r))) =
  match fst r with
  | STOPPED => (∅, ∅, ∅, ∅)
  | RUNNING => objects (gl (snd r))
  end.
Proof. destruct r as [[|] w]; reflexivity. Qed.

(** The calls of the iterations that a filter lets through are those of the
    drawing part, once for each iteration, when the filter drops the loop
    condition, the input sampling and the callbacks. *)
Lemma steps_trace_filter (f : Call -> bool) (window : GLFWwindow)
    (G : GLState -> GLState) (C : list Call) (fis : list FrameInput) (w : World) :
  window_of w <> None ->
  f (Call_glfwWindowShouldClose window) = false ->
  (forall key, List.filter f (input_calls window key) = []) ->
  (forall evs, List.filter f (callback_calls evs) = []) ->
  List.filter f (trace (iterate_all G C window fis w)) =
  List.filter f (trace w) ++ flat_map (fun _ => List.filter f C) fis.
Proof.
  intros Hw Hcheck Hinput Hcb. revert w Hw.
  induction fis as [|fi rest IH]; intros w Hw.
  - cbn. rewrite app_nil_r. reflexivity.
  - cbn [iterate_all fold_left flat_map].
    change (fold_left (fun w fi => iterate G C window fi w) rest
              (iterate G C window fi w))
      with (iterate_all G C window rest (iterate G C window fi w)).
    rewrite IH by (apply step_keeps_window; exact Hw).
    unfold iterate at 1. destruct (window_of w) as [x|]; [|congruence].
    unfold frame_world, checked. cbn [trace].
    rewrite !List.filter_app, Hinput, Hcb. cbn [List.filter]. rewrite Hcheck.
    rewrite !app_nil_r, <- !app_assoc. reflexivity.
Qed.

Lemma callback_calls_no_use_program (evs : list WindowEvent) :
  List.filter is_use_program_call (callback_calls evs) = [].
Proof. induction evs as [|[width height|] evs IH]; [reflexivity | exact IH ..]. Qed.

Lemma use_program_per_frame (window : GLFWwindow) (p vao ebo : GLuint)
    (fis : list FrameInput) :
  flat_map (fun _ => List.filter is_use_program_call (quad_calls window p vao ebo)) fis =
  map (fun _ => Call_glUseProgram p) fis.
Proof.
  induction fis as [|fi rest IH]; [reflexivity|].
  cbn [flat_map map]. rewrite IH. reflexivity.
Qed.

Lemma quad_ready_no_use_program (fb : N * N) (o : BuildOutcome) :
  List.filter is_use_program_call (trace (quad_ready fb o)) = [].
Proof.
  destruct (quad_ready_run fb o) as (_ & _ & _ & _ & _ & ->).
  split_outcome o; reflexivity.
Qed.

(** The world in which the loop of the second program is left, in terms of
    the world in which it is entered. *)
Lemma quad_loop_exit (fb : N * N) (o : BuildOutcome) (frames : list FrameInput) :
  let left :=
    snd (HelloQuad.render_loop the_window quad_program quad_VAO quad_EBO frames
           (quad_ready fb o)) in
  exists ds,
    frame_ops (gl left) = flat_map quad_frame ds /\
    length ds = length (executed frames) /\
    objects (gl left) = objects (gl (quad_ready fb o)) /\
    console left = build_console o /\
    Forall (fun d => d_vertex_array d = quad_VAO /\ d_element_buffer d = quad_EBO /\
                     d_program d = if linked o then quad_program else 0%N) ds /\
    Forall (fun d => d_mode d = GL_TRIANGLES /\ d_count d = 6 /\
                     d_type d = GL_UNSIGNED_INT /\ d_indices d = 0) ds /\
    List.filter is_use_program_call (trace left) =
      map (fun _ => Call_glUseProgram quad_program) (executed frames).
Proof.
  cbv zeta.
  destruct (quad_ready_geometry fb o) as (Hvao & _ & Hebo).
  destruct (quad_ready_window fb o) as (Hwin & Hready & Hprog & Hcur).
  destruct (quad_ready_run fb o) as (_ & _ & _ & Hops & Hcon & _).
  pose proof (quad_ready_no_use_program fb o) as Huse.
  rewrite quad_render_loop_run by exact Hready. cbn [snd].
  generalize dependent (quad_ready fb o).
  intros ready Hvao Hebo Hwin Hready Hprog Hcur Hops Hcon Huse.
  destruct (quad_loop_gl quad_program quad_VAO quad_EBO the_window (executed frames)
              ready _ _ _ Hvao eq_refl Hebo Hprog ltac:(discriminate) Hcur)
    as (Hobj & Hds).
  cbn [pr_link_status] in Hds.
  pose proof (quad_steps_frame_ops the_window quad_program quad_VAO quad_EBO
                (executed frames) ready Hwin) as Hfo.
  rewrite Hops in Hfo. cbn [app] in Hfo.
  pose proof (steps_console the_window (quad_gl quad_program quad_VAO quad_EBO)
                (quad_calls the_window quad_program quad_VAO quad_EBO)
                (executed frames) ready) as Hc.
  rewrite Hcon in Hc.
  pose proof (steps_trace_filter is_use_program_call the_window
                (quad_gl quad_program quad_VAO quad_EBO)
                (quad_calls the_window quad_program quad_VAO quad_EBO)
                (executed frames) ready Hwin eq_refl) as Htr.
  exists (draws_seen (fun g => [quad_draw quad_program quad_VAO quad_EBO g])
            (quad_gl quad_program quad_VAO quad_EBO)
            (quad_calls the_window quad_program quad_VAO quad_EBO) the_window
            (executed frames) ready).
  unfold checked. cbn [gl console trace].
  split; [exact Hfo|]. split; [apply quad_draws_seen_length|].
  split; [exact Hobj|]. split; [exact Hc|]. split; [exact Hds|]. split.
  - apply (draws_seen_invariant the_window _ _ _ (fun _ => True));
      [auto | auto | | exact I].
    intros g _. constructor; [|constructor]. repeat split.
  - rewrite List.filter_app, Htr, Huse, use_program_per_frame.
    + cbn [List.filter is_use_program_call app]. apply app_nil_r.
    + intros [|]; reflexivity.
    + apply callback_calls_no_use_program.
Qed.

Lemma In_drawn_quad_frames (d : Draw) (ds : list Draw) :
  In (Drawn d) (flat_map quad_frame ds) -> In d ds.
Proof.
  intros H. apply in_flat_map in H as (x & Hx & Hd).
  destruct Hd as [Hd | [Hd | [Hd | []]]]; try discriminate Hd.
  injection Hd as ->. exact Hx.
Qed.

(** X10.  In a run of the second program that gets past its startup, every
    draw call is issued with the vertex array object and the index buffer of
    the geometry setup bound and reads six unsigned indices from offset 0 as
    triangles.  The loop creates, changes and deletes no object: when it is
    left, the vertex array object still has attribute 0 as set up, the vertex
    buffer still holds the four corners and the index buffer the six
    indices.  The program never deletes them itself; they go with the
    context when [glfwTerminate] destroys it, so that after a run that has
    returned no object is left. *)
Theorem draws_read_the_uploaded_quad (env : Env) :
  starts env = true ->
  let ready := quad_ready (env_framebuffer env) (quad_outcome env) in
  let loop :=
    HelloQuad.render_loop the_window quad_program quad_VAO quad_EBO
      (env_frames env) ready in
  HelloQuad.main env initial_world = finish loop /\
  (forall d, In (Drawn d) (frame_ops (gl (snd loop))) -> reads_quad d) /\
  objects (gl (snd loop)) = objects (gl ready) /\
  vertex_arrays (gl (snd loop)) !! quad_VAO =
    Some (mkVertexArray
            {[ 0%N := mkVertexAttrib true 3 GL_FLOAT false (3 * sizeof_float) 0 quad_VBO ]}
            quad_EBO) /\
  buffers (gl (snd loop)) !! quad_VBO =
    Some (mkBuffer 48 (FloatData HelloQuad.vertices) GL_STATIC_DRAW) /\
  buffers (gl (snd loop)) !! quad_EBO =
    Some (mkBuffer 24 (UIntData HelloQuad.indices) GL_STATIC_DRAW) /\
  objects (gl (snd (HelloQuad.main env initial_world))) =
    match fst loop with
    | STOPPED => (∅, ∅, ∅, ∅)
    | RUNNING => objects (gl ready)
    end.
Proof.
  destruct env as [wok fb lok drv frames]. unfold starts, quad_outcome.
  cbn [env_window_ok env_loader_ok env_framebuffer env_driver env_frames].
  intros H. apply andb_prop in H as [-> ->]. cbv zeta.
  pose proof (quad_main_enters (mkEnv true fb true drv frames) eq_refl eq_refl) as Hmain.
  cbn [env_framebuffer env_driver env_frames] in Hmain.
  set (o := outcome_of drv HelloQuad.vertexShaderSource HelloQuad.fragmentShaderSource)
    in *.
  destruct (quad_loop_exit fb o frames) as (ds & Hops & _ & Hobj & _ & Hds & Hcs & _).
  cbv zeta in Hops, Hobj.
  destruct (quad_ready_geometry fb o) as (Hvao & Hvbo & Hebo).
  split; [exact Hmain|]. split; [|split; [exact Hobj|]].
  - intros d Hd. rewrite Hops in Hd. apply In_drawn_quad_frames in Hd.
    rewrite List.Forall_forall in Hds, Hcs.
    destruct (Hds d Hd) as (H1 & H2 & _). destruct (Hcs d Hd) as (H3 & H4 & H5 & H6).
    unfold reads_quad. rewrite H1, H2, H3, H4, H5, H6. repeat split.
  - rewrite Hmain, finish_objects, Hobj.
    apply objects_eq in Hobj as (_ & _ & Hb & Hv). rewrite Hb, Hv. auto.
Qed.

Lemma draws_read_the_uploaded_quad_witness :
  starts sample_env = true /\
  buffers (gl (snd (HelloQuad.render_loop the_window quad_program quad_VAO quad_EBO
                      (env_frames sample_env)
                      (quad_ready (env_framebuffer sample_env)
                         (quad_outcome sample_env))))) !! quad_EBO =
    Some (mkBuffer 24 (UIntData HelloQuad.indices) GL_STATIC_DRAW).
Proof.
  split; [reflexivity|].
  exact (proj1 (proj2 (proj2 (proj2 (proj2 (proj2
           (draws_read_the_uploaded_quad sample_env eq_refl))))))).
Defined.

(** X11.  The loop of the second program never looks at the result of the
    build: every iteration calls [glUseProgram] with the handle the build
    returned, and these are all the [glUseProgram] calls of the run; so every
    draw call is issued with that program current if it linked, and with no
    program current if it did not.  The loop does not delete the program
    object: when the loop is left it is still there, with both stages
    attached. *)
Theorem draws_use_the_program_only_if_it_linked (env : Env) :
  starts env = true ->
  let ready := quad_ready (env_framebuffer env) (quad_outcome env) in
  let loop :=
    HelloQuad.render_loop the_window quad_program quad_VAO quad_EBO
      (env_frames env) ready in
  HelloQuad.main env initial_world = finish loop /\
  List.filter is_use_program_call (trace (snd loop)) =
    map (fun _ => Call_glUseProgram quad_program) (executed (env_frames env)) /\
  (forall d, In (Drawn d) (frame_ops (gl (snd loop))) ->
     d_program d = if linked (quad_outcome env) then quad_program else 0%N) /\
  programs (gl (snd loop)) !! quad_program =
    Some (mkProgram [quad_vertex_shader; quad_fragment_shader]
            (linked (quad_outcome env)) (link_log (quad_outcome env))).
Proof.
  destruct env as [wok fb lok drv frames]. unfold starts, quad_outcome.
  cbn [env_window_ok env_loader_ok env_framebuffer env_driver env_frames].
  intros H. apply andb_prop in H as [-> ->]. cbv zeta.
  pose proof (quad_main_enters (mkEnv true fb true drv frames) eq_refl eq_refl) as Hmain.
  cbn [env_framebuffer env_driver env_frames] in Hmain.
  set (o := outcome_of drv HelloQuad.vertexShaderSource HelloQuad.fragmentShaderSource)
    in *.
  destruct (quad_loop_exit fb o frames) as (ds & Hops & _ & Hobj & _ & Hds & _ & Huse).
  cbv zeta in Hops, Hobj, Huse.
  destruct (quad_ready_window fb o) as (_ & _ & Hprog & _).
  split; [exact Hmain|]. split; [exact Huse|]. split.
  - intros d Hd. rewrite Hops in Hd. apply In_drawn_quad_frames in Hd.
    rewrite List.Forall_forall in Hds. apply (Hds d Hd).
  - apply objects_eq in Hobj as (_ & Hp & _ & _). rewrite Hp. exact Hprog.
Qed.

Lemma draws_use_the_program_only_if_it_linked_witness :
  starts sample_env = true /\
  List.filter is_use_program_call
    (trace (snd (HelloQuad.render_loop the_window quad_program quad_VAO quad_EBO
                   (env_frames sample_env)
                   (quad_ready (env_framebuffer sample_env)
                      (quad_outcome sample_env))))) =
    map (fun _ => Call_glUseProgram quad_program) (executed (env_frames sample_env)).
Proof.
  split; [reflexivity|].
  exact (proj1 (proj2 (draws_use_the_program_only_if_it_linked sample_env eq_refl))).
Defined.
(** ** The console *)

Lemma substring_length (n : nat) (s : string) :
  (String.length (substring 0 n s) <= n)%nat.
Proof.
  revert s. induction n as [|n IH]; intros [|c s]; cbn; try lia.
  specialize (IH s). lia.
Qed.

Lemma substring_prefix (n : nat) (s : string) :
  String.prefix (substring 0 n s) s = true.
Proof.
  revert s. induction n as [|n IH]; intros [|c s]; cbn; try reflexivity.
  destruct (ascii_dec c c) as [_|Hc]; [apply IH | congruence].
Qed.

(** X12.  Whatever the driver answers, the build of the second program
    prints the vertex diagnostic exactly if the vertex stage did not compile,
    and after it the link diagnostic exactly if the program did not link; so
    it prints nothing exactly if both stages compile and the link succeeds,
    and a failed vertex stage is always reported twice.  Each diagnostic is
    its fixed first line followed by what fits the 512-byte buffer: the first
    511 characters of the driver's log at most. *)
Theorem build_prints_vertex_and_link_failures (drv : Driver) (vsrc fsrc : string)
    (fb : N * N) :
  let o := outcome_of drv vsrc fsrc in
  let w := snd (HelloQuad.build_shader_program drv vsrc fsrc (loaded fb)) in
  console w =
    (if vertex_ok o then []
     else [("ERROR::SHADER::VERTEX::COMPILATION_FAILED" ++ nl ++
            read_log 512 (vertex_log o))%string]) ++
    (if vertex_ok o && fragment_ok o && link_ok o then []
     else [("ERROR::SHADER::PROGRAM::LINKING::FAILED" ++ nl ++
            read_log 512 (link_log o))%string]) /\
  length (console w) =
    (if vertex_ok o then if fragment_ok o && link_ok o then 0 else 1 else 2)%nat /\
  (String.length (read_log 512 (vertex_log o)) <= 511)%nat /\
  (String.length (read_log 512 (link_log o)) <= 511)%nat /\
  String.prefix (read_log 512 (vertex_log o)) (vertex_log o) = true /\
  String.prefix (read_log 512 (link_log o)) (link_log o) = true.
Proof.
  cbv zeta. destruct (build_run drv vsrc fsrc fb) as (_ & _ & Hc & _).
  cbv zeta in Hc. rewrite Hc. unfold build_console, linked, vertex_diagnostic,
    link_diagnostic.
  split; [reflexivity|]. split.
  - destruct (vertex_ok _), (fragment_ok _), (link_ok _); reflexivity.
  - unfold read_log. repeat split;
      first [apply (substring_length 511) | apply substring_prefix].
Qed.

(** X13.  The loops print nothing: the console of a whole run is what the
    startup left there, which is the failure message of the step that failed,
    nothing at all for the first program when it starts, and the diagnostics
    of the build for the second. *)
Theorem console_is_settled_at_startup (env : Env) :
  console (snd (HelloWindow.main env initial_world)) = startup_console env [] /\
  console (snd (HelloQuad.main env initial_world)) =
    startup_console env (build_console (quad_outcome env)).
Proof.
  destruct env as [[|] fb [|] drv frames]; unfold startup_console, quad_outcome;
    cbn [env_window_ok env_loader_ok env_driver];
    [| split; vm_compute; reflexivity ..].
  split.
  - rewrite window_main_run by reflexivity. cbv zeta.
    cbn [env_frames env_framebuffer].
    assert (Hc :
      console (iterate_all window_gl (window_calls the_window) the_window
                 (executed frames) (loaded fb)) = [])
      by (rewrite steps_console; reflexivity).
    destruct (existsb stops frames); cbn [snd console checked]; exact Hc.
  - rewrite quad_main_enters by reflexivity.
    cbn [env_frames env_framebuffer env_driver].
    rewrite (proj2 (finish_keeps _)).
    destruct (quad_loop_exit fb
                (outcome_of drv HelloQuad.vertexShaderSource
                   HelloQuad.fragmentShaderSource) frames)
      as (ds & _ & _ & _ & Hc & _).
    exact Hc.
Qed.
